(** * Account rotation, credential vault and time-window filter

    A shallow embedding of the account manager ([xhs_account_manager.py])
    and of the browser monitor's time handling, run loop and data storage
    ([xhs_browser_monitor.py]).

    Conventions of the embedding
    - a Python [str] is a [string], read as the UTF-8 encoding of the text
      (substring tests and replacements on code points and on UTF-8 bytes
      agree); [bytes] is [list byte];
    - a Python [int] is a [Z]; a [float] that holds a quotient of integers
      is kept exact, as a [Q] or as the integer it is truncated to;
    - a naive [datetime] is the number of microseconds since
      0001-01-01T00:00:00, the linear time on which Python's own comparison
      and [timedelta] arithmetic work; a [timedelta] is a number of
      microseconds;
    - [datetime.now()], [os.urandom] and the answers to [getpass] are
      arguments of the functions that read them;
    - a [dict] is an association list in insertion order;
    - a call that may raise returns a [result];
    - the [cryptography] package and the local time zone are parameters
      ([CryptoLib], [LocalZone]); [base64], [int], [strptime] and
      [fromisoformat] are modelled on the inputs the program gives them;
    - a file is what it holds: the records of the accounts file, the
      value a JSON document encodes, the header and rows of a CSV table.

    The first part holds the definitions, the second the properties. *)

From Stdlib Require Import ZArith List String Ascii Bool Lia QArith.
From Stdlib.Strings Require Import Byte.
From Stdlib Require Import DecimalString.
From Stdlib Require DecimalN DecimalPos.
Import ListNotations.
Open Scope string_scope.
Open Scope Z_scope.

(* ================================================================== *)
(** ** Exceptions *)

Inductive exn : Type :=
| ValueError (msg : string)
| OverflowError
| KeyboardInterrupt
| RuntimeError (msg : string).

Inductive result (A : Type) : Type :=
| Ok (a : A)
| Raise (e : exn).

Arguments Ok {A} a.
Arguments Raise {A} e.

Definition bind {A B} (r : result A) (k : A -> result B) : result B :=
  match r with
  | Ok a => k a
  | Raise e => Raise e
  end.

Notation "x <- r ;; k" := (bind r (fun x => k))
  (at level 61, r at next level, right associativity).
Notation "' p <- r ;; k" := (bind r (fun p => k))
  (at level 61, p pattern, r at next level, right associativity).

(* ================================================================== *)
(** ** Naive datetimes (the part of [datetime] the program uses) *)

Module Datetime.

Definition datetime := Z.
Definition timedelta := Z.

Definition MINYEAR := 1.
Definition MAXYEAR := 9999.

Definition us_per_second := 1000000.
Definition us_per_minute := 60 * us_per_second.
Definition us_per_hour := 60 * us_per_minute.
Definition us_per_day := 24 * us_per_hour.

Definition timedelta_of (days hours minutes : Z) : timedelta :=
  days * us_per_day + hours * us_per_hour + minutes * us_per_minute.

Definition is_leap (y : Z) : bool :=
  (y mod 4 =? 0) && (negb (y mod 100 =? 0) || (y mod 400 =? 0)).

Definition days_before_year (y : Z) : Z :=
  let y1 := y - 1 in y1 * 365 + y1 / 4 - y1 / 100 + y1 / 400.

Definition days_in_month (y m : Z) : Z :=
  if m =? 2 then (if is_leap y then 29 else 28)
  else if (m =? 4) || (m =? 6) || (m =? 9) || (m =? 11) then 30
  else 31.

Definition DAYS_BEFORE_MONTH : list Z :=
  [0; 0; 31; 59; 90; 120; 151; 181; 212; 243; 273; 304; 334].

Definition DAYS_IN_MONTH : list Z :=
  [0; 31; 28; 31; 30; 31; 30; 31; 31; 30; 31; 30; 31].

Definition days_before_month (y m : Z) : Z :=
  nth (Z.to_nat m) DAYS_BEFORE_MONTH 0
  + (if (2 <? m) && is_leap y then 1 else 0).

Definition ymd2ord (y m d : Z) : Z :=
  days_before_year y + days_before_month y m + d.

Definition DI400Y := days_before_year 401.
Definition DI100Y := days_before_year 101.
Definition DI4Y := days_before_year 5.

(** [_ord2ymd] of CPython's [datetime.py]. *)
Definition ord2ymd (n0 : Z) : Z * Z * Z :=
  let n := n0 - 1 in
  let n400 := n / DI400Y in
  let n := n mod DI400Y in
  let year := n400 * 400 + 1 in
  let n100 := n / DI100Y in
  let n := n mod DI100Y in
  let n4 := n / DI4Y in
  let n := n mod DI4Y in
  let n1 := n / 365 in
  let n := n mod 365 in
  let year := year + n100 * 100 + n4 * 4 + n1 in
  if (n1 =? 4) || (n100 =? 4) then (year - 1, 12, 31)
  else
    let leapyear := (n1 =? 3) && (negb (n4 =? 24) || (n100 =? 3)) in
    let month := Z.shiftr (n + 50) 5 in
    let preceding :=
      nth (Z.to_nat month) DAYS_BEFORE_MONTH 0
      + (if (2 <? month) && leapyear then 1 else 0) in
    if n <? preceding then
      let month := month - 1 in
      let preceding :=
        preceding - (nth (Z.to_nat month) DAYS_IN_MONTH 0
                     + (if (month =? 2) && leapyear then 1 else 0)) in
      (year, month, n - preceding + 1)
    else (year, month, n - preceding + 1).

(** The constructor [datetime(y, m, d, H, M, S, us)]: [None] stands for
    the [ValueError] of an out-of-range field. *)
Definition mk (y m d H M S us : Z) : option datetime :=
  if (MINYEAR <=? y) && (y <=? MAXYEAR)
     && (1 <=? m) && (m <=? 12)
     && (1 <=? d) && (d <=? days_in_month y m)
     && (0 <=? H) && (H <=? 23)
     && (0 <=? M) && (M <=? 59)
     && (0 <=? S) && (S <=? 59)
     && (0 <=? us) && (us <=? 999999)
  then Some (((ymd2ord y m d - 1) * 86400 + H * 3600 + M * 60 + S)
             * us_per_second + us)
  else None.

Definition dt_min : datetime := 0.
Definition dt_max : datetime := days_before_year 10000 * us_per_day - 1.

Definition in_range (t : Z) : bool := (dt_min <=? t) && (t <=? dt_max).

(** [dt + td] and [dt - td] raise [OverflowError] outside years 1..9999. *)
Definition add (t : datetime) (d : timedelta) : result datetime :=
  if in_range (t + d) then Ok (t + d) else Raise OverflowError.

Definition sub (t : datetime) (d : timedelta) : result datetime :=
  add t (- d).

Definition ordinal (t : datetime) : Z := t / us_per_day + 1.
Definition year (t : datetime) : Z := fst (fst (ord2ymd (ordinal t))).
Definition month (t : datetime) : Z := snd (fst (ord2ymd (ordinal t))).
Definition day (t : datetime) : Z := snd (ord2ymd (ordinal t)).
Definition hour (t : datetime) : Z := (t mod us_per_day) / us_per_hour.
Definition minute (t : datetime) : Z := (t mod us_per_hour) / us_per_minute.
Definition second (t : datetime) : Z := (t mod us_per_minute) / us_per_second.
Definition microsecond (t : datetime) : Z := t mod us_per_second.

End Datetime.

Import Datetime.

(* ================================================================== *)
(** ** Decimal fields of strings *)

Definition is_digit (c : ascii) : bool :=
  let n := N_of_ascii c in ((48 <=? n) && (n <=? 57))%N.

Definition digit_val (c : ascii) : Z := Z.of_N (N_of_ascii c) - 48.

Definition digit_char (d : Z) : ascii := ascii_of_N (Z.to_N (48 + d)).

(** Exactly [n] ASCII digits at the head of [s]: their value and the rest. *)
Fixpoint take_digits (n : nat) (s : string) : option (Z * string) :=
  match n with
  | O => Some (0, s)
  | S n' =>
      match s with
      | String c s' =>
          if is_digit c then
            match take_digits n' s' with
            | Some (v, r) => Some (digit_val c * 10 ^ Z.of_nat n' + v, r)
            | None => None
            end
          else None
      | EmptyString => None
      end
  end.

(** [expect c s]: the rest of [s] after its first character [c]. *)
Definition expect (c : ascii) (s : string) : option string :=
  match s with
  | String c' s' => if Ascii.eqb c c' then Some s' else None
  | EmptyString => None
  end.

(** The [w] low decimal digits of [n], zero padded: [%0wd] for
    [0 <= n < 10^w]. *)
Fixpoint fixed_dec (w : nat) (n : Z) : string :=
  match w with
  | O => ""
  | S w' => String (digit_char ((n / 10 ^ Z.of_nat w') mod 10)) (fixed_dec w' n)
  end.

Definition dec_string (n : Z) : string :=
  NilZero.string_of_uint (N.to_uint (Z.to_N n)).

Fixpoint zeros (n : nat) : string :=
  match n with
  | O => ""
  | S n' => String "0" (zeros n')
  end.

(** [f"{n:03d}"] for a non-negative [n]. *)
Definition format_03d (n : Z) : string :=
  let s := dec_string n in
  zeros (3 - String.length s) ++ s.

(* ================================================================== *)
(** ** [datetime.isoformat] and [datetime.fromisoformat] *)

Definition isoformat (t : datetime) : string :=
  fixed_dec 4 (year t) ++ "-" ++ fixed_dec 2 (month t) ++ "-"
  ++ fixed_dec 2 (day t) ++ "T" ++ fixed_dec 2 (hour t) ++ ":"
  ++ fixed_dec 2 (minute t) ++ ":" ++ fixed_dec 2 (second t)
  ++ (if microsecond t =? 0 then "" else "." ++ fixed_dec 6 (microsecond t)).

(** The fraction of a second: three or six digits, nothing after them. *)
Definition parse_fraction (s : string) : option Z :=
  match take_digits 6 s with
  | Some (us, "") => Some us
  | _ =>
      match take_digits 3 s with
      | Some (ms, "") => Some (ms * 1000)
      | _ => None
      end
  end.

(** [HH[:MM[:SS[.fff[fff]]]]], as (hour, minute, second, microsecond). *)
Definition parse_hh_mm_ss_ff (s : string) : option (Z * Z * Z * Z) :=
  match take_digits 2 s with
  | None => None
  | Some (H, "") => Some (H, 0, 0, 0)
  | Some (H, s1) =>
      match expect ":" s1 with
      | None => None
      | Some s2 =>
          match take_digits 2 s2 with
          | None => None
          | Some (M, "") => Some (H, M, 0, 0)
          | Some (M, s3) =>
              match expect ":" s3 with
              | None => None
              | Some s4 =>
                  match take_digits 2 s4 with
                  | None => None
                  | Some (sec, "") => Some (H, M, sec, 0)
                  | Some (sec, s5) =>
                      match expect "." s5 with
                      | None => None
                      | Some s6 =>
                          match parse_fraction s6 with
                          | Some us => Some (H, M, sec, us)
                          | None => None
                          end
                      end
                  end
              end
          end
      end
  end.

(** [datetime.fromisoformat] on the strings [isoformat] writes for naive
    datetimes ([YYYY-MM-DD], then optionally one separator character and a
    time).  [None] stands for the [ValueError] raised on anything else; a
    string with a UTC offset is outside the model (the program only stores
    [datetime.now().isoformat()]). *)
Definition fromisoformat (s : string) : option datetime :=
  match take_digits 4 s with
  | None => None
  | Some (y, s1) =>
      match expect "-" s1 with
      | None => None
      | Some s2 =>
          match take_digits 2 s2 with
          | None => None
          | Some (m, s3) =>
              match expect "-" s3 with
              | None => None
              | Some s4 =>
                  match take_digits 2 s4 with
                  | None => None
                  | Some (d, "") => mk y m d 0 0 0 0
                  | Some (d, String _ s5) =>
                      match parse_hh_mm_ss_ff s5 with
                      | Some (H, M, sec, us) => mk y m d H M sec us
                      | None => None
                      end
                  end
              end
          end
      end
  end.

(* ================================================================== *)
(** ** Python's stable [list.sort(key=...)] *)

Section Sort.

Context {A K : Type}.
Variable key : A -> K.
Variable lt : K -> K -> bool.

(** [x] goes before the first element that is not smaller than it, so
    that among equal keys the earlier element stays first. *)
Fixpoint insert (x : A) (l : list A) : list A :=
  match l with
  | [] => [x]
  | y :: l' => if lt (key y) (key x) then y :: insert x l' else x :: l
  end.

Definition sort_by_key (l : list A) : list A := fold_right insert [] l.

(** The head of a list is below every element of the list. *)
Definition head_least (l : list A) : Prop :=
  match l with
  | [] => True
  | h :: t => forall y, In y t -> lt (key y) (key h) = false
  end.

End Sort.

(** Tuple comparison of the key [(bool, int, str)]. *)
Definition key3_lt (k1 k2 : bool * Z * string) : bool :=
  let '(b1, n1, s1) := k1 in
  let '(b2, n2, s2) := k2 in
  if Bool.eqb b1 b2 then
    if n1 =? n2 then String.ltb s1 s2 else n1 <? n2
  else negb b1 && b2.

Definition Qlt_bool (a b : Q) : bool := negb (Qle_bool b a).

(* ================================================================== *)
(** ** Account records ([AccountStatus], [AccountConfig]) *)

Inductive AccountStatus : Type :=
| ACTIVE | SUSPICIOUS | LIMITED | BANNED | UNKNOWN.

Definition status_value (s : AccountStatus) : string :=
  match s with
  | ACTIVE => "active"
  | SUSPICIOUS => "suspicious"
  | LIMITED => "limited"
  | BANNED => "banned"
  | UNKNOWN => "unknown"
  end.

Record AccountConfig : Type := mkAccount {
  account_id : string;
  username : string;
  password_encrypted : string;
  phone : string;
  status : string;
  created_at : string;
  last_used_at : string;
  total_searches : Z;
  consecutive_failures : Z;
  last_error : string;
  notes : string
}.

(** Truth value of a [str]. *)
Definition truthy (s : string) : bool := negb (s =? "")%string.

(** [self.accounts : Dict[str, AccountConfig]], in insertion order. *)
Definition accounts_dict := list (string * AccountConfig).

Fixpoint dict_get (k : string) (d : accounts_dict) : option AccountConfig :=
  match d with
  | [] => None
  | (k', v) :: d' => if (k =? k')%string then Some v else dict_get k d'
  end.

Definition dict_mem (k : string) (d : accounts_dict) : bool :=
  match dict_get k d with Some _ => true | None => false end.

(** [d[k] = v]: an existing key keeps its place, a new one goes last. *)
Fixpoint dict_set (k : string) (v : AccountConfig) (d : accounts_dict)
  : accounts_dict :=
  match d with
  | [] => [(k, v)]
  | (k', v') :: d' =>
      if (k =? k')%string then (k', v) :: d' else (k', v') :: dict_set k v d'
  end.

(** [del d[k]]. *)
Fixpoint dict_del (k : string) (d : accounts_dict) : accounts_dict :=
  match d with
  | [] => []
  | (k', v') :: d' =>
      if (k =? k')%string then d' else (k', v') :: dict_del k d'
  end.

Definition dict_values (d : accounts_dict) : list AccountConfig := map snd d.

(* ================================================================== *)
(** ** Selection strategies ([AccountManager.get_next_account],
       [AccountManager.get_account_for_search]) *)

Definition banned_or_limited (acc : AccountConfig) : bool :=
  (status acc =? status_value BANNED)%string
  || (status acc =? status_value LIMITED)%string.

(** The loop of [get_next_account] over [self.accounts.items()]: the
    accounts appended to [available_accounts] and the pairs appended to
    [cooling_accounts], in iteration order. *)
Fixpoint scan_accounts (respect_cooldown : bool) (cooldown : timedelta)
    (now : datetime) (items : accounts_dict)
  : result (list AccountConfig * list (AccountConfig * datetime)) :=
  match items with
  | [] => Ok ([], [])
  | (_, acc) :: rest =>
      if banned_or_limited acc then
        scan_accounts respect_cooldown cooldown now rest
      else if respect_cooldown && truthy (last_used_at acc) then
        match fromisoformat (last_used_at acc) with
        | None => Raise (ValueError "Invalid isoformat string")
        | Some last_used =>
            cooldown_end <- add last_used cooldown ;;
            '(available, cooling) <-
              scan_accounts respect_cooldown cooldown now rest ;;
            if now <? cooldown_end
            then Ok (available, (acc, cooldown_end) :: cooling)
            else Ok (acc :: available, cooling)
        end
      else
        '(available, cooling) <-
          scan_accounts respect_cooldown cooldown now rest ;;
        Ok (acc :: available, cooling)
  end.

Definition available_key (x : AccountConfig) : bool * Z * string :=
  (negb (status x =? status_value ACTIVE)%string,
   total_searches x,
   last_used_at x).

(** [cooldown] is [timedelta(hours=cooldown_hours)]. *)
Definition get_next_account (accounts : accounts_dict)
    (respect_cooldown : bool) (cooldown : timedelta) (now : datetime)
  : result (option AccountConfig) :=
  match accounts with
  | [] => Ok None
  | _ =>
      '(available_accounts, cooling_accounts) <-
        scan_accounts respect_cooldown cooldown now accounts ;;
      match available_accounts with
      | _ :: _ =>
          Ok (hd_error (sort_by_key available_key key3_lt available_accounts))
      | [] =>
          match cooling_accounts with
          | _ :: _ =>
              Ok (option_map fst
                    (hd_error (sort_by_key snd Z.ltb cooling_accounts)))
          | [] => Ok None
          end
      end
  end.

(** [(cooldown_end - now).total_seconds() / 60], or [0] outside cooldown.
    The quotient is kept exact. *)
Definition cooldown_remaining (now : datetime) (acc : AccountConfig)
  : result Q :=
  if truthy (last_used_at acc) then
    match fromisoformat (last_used_at acc) with
    | None => Raise (ValueError "Invalid isoformat string")
    | Some last_used =>
        cooldown_end <- add last_used (timedelta_of 0 1 0) ;;
        if now <? cooldown_end
        then Ok ((inject_Z (cooldown_end - now) / inject_Z us_per_second)
                 / inject_Z 60)%Q
        else Ok 0%Q
    end
  else Ok 0%Q.

Definition account_score (now : datetime) (acc : AccountConfig) : result Q :=
  remaining <- cooldown_remaining now acc ;;
  let score := 0%Q in
  let score := (score + inject_Z (total_searches acc * 10))%Q in
  let score := (score + inject_Z (consecutive_failures acc * 50))%Q in
  let score := (score + remaining)%Q in
  let score :=
    if negb (status acc =? status_value ACTIVE)%string
    then (score + inject_Z 100)%Q else score in
  Ok score.

(** The loop of [get_account_for_search]: the pairs appended to
    [candidates]. *)
Fixpoint scan_candidates (now : datetime) (items : accounts_dict)
  : result (list (AccountConfig * Q)) :=
  match items with
  | [] => Ok []
  | (_, acc) :: rest =>
      if (status acc =? status_value BANNED)%string then
        scan_candidates now rest
      else if consecutive_failures acc >=? 3 then
        scan_candidates now rest
      else
        score <- account_score now acc ;;
        candidates <- scan_candidates now rest ;;
        Ok ((acc, score) :: candidates)
  end.

Definition get_account_for_search (accounts : accounts_dict) (now : datetime)
  : result (option AccountConfig) :=
  match accounts with
  | [] => Ok None
  | _ =>
      candidates <- scan_candidates now accounts ;;
      match candidates with
      | [] => Ok None
      | _ => Ok (option_map fst (hd_error (sort_by_key snd Qlt_bool candidates)))
      end
  end.

(** [get_all_available_accounts]. *)
Definition get_all_available_accounts (accounts : accounts_dict)
  : list AccountConfig :=
  filter (fun acc => negb (banned_or_limited acc)) (dict_values accounts).

(* ================================================================== *)
(** ** [base64.urlsafe_b64encode] and [base64.urlsafe_b64decode] *)

Definition bytes := list byte.

Module Base64.

Definition alphabet : bytes :=
  list_byte_of_string
    "ABCDEFGHIJKLMNOPQRSTUVWXYZabcdefghijklmnopqrstuvwxyz0123456789-_".

Definition pad : byte := "="%byte.

Definition char_of (i : Z) : byte := nth (Z.to_nat i) alphabet pad.

Fixpoint index_from (c : byte) (l : bytes) (i : Z) : option Z :=
  match l with
  | [] => None
  | x :: l' => if Byte.eqb c x then Some i else index_from c l' (i + 1)
  end.

Definition index_of (c : byte) : option Z := index_from c alphabet 0.

Definition val (b : byte) : Z := Z.of_N (Byte.to_N b).

Definition byte_of (n : Z) : byte :=
  match Byte.of_N (Z.to_N n) with
  | Some b => b
  | None => "000"%byte
  end.

Fixpoint urlsafe_b64encode (bs : bytes) : bytes :=
  match bs with
  | a :: b :: c :: rest =>
      let n := val a * 65536 + val b * 256 + val c in
      char_of (n / 262144) :: char_of ((n / 4096) mod 64)
      :: char_of ((n / 64) mod 64) :: char_of (n mod 64)
      :: urlsafe_b64encode rest
  | [a; b] =>
      let n := val a * 65536 + val b * 256 in
      [char_of (n / 262144); char_of ((n / 4096) mod 64);
       char_of ((n / 64) mod 64); pad]
  | [a] =>
      let n := val a * 65536 in
      [char_of (n / 262144); char_of ((n / 4096) mod 64); pad; pad]
  | [] => []
  end.

(** One group of four characters, the last one or two possibly padding. *)
Definition decode_group (c1 c2 c3 c4 : byte) : option bytes :=
  match index_of c1, index_of c2 with
  | Some i1, Some i2 =>
      if Byte.eqb c4 pad then
        if Byte.eqb c3 pad then
          let n := i1 * 262144 + i2 * 4096 in
          Some [byte_of (n / 65536)]
        else
          match index_of c3 with
          | Some i3 =>
              let n := i1 * 262144 + i2 * 4096 + i3 * 64 in
              Some [byte_of (n / 65536); byte_of ((n / 256) mod 256)]
          | None => None
          end
      else
        match index_of c3, index_of c4 with
        | Some i3, Some i4 =>
            let n := i1 * 262144 + i2 * 4096 + i3 * 64 + i4 in
            Some [byte_of (n / 65536); byte_of ((n / 256) mod 256);
                  byte_of (n mod 256)]
        | _, _ => None
        end
  | _, _ => None
  end.

(** Decoding of padded URL-safe text.  [None] stands for [binascii.Error];
    the library's tolerance for stray characters in its input is not
    modelled (the program only decodes what it encoded or read back). *)
Fixpoint urlsafe_b64decode (cs : bytes) : option bytes :=
  match cs with
  | [] => Some []
  | c1 :: c2 :: c3 :: c4 :: rest =>
      match decode_group c1 c2 c3 c4 with
      | None => None
      | Some g =>
          if Byte.eqb c4 pad then
            match rest with [] => Some g | _ => None end
          else
            match urlsafe_b64decode rest with
            | Some bs => Some (g ++ bs)%list
            | None => None
            end
      end
  | _ => None
  end.

(** The character of a sextet is found back at its index and is not the
    padding character. *)
Definition sextet_ok (i : Z) : bool :=
  match index_of (char_of i) with
  | Some j => (j =? i) && negb (Byte.eqb (char_of i) pad)
  | None => false
  end.

End Base64.

(* ================================================================== *)
(** ** The [cryptography] package *)

(** What the program uses of the package: [PBKDF2HMAC(SHA256, length=32,
    salt, iterations).derive], [Fernet(key).encrypt] (which draws an IV and
    reads the clock: the [entropy] argument) and [Fernet(key).decrypt]
    ([None] stands for [InvalidToken]).  A Fernet key is the URL-safe
    base64 text of 32 bytes. *)
Class CryptoLib : Type := {
  pbkdf2_hmac_sha256 : forall (salt : bytes) (iterations : Z) (password : bytes), bytes;
  fernet_encrypt : forall (key entropy data : bytes), bytes;
  fernet_decrypt : forall (key token : bytes), option bytes
}.

(** [str.encode()] and [bytes.decode()]. *)
Definition encode (s : string) : bytes := list_byte_of_string s.
Definition decode (b : bytes) : string := string_of_list_byte b.

(** [len(s)]: the number of code points, that is of bytes that are not
    UTF-8 continuation bytes. *)
Definition py_len (s : string) : Z :=
  Z.of_nat
    (List.length
       (filter (fun b => negb (Z.land (Base64.val b) 192 =? 128)) (encode s))).

(* ================================================================== *)
(** ** [EncryptionManager] *)

Record EncryptionManager : Type := mkEncryption {
  cipher : option bytes;
  master_password : option string
}.

Definition EncryptionManager_init : EncryptionManager :=
  {| cipher := None; master_password := None |}.

(** The files the account manager reads and writes. *)
Inductive accounts_file_content : Type :=
| NoFile
| Unloadable
| NoAccountsKey
| AccountsDoc (records : list AccountConfig).

Record Files : Type := mkFiles {
  salt_file : option bytes;
  accounts_file : accounts_file_content;
  state_files : list string
}.

Definition set_salt_file (fs : Files) (salt : option bytes) : Files :=
  {| salt_file := salt;
     accounts_file := accounts_file fs;
     state_files := state_files fs |}.

Definition set_accounts_file (fs : Files) (c : accounts_file_content) : Files :=
  {| salt_file := salt_file fs;
     accounts_file := c;
     state_files := state_files fs |}.

Definition set_state_files (fs : Files) (l : list string) : Files :=
  {| salt_file := salt_file fs;
     accounts_file := accounts_file fs;
     state_files := l |}.

(** [_get_or_create_salt]; [urandom16] is what [os.urandom(16)] returns. *)
Definition get_or_create_salt (urandom16 : bytes) (fs : Files)
  : bytes * Files :=
  match salt_file fs with
  | Some salt => (salt, fs)
  | None => (urandom16, set_salt_file fs (Some urandom16))
  end.

Definition derive_key `{CryptoLib} (urandom16 : bytes) (fs : Files)
    (password : string) : bytes * Files :=
  let '(salt, fs') := get_or_create_salt urandom16 fs in
  (Base64.urlsafe_b64encode (pbkdf2_hmac_sha256 salt 100000 (encode password)),
   fs').

Definition set_master_password `{CryptoLib} (urandom16 : bytes) (fs : Files)
    (password : string) : EncryptionManager * Files :=
  let '(key, fs') := derive_key urandom16 fs password in
  ({| cipher := Some key; master_password := Some password |}, fs').

Definition encrypt `{CryptoLib} (em : EncryptionManager) (entropy : bytes)
    (plaintext : string) : result string :=
  match cipher em with
  | None => Raise (ValueError "请先设置主密码")
  | Some key =>
      let encrypted := fernet_encrypt key entropy (encode plaintext) in
      Ok (decode (Base64.urlsafe_b64encode encrypted))
  end.

Definition decrypt `{CryptoLib} (em : EncryptionManager) (ciphertext : string)
  : result string :=
  match cipher em with
  | None => Raise (ValueError "请先设置主密码")
  | Some key =>
      match Base64.urlsafe_b64decode (encode ciphertext) with
      | None => Raise (ValueError "解密失败")
      | Some encrypted =>
          match fernet_decrypt key encrypted with
          | None => Raise (ValueError "解密失败")
          | Some decrypted => Ok (decode decrypted)
          end
      end
  end.

Definition is_initialized (em : EncryptionManager) : bool :=
  match cipher em with Some _ => true | None => false end.

(* ================================================================== *)
(** ** [AccountManager] *)

Record AccountManager : Type := mkManager {
  encryption : EncryptionManager;
  accounts : accounts_dict;
  current_account_id : option string;
  master_password_set : bool
}.

Definition AccountManager_init : AccountManager :=
  {| encryption := EncryptionManager_init;
     accounts := [];
     current_account_id := None;
     master_password_set := false |}.

Definition with_encryption (m : AccountManager) (em : EncryptionManager)
  : AccountManager :=
  {| encryption := em;
     accounts := accounts m;
     current_account_id := current_account_id m;
     master_password_set := master_password_set m |}.

Definition with_accounts (m : AccountManager) (d : accounts_dict)
  : AccountManager :=
  {| encryption := encryption m;
     accounts := d;
     current_account_id := current_account_id m;
     master_password_set := master_password_set m |}.

Definition with_master_password_set (m : AccountManager) (b : bool)
  : AccountManager :=
  {| encryption := encryption m;
     accounts := accounts m;
     current_account_id := current_account_id m;
     master_password_set := b |}.

(** [AccountConfig.create]; [now] is [datetime.now()]. *)
Definition AccountConfig_create (now : datetime)
    (account_id username password phone notes : string) : AccountConfig :=
  {| account_id := account_id;
     username := username;
     password_encrypted := "";
     phone := phone;
     status := status_value UNKNOWN;
     created_at := isoformat now;
     last_used_at := "";
     total_searches := 0;
     consecutive_failures := 0;
     last_error := "";
     notes := notes |}.

Definition set_password_encrypted (a : AccountConfig) (c : string)
  : AccountConfig :=
  {| account_id := account_id a; username := username a;
     password_encrypted := c; phone := phone a; status := status a;
     created_at := created_at a; last_used_at := last_used_at a;
     total_searches := total_searches a;
     consecutive_failures := consecutive_failures a;
     last_error := last_error a; notes := notes a |}.

Definition set_status (a : AccountConfig) (s : string) : AccountConfig :=
  {| account_id := account_id a; username := username a;
     password_encrypted := password_encrypted a; phone := phone a;
     status := s;
     created_at := created_at a; last_used_at := last_used_at a;
     total_searches := total_searches a;
     consecutive_failures := consecutive_failures a;
     last_error := last_error a; notes := notes a |}.

Definition set_failures (a : AccountConfig) (n : Z) (err : string)
  : AccountConfig :=
  {| account_id := account_id a; username := username a;
     password_encrypted := password_encrypted a; phone := phone a;
     status := status a;
     created_at := created_at a; last_used_at := last_used_at a;
     total_searches := total_searches a;
     consecutive_failures := n;
     last_error := err; notes := notes a |}.

Definition set_usage (a : AccountConfig) (last_used : string) (n : Z)
  : AccountConfig :=
  {| account_id := account_id a; username := username a;
     password_encrypted := password_encrypted a; phone := phone a;
     status := status a;
     created_at := created_at a; last_used_at := last_used;
     total_searches := n;
     consecutive_failures := consecutive_failures a;
     last_error := last_error a; notes := notes a |}.

(** [_load_accounts]: a record read later replaces an earlier one with the
    same id.  [Unloadable] is a file [yaml.safe_load] or the
    [AccountConfig] constructor rejects. *)
Definition load_accounts (m : AccountManager) (fs : Files)
  : result AccountManager :=
  match accounts_file fs with
  | NoFile => Ok (with_accounts m [])
  | Unloadable => Raise (RuntimeError "cannot load the accounts file")
  | NoAccountsKey => Ok (with_accounts m [])
  | AccountsDoc records =>
      Ok (with_accounts m
            (fold_left (fun d acc => dict_set (account_id acc) acc d)
                       records []))
  end.

(** [_save_accounts]. *)
Definition save_accounts (m : AccountManager) (fs : Files) : Files :=
  set_accounts_file fs (AccountsDoc (dict_values (accounts m))).

(** The prompt loop of [setup_master_password] for a new password;
    [inputs] are the successive answers to [getpass.getpass], which raises
    [EOFError] when there is none left. *)
Fixpoint read_new_password (inputs : list string) : result string :=
  match inputs with
  | [] => Raise (RuntimeError "EOFError")
  | password :: rest =>
      if py_len password <? 6 then read_new_password rest
      else
        match rest with
        | [] => Raise (RuntimeError "EOFError")
        | password_confirm :: rest' =>
            if (password =? password_confirm)%string then Ok password
            else read_new_password rest'
        end
  end.

(** [setup_master_password]: the master password on success, the empty
    string when verification fails. *)
Definition setup_master_password `{CryptoLib} (new_password : bool)
    (inputs : list string) (urandom16 : bytes)
    (m : AccountManager) (fs : Files)
  : result (string * AccountManager * Files) :=
  if new_password
     || match salt_file fs with Some _ => false | None => true end
  then
    password <- read_new_password inputs ;;
    let '(em, fs') := set_master_password urandom16 fs password in
    Ok (password, with_master_password_set (with_encryption m em) true, fs')
  else
    match inputs with
    | [] => Raise (RuntimeError "EOFError")
    | password :: _ =>
        let '(em, fs') := set_master_password urandom16 fs password in
        let m1 := with_encryption m em in
        match load_accounts m1 fs' with
        | Ok m2 => Ok (password, with_master_password_set m2 true, fs')
        | Raise _ => Ok ("", m1, fs')
        end
    end.

(** [add_account]. *)
Definition add_account `{CryptoLib} (now : datetime) (entropy : bytes)
    (m : AccountManager) (fs : Files)
    (username password phone notes : string)
  : result (string * AccountManager * Files) :=
  if negb (master_password_set m) then Raise (ValueError "请先设置主密码")
  else
    let account_id :=
      "acc_" ++ format_03d (Z.of_nat (List.length (accounts m)) + 1) in
    let account :=
      AccountConfig_create now account_id username password phone notes in
    c <- encrypt (encryption m) entropy password ;;
    let account := set_password_encrypted account c in
    let m' := with_accounts m (dict_set account_id account (accounts m)) in
    Ok (account_id, m', save_accounts m' fs).

(** [get_password]. *)
Definition get_password `{CryptoLib} (m : AccountManager) (account_id : string)
  : result string :=
  if negb (master_password_set m) then Raise (ValueError "请先验证主密码")
  else
    match dict_get account_id (accounts m) with
    | None => Raise (ValueError "账号不存在")
    | Some account => decrypt (encryption m) (password_encrypted account)
    end.

(** [remove_account]. *)
Definition remove_account (m : AccountManager) (fs : Files)
    (account_id : string) : bool * AccountManager * Files :=
  if dict_mem account_id (accounts m) then
    let m' := with_accounts m (dict_del account_id (accounts m)) in
    let fs' := save_accounts m' fs in
    (true, m',
     set_state_files fs'
       (filter (fun f => negb (f =? account_id)%string) (state_files fs')))
  else (false, m, fs).

(** [update_account_status]. *)
Definition update_account_status (m : AccountManager) (fs : Files)
    (account_id : string) (st : AccountStatus) (error : string)
  : AccountManager * Files :=
  match dict_get account_id (accounts m) with
  | None => (m, fs)
  | Some account =>
      let account := set_status account (status_value st) in
      let account :=
        match st with
        | SUSPICIOUS =>
            set_failures account (consecutive_failures account + 1) error
        | ACTIVE => set_failures account 0 ""
        | _ => account
        end in
      let m' := with_accounts m (dict_set account_id account (accounts m)) in
      (m', save_accounts m' fs)
  end.

(** [record_usage]. *)
Definition record_usage (now : datetime) (m : AccountManager) (fs : Files)
    (account_id : string) : AccountManager * Files :=
  match dict_get account_id (accounts m) with
  | None => (m, fs)
  | Some account =>
      let account :=
        set_usage account (isoformat now) (total_searches account + 1) in
      let m' := with_accounts m (dict_set account_id account (accounts m)) in
      (m', save_accounts m' fs)
  end.

(* ================================================================== *)
(** ** Text helpers: [in], [str.replace], [int], [strptime] *)

(** [sub in s]. *)
Fixpoint contains (sub s : string) : bool :=
  String.prefix sub s
  || match s with
     | String _ s' => contains sub s'
     | EmptyString => false
     end.

(** [s.replace(sub, "")] for a non-empty [sub]: the occurrences are found
    from the left and do not overlap; [skip] counts the characters of the
    occurrence being dropped. *)
Fixpoint remove_all_from (sub : string) (skip : nat) (s : string) : string :=
  match s with
  | EmptyString => ""
  | String c s' =>
      match skip with
      | S k => remove_all_from sub k s'
      | O =>
          if String.prefix sub s
          then remove_all_from sub (String.length sub - 1) s'
          else String c (remove_all_from sub 0 s')
      end
  end.

Definition remove_all (sub s : string) : string := remove_all_from sub 0 s.

(** White space in the ASCII range, as [str.isspace] has it. *)
Definition is_space (c : ascii) : bool :=
  let n := N_of_ascii c in
  (((9 <=? n) && (n <=? 13)) || ((28 <=? n) && (n <=? 32)))%N.

Fixpoint lstrip (s : string) : string :=
  match s with
  | String c s' => if is_space c then lstrip s' else s
  | EmptyString => ""
  end.

Fixpoint all_space (s : string) : bool :=
  match s with
  | String c s' => is_space c && all_space s'
  | EmptyString => true
  end.

(** The digits of an [int] literal, single underscores allowed between
    digits; [prev_digit] tells that the previous character was a digit. *)
Fixpoint int_digits (acc : Z) (prev_digit : bool) (s : string)
  : option (Z * string) :=
  match s with
  | String c s' =>
      if is_digit c then int_digits (acc * 10 + digit_val c) true s'
      else if Ascii.eqb c "_" then
        if prev_digit then
          match s' with
          | String c' _ =>
              if is_digit c' then int_digits acc false s' else None
          | EmptyString => None
          end
        else None
      else if prev_digit then Some (acc, s) else None
  | EmptyString => if prev_digit then Some (acc, "") else None
  end.

(** [int(s)] in base ten; [None] stands for [ValueError].  Digits and
    white space outside ASCII are not modelled. *)
Definition py_int (s : string) : option Z :=
  let s1 := lstrip s in
  let '(sign, s2) :=
    match s1 with
    | String "+" r => (1, r)
    | String "-" r => (-1, r)
    | _ => (1, s1)
    end in
  match int_digits 0 false s2 with
  | Some (v, rest) => if all_space rest then Some (sign * v) else None
  | None => None
  end.

Inductive directive : Type :=
| dY | dm | dd | dH | dM
| dLit (c : ascii)
| dSpace
| dBad.

(** The regular expression [_strptime] builds from a format: one directive
    per [%x], [\s+] for white space, the character itself otherwise. *)
Fixpoint compile_format (fmt : string) : list directive :=
  match fmt with
  | EmptyString => []
  | String "%" (String c rest) =>
      (if Ascii.eqb c "Y" then dY
       else if Ascii.eqb c "m" then dm
       else if Ascii.eqb c "d" then dd
       else if Ascii.eqb c "H" then dH
       else if Ascii.eqb c "M" then dM
       else dBad) :: compile_format rest
  | String c rest =>
      (if is_space c then dSpace else dLit c) :: compile_format rest
  end.

Definition digit_between (lo hi : Z) (c : ascii) : bool :=
  is_digit c && (lo <=? digit_val c) && (digit_val c <=? hi).

(** [%m]: [1[0-2]|0[1-9]|[1-9]]. *)
Definition match_m (s : string) : option (Z * string) :=
  match s with
  | String c1 r1 =>
      match r1 with
      | String c2 r2 =>
          if Ascii.eqb c1 "1" && digit_between 0 2 c2
          then Some (10 + digit_val c2, r2)
          else if Ascii.eqb c1 "0" && digit_between 1 9 c2
          then Some (digit_val c2, r2)
          else if digit_between 1 9 c1 then Some (digit_val c1, r1)
          else None
      | EmptyString =>
          if digit_between 1 9 c1 then Some (digit_val c1, r1) else None
      end
  | EmptyString => None
  end.

(** [%d]: [3[01]|[12]\d|0[1-9]|[1-9]| [1-9]]. *)
Definition match_d (s : string) : option (Z * string) :=
  match s with
  | String c1 r1 =>
      match r1 with
      | String c2 r2 =>
          if Ascii.eqb c1 "3" && digit_between 0 1 c2
          then Some (30 + digit_val c2, r2)
          else if digit_between 1 2 c1 && is_digit c2
          then Some (digit_val c1 * 10 + digit_val c2, r2)
          else if Ascii.eqb c1 "0" && digit_between 1 9 c2
          then Some (digit_val c2, r2)
          else if digit_between 1 9 c1 then Some (digit_val c1, r1)
          else if Ascii.eqb c1 " " && digit_between 1 9 c2
          then Some (digit_val c2, r2)
          else None
      | EmptyString =>
          if digit_between 1 9 c1 then Some (digit_val c1, r1) else None
      end
  | EmptyString => None
  end.

(** [%H]: [2[0-3]|[0-1]\d|\d]. *)
Definition match_H (s : string) : option (Z * string) :=
  match s with
  | String c1 r1 =>
      match r1 with
      | String c2 r2 =>
          if Ascii.eqb c1 "2" && digit_between 0 3 c2
          then Some (20 + digit_val c2, r2)
          else if digit_between 0 1 c1 && is_digit c2
          then Some (digit_val c1 * 10 + digit_val c2, r2)
          else if is_digit c1 then Some (digit_val c1, r1)
          else None
      | EmptyString => if is_digit c1 then Some (digit_val c1, r1) else None
      end
  | EmptyString => None
  end.

(** [%M]: [[0-5]\d|\d]. *)
Definition match_M (s : string) : option (Z * string) :=
  match s with
  | String c1 r1 =>
      match r1 with
      | String c2 r2 =>
          if digit_between 0 5 c1 && is_digit c2
          then Some (digit_val c1 * 10 + digit_val c2, r2)
          else if is_digit c1 then Some (digit_val c1, r1)
          else None
      | EmptyString => if is_digit c1 then Some (digit_val c1, r1) else None
      end
  | EmptyString => None
  end.

(** The fields [_strptime] collects, with its defaults. *)
Record tm : Type := mkTm {
  tm_year : Z; tm_mon : Z; tm_mday : Z; tm_hour : Z; tm_min : Z
}.

Definition tm_default : tm :=
  {| tm_year := 1900; tm_mon := 1; tm_mday := 1; tm_hour := 0; tm_min := 0 |}.

(** The match of the compiled format at the head of the text.  In the six
    formats of the program a shorter alternative of a directive is always
    followed by a character the rest of the pattern rejects, so the first
    alternative that matches is the one the regular expression keeps. *)
Fixpoint match_format (ds : list directive) (s : string) (t : tm)
  : option (tm * string) :=
  match ds with
  | [] => Some (t, s)
  | d :: ds' =>
      match d with
      | dY =>
          match take_digits 4 s with
          | Some (v, r) =>
              match_format ds' r
                {| tm_year := v; tm_mon := tm_mon t; tm_mday := tm_mday t;
                   tm_hour := tm_hour t; tm_min := tm_min t |}
          | None => None
          end
      | dm =>
          match match_m s with
          | Some (v, r) =>
              match_format ds' r
                {| tm_year := tm_year t; tm_mon := v; tm_mday := tm_mday t;
                   tm_hour := tm_hour t; tm_min := tm_min t |}
          | None => None
          end
      | dd =>
          match match_d s with
          | Some (v, r) =>
              match_format ds' r
                {| tm_year := tm_year t; tm_mon := tm_mon t; tm_mday := v;
                   tm_hour := tm_hour t; tm_min := tm_min t |}
          | None => None
          end
      | dH =>
          match match_H s with
          | Some (v, r) =>
              match_format ds' r
                {| tm_year := tm_year t; tm_mon := tm_mon t;
                   tm_mday := tm_mday t; tm_hour := v; tm_min := tm_min t |}
          | None => None
          end
      | dM =>
          match match_M s with
          | Some (v, r) =>
              match_format ds' r
                {| tm_year := tm_year t; tm_mon := tm_mon t;
                   tm_mday := tm_mday t; tm_hour := tm_hour t; tm_min := v |}
          | None => None
          end
      | dLit c =>
          match expect c s with
          | Some r => match_format ds' r t
          | None => None
          end
      | dSpace =>
          match s with
          | String c r =>
              if is_space c then match_format ds' (lstrip r) t else None
          | EmptyString => None
          end
      | dBad => None
      end
  end.

(** [datetime.strptime(s, fmt)]: the whole text must match, and the
    fields must make a date ([None] stands for [ValueError]).  A date
    without a year is built in 1900.  Digits outside ASCII are not
    modelled. *)
Definition strptime (s fmt : string) : option datetime :=
  match match_format (compile_format fmt) s tm_default with
  | Some (t, EmptyString) =>
      mk (tm_year t) (tm_mon t) (tm_mday t) (tm_hour t) (tm_min t) 0 0
  | _ => None
  end.

(** [dt.replace(year=y)]. *)
Definition replace_year (t : datetime) (y : Z) : option datetime :=
  mk y (month t) (day t) (hour t) (minute t) (second t) (microsecond t).

(* ================================================================== *)
(** ** Time-window filter ([_parse_timestamp], [_filter_posts_by_time]) *)

(** The local time zone of the process: [timestamp_us t] is the number of
    microseconds between the Unix epoch and the naive local datetime [t],
    that is [t.timestamp()] kept exact. *)
Class LocalZone : Type := {
  timestamp_us : datetime -> Z
}.

(** [int(t.timestamp() * 1000)]; [int] truncates toward zero. *)
Definition to_ms `{LocalZone} (t : datetime) : Z :=
  Z.quot (timestamp_us t) 1000.

(** [timedelta(...)] of [us] microseconds: more than 999999999 days raise
    [OverflowError]. *)
Definition timedelta_checked (us : Z) : result timedelta :=
  if Z.abs (us / us_per_day) <=? 999999999 then Ok us
  else Raise OverflowError.

(** The body of a [try: ... except: return 0] around a relative phrase:
    [arg] is the text left once the phrase is removed, [unit] the length of
    one unit. *)
Definition relative_ago `{LocalZone} (now : datetime) (unit : Z)
    (arg : string) : Z :=
  match py_int arg with
  | None => 0
  | Some n =>
      match (td <- timedelta_checked (n * unit) ;; sub now td) with
      | Ok t => to_ms t
      | Raise _ => 0
      end
  end.

Definition date_formats : list string :=
  ["%Y-%m-%d"; "%Y/%m/%d"; "%Y-%m-%d %H:%M"; "%Y/%m/%d %H:%M";
   "%m-%d"; "%m/%d"].

Definition yearless (fmt : string) : bool :=
  (fmt =? "%m-%d")%string || (fmt =? "%m/%d")%string.

(** The loop over [date_formats]; a format that raises is skipped. *)
Fixpoint try_formats `{LocalZone} (now : datetime) (fmts : list string)
    (timestamp_str : string) : Z :=
  match fmts with
  | [] => 0
  | fmt :: rest =>
      match strptime timestamp_str fmt with
      | None => try_formats now rest timestamp_str
      | Some parsed =>
          if yearless fmt then
            match replace_year parsed (year now) with
            | Some parsed' => to_ms parsed'
            | None => try_formats now rest timestamp_str
            end
          else to_ms parsed
      end
  end.

(** [_parse_timestamp]; [now] is [datetime.now()], and [None] is Python's
    [None]. *)
Definition parse_timestamp `{LocalZone} (now : datetime)
    (timestamp_str : option string) : result Z :=
  match timestamp_str with
  | None => Ok 0
  | Some s =>
      if negb (truthy s) then Ok 0
      else if contains "刚刚" s then Ok (to_ms now)
      else if contains "分钟前" s then
        Ok (relative_ago now us_per_minute (remove_all "分钟前" s))
      else if contains "小时前" s then
        Ok (relative_ago now us_per_hour (remove_all "小时前" s))
      else if contains "天前" s then
        Ok (relative_ago now us_per_day (remove_all "天前" s))
      else if contains "昨天" s then
        t <- sub now (timedelta_of 1 0 0) ;; Ok (to_ms t)
      else if contains "前天" s then
        t <- sub now (timedelta_of 2 0 0) ;; Ok (to_ms t)
      else Ok (try_formats now date_formats s)
  end.

(** A post as the extraction step builds it (a [dict]); [post.get] of an
    absent [timestamp_unix] is [0], of an absent [timestamp] is [None]. *)
Record Post : Type := mkPost {
  post_id : string;
  title : string;
  post_timestamp_raw : option string;
  timestamp_unix : Z;
  keyword : string
}.

(** One iteration of the loop of [_filter_posts_by_time]: is the post
    appended to [filtered]? *)
Definition keep_post `{LocalZone} (now : datetime)
    (start_timestamp end_timestamp : Z) (post : Post) : result bool :=
  let post_timestamp := timestamp_unix post in
  post_timestamp <-
    (if (post_timestamp =? 0)
        && match post_timestamp_raw post with
           | Some s => truthy s
           | None => false
           end
     then parse_timestamp now (post_timestamp_raw post)
     else Ok post_timestamp) ;;
  if (start_timestamp <=? post_timestamp) && (post_timestamp <=? end_timestamp)
  then Ok true
  else if post_timestamp =? 0 then Ok true
  else Ok false.

Fixpoint filter_loop `{LocalZone} (now : datetime)
    (start_timestamp end_timestamp : Z) (posts : list Post)
  : result (list Post) :=
  match posts with
  | [] => Ok []
  | post :: rest =>
      k <- keep_post now start_timestamp end_timestamp post ;;
      filtered <- filter_loop now start_timestamp end_timestamp rest ;;
      Ok (if k then post :: filtered else filtered)
  end.

(** [_filter_posts_by_time]; [time_range] is [self.time_range].  The code
    reads the clock each time it parses a raw timestamp; one call of the
    filter is given one reading, [now]. *)
Definition filter_posts_by_time `{LocalZone} (now : datetime)
    (time_range : datetime * datetime) (posts : list Post)
  : result (list Post) :=
  let start_timestamp := to_ms (fst time_range) in
  let end_timestamp := to_ms (snd time_range) in
  filter_loop now start_timestamp end_timestamp posts.

(* ================================================================== *)
(** ** The run loop ([XiaohongshuBrowserMonitor.run]) *)

Record Comment : Type := mkComment {
  comment_id : string;
  comment_post_id : string;
  content : string
}.

Record Stats : Type := mkStats {
  total_posts : Z;
  total_comments : Z;
  keywords_processed : Z;
  start_time : option string;
  end_time : option string
}.

Definition Stats_init : Stats :=
  {| total_posts := 0; total_comments := 0; keywords_processed := 0;
     start_time := None; end_time := None |}.

(** The [results] dictionary handed to [save_results]. *)
Record Results : Type := mkResults {
  res_posts : list Post;
  res_comments : list Comment;
  res_stats : Stats;
  res_keywords : list string
}.

(** What one iteration of the keyword loop does, as decided by the account
    manager and the browser: a search that returned (after a successful
    login), a failed login (the account is marked suspicious), no account
    to use (the keyword is skipped), an exception raised before the search
    returned, or one raised after its results were added (by
    [record_usage], [page.close] or the pause between keywords). *)
Inductive keyword_event : Type :=
| Searched (posts : list Post) (comments : list Comment)
| LoginFailed
| NoAccount
| Throws (e : exn)
| SearchedThenThrows (posts : list Post) (comments : list Comment) (e : exn).

(** [KeyboardInterrupt] is not an [Exception]. *)
Definition is_Exception (e : exn) : bool :=
  match e with
  | KeyboardInterrupt => false
  | _ => true
  end.

(** What the world does during one run: [init_browser], then (without an
    account manager) the single context and login before the loop, then
    one event per keyword of [config.keywords]. *)
Record RunScript : Type := mkScript {
  has_account_manager : bool;
  start_now : datetime;
  end_now : datetime;
  init_browser_io : option exn;
  setup_io : option exn;
  keyword_events : list (string * keyword_event)
}.

Definition config_keywords (sc : RunScript) : list string :=
  map fst (keyword_events sc).

(** The local variables of [run] and [self.stats]. *)
Record RunState : Type := mkRunState {
  all_posts : list Post;
  all_comments : list Comment;
  stats : Stats
}.

Definition after_search (st : RunState) (posts : list Post)
    (comments : list Comment) : RunState :=
  {| all_posts := (all_posts st ++ posts)%list;
     all_comments := (all_comments st ++ comments)%list;
     stats :=
       {| total_posts := total_posts (stats st) + Z.of_nat (List.length posts);
          total_comments :=
            total_comments (stats st) + Z.of_nat (List.length comments);
          keywords_processed := keywords_processed (stats st) + 1;
          start_time := start_time (stats st);
          end_time := end_time (stats st) |} |}.

(** The keyword loop.  With an account manager an exception of an
    iteration leaves the loop; without one, the iteration's own
    [except Exception] swallows it and the loop goes on. *)
Fixpoint keyword_loop (with_manager : bool) (evs : list keyword_event)
    (st : RunState) : RunState * option exn :=
  match evs with
  | [] => (st, None)
  | ev :: rest =>
      match ev with
      | Searched posts comments =>
          keyword_loop with_manager rest (after_search st posts comments)
      | LoginFailed => keyword_loop with_manager rest st
      | NoAccount => keyword_loop with_manager rest st
      | Throws e =>
          if with_manager || negb (is_Exception e) then (st, Some e)
          else keyword_loop with_manager rest st
      | SearchedThenThrows posts comments e =>
          let st' := after_search st posts comments in
          if with_manager || negb (is_Exception e) then (st', Some e)
          else keyword_loop with_manager rest st'
      end
  end.

(** The statements of the [try] block before [results] is built. *)
Definition try_body (sc : RunScript) (st : RunState)
  : RunState * option exn :=
  if has_account_manager sc then
    keyword_loop true (map snd (keyword_events sc)) st
  else
    match setup_io sc with
    | Some e => (st, Some e)
    | None =>
        keyword_loop false (map snd (keyword_events sc)) st
    end.

Definition make_results (sc : RunScript) (st : RunState) : Results :=
  {| res_posts := all_posts st;
     res_comments := all_comments st;
     res_stats := stats st;
     res_keywords := config_keywords sc |}.

(** How [run] ends. *)
Inductive RunExit : Type :=
| Returned (results : Results)
| ReturnedAfterInterrupt (results : Results)
| Reraised (e : exn).

(** The end of a run: how it ended, and the result documents
    [save_results] wrote, oldest first (writing is taken to succeed). *)
Record RunEnd : Type := mkRunEnd {
  run_exit : RunExit;
  saved : list Results
}.

Definition nonempty {A} (l : list A) : bool :=
  match l with [] => false | _ => true end.

(** The [finally] block sets [self.stats["end_time"]]; the dictionary that
    [run] returns holds [self.stats] itself, so it shows the end time,
    while the document written before does not. *)
Definition with_end_time (sc : RunScript) (r : Results) : Results :=
  {| res_posts := res_posts r;
     res_comments := res_comments r;
     res_stats :=
       {| total_posts := total_posts (res_stats r);
          total_comments := total_comments (res_stats r);
          keywords_processed := keywords_processed (res_stats r);
          start_time := start_time (res_stats r);
          end_time := Some (isoformat (end_now sc)) |};
     res_keywords := res_keywords r |}.

(** The end of the [try] statement: the normal end of its block, the
    [except KeyboardInterrupt] clause, the [except Exception] clause (which
    saves only when a post or a comment was collected, then raises again). *)
Definition try_end (sc : RunScript) (st : RunState) (raised : option exn)
  : RunEnd :=
  match raised with
  | None =>
      let results := make_results sc st in
      {| run_exit := Returned (with_end_time sc results);
         saved := [results] |}
  | Some KeyboardInterrupt =>
      let results := make_results sc st in
      {| run_exit := ReturnedAfterInterrupt (with_end_time sc results);
         saved := [results] |}
  | Some e =>
      if nonempty (all_posts st) || nonempty (all_comments st) then
        {| run_exit := Reraised e; saved := [make_results sc st] |}
      else {| run_exit := Reraised e; saved := [] |}
  end.

(** [run].  [init_browser] is called before the [try] statement. *)
Definition run (sc : RunScript) : RunEnd :=
  let st :=
    {| all_posts := []; all_comments := [];
       stats :=
         {| total_posts := 0; total_comments := 0; keywords_processed := 0;
            start_time := Some (isoformat (start_now sc));
            end_time := None |} |} in
  match init_browser_io sc with
  | Some e => {| run_exit := Reraised e; saved := [] |}
  | None =>
      let '(st', raised) := try_body sc st in
      try_end sc st' raised
  end.

(* ================================================================== *)
(** ** The selection strategies in the words of the specification

    The definitions of this part follow the specification, not the code;
    the theorems compare the two. *)

(** The candidates of the scored selection, in the spec's words: not
    banned, fewer than three consecutive failures. *)
Definition is_candidate (a : AccountConfig) : bool :=
  negb (status a =? status_value BANNED)%string
  && (consecutive_failures a <? 3).

(** The score in the spec's words; the remaining cooldown is the part of
    the hour after the last use that is still to come, in minutes. *)
Definition spec_remaining_minutes (now : datetime) (a : AccountConfig) : Q :=
  if truthy (last_used_at a) then
    match fromisoformat (last_used_at a) with
    | Some last_used =>
        (inject_Z (Z.max 0 (last_used + us_per_hour - now))
         / inject_Z us_per_minute)%Q
    | None => 0%Q
    end
  else 0%Q.

Definition spec_score (now : datetime) (a : AccountConfig) : Q :=
  (inject_Z (total_searches a * 10)
   + inject_Z (consecutive_failures a * 50)
   + spec_remaining_minutes now a
   + (if (status a =? status_value ACTIVE)%string then 0 else inject_Z 100))%Q.

(** The stored time of last use can be read, and the end of its cooldown
    is a date. *)
Definition last_used_ok (cooldown : timedelta) (a : AccountConfig) : bool :=
  if truthy (last_used_at a) then
    match fromisoformat (last_used_at a) with
    | Some last_used => in_range (last_used + cooldown)
    | None => false
    end
  else true.

(** The accounts left once the banned and the limited ones are set aside. *)
Definition spec_eligible (a : AccountConfig) : bool :=
  negb ((status a =? "banned")%string || (status a =? "limited")%string).

(** The end of the cooldown of an account that was used. *)
Definition spec_cooldown_end (cooldown : timedelta) (a : AccountConfig)
  : option datetime :=
  if (last_used_at a =? "")%string then None
  else option_map (fun last_used => last_used + cooldown)
                  (fromisoformat (last_used_at a)).

(** Cooling: within the cooldown. *)
Definition spec_cooling (cooldown : timedelta) (now : datetime)
    (a : AccountConfig) : bool :=
  match spec_cooldown_end cooldown a with
  | Some e => now <? e
  | None => false
  end.

(** Available: never used, or the last use is at least the cooldown ago. *)
Definition spec_available (cooldown : timedelta) (now : datetime)
    (a : AccountConfig) : bool :=
  (last_used_at a =? "")%string
  || match spec_cooldown_end cooldown a with
     | Some e => e <=? now
     | None => false
     end.

(** [b] comes strictly before [a] in the order
    (status is not active, number of uses, time of last use). *)
Definition spec_before (b a : AccountConfig) : Prop :=
  let active x := (status x =? "active")%string in
  (active b = true /\ active a = false)
  \/ (active b = active a /\ total_searches b < total_searches a)
  \/ (active b = active a /\ total_searches b = total_searches a
      /\ String.ltb (last_used_at b) (last_used_at a) = true).

(* ================================================================== *)
(** ** Sample registries *)

Definition example_now : datetime :=
  Eval vm_compute in
    match mk 2024 6 1 12 0 0 0 with Some t => t | None => 0 end.

Definition limited_account : AccountConfig :=
  {| account_id := "acc_001"; username := "13800000001";
     password_encrypted := ""; phone := "";
     status := "limited"; created_at := "2024-05-01T08:00:00";
     last_used_at := ""; total_searches := 8; consecutive_failures := 0;
     last_error := ""; notes := "" |}.

Definition failing_account : AccountConfig :=
  {| account_id := "acc_001"; username := "13800000001";
     password_encrypted := ""; phone := "";
     status := "suspicious"; created_at := "2024-05-01T08:00:00";
     last_used_at := ""; total_searches := 2; consecutive_failures := 5;
     last_error := "登录失败"; notes := "" |}.

Definition active_account (id : string) (uses : Z) (last_used : string)
  : AccountConfig :=
  {| account_id := id; username := "user_" ++ id;
     password_encrypted := ""; phone := "";
     status := "active"; created_at := "2024-05-01T08:00:00";
     last_used_at := last_used; total_searches := uses;
     consecutive_failures := 0; last_error := ""; notes := "" |}.

(* ================================================================== *)
(** ** The library's contract, and a cipher to run examples with *)

(** The laws of Fernet the vault relies on: decryption undoes encryption
    under the same key, and a token is rejected under any other key. *)
Definition fernet_roundtrip_law `{CryptoLib} : Prop :=
  forall key entropy data,
    fernet_decrypt key (fernet_encrypt key entropy data) = Some data.

Definition fernet_authentic_law `{CryptoLib} : Prop :=
  forall key key' entropy data,
    key <> key' ->
    fernet_decrypt key' (fernet_encrypt key entropy data) = None.

(** A small cipher with these laws, to run the vault on examples: the
    token is the key, preceded by its length in unary, then the data. *)
Definition toy_header (key : bytes) : bytes :=
  (repeat "001"%byte (List.length key) ++ "000"%byte :: key)%list.

Fixpoint strip_prefix (p l : bytes) : option bytes :=
  match p, l with
  | [], _ => Some l
  | a :: p', b :: l' => if Byte.eqb a b then strip_prefix p' l' else None
  | _ :: _, [] => None
  end.

Definition ToyCrypto : CryptoLib := {|
  pbkdf2_hmac_sha256 salt iterations password := (salt ++ password)%list;
  fernet_encrypt key entropy data := (toy_header key ++ data)%list;
  fernet_decrypt key token := strip_prefix (toy_header key) token
|}.


Definition sample_salt : bytes := encode "0123456789abcdef".

Definition sample_files : Files :=
  {| salt_file := Some sample_salt; accounts_file := NoFile;
     state_files := [] |}.

(* ================================================================== *)
(** ** Scenarios *)

(** A manager whose master password has just been set, with no account. *)
Definition fresh_manager `{CryptoLib} (urandom16 : bytes) (fs : Files)
    (master : string) : AccountManager * Files :=
  let '(em, fs') := set_master_password urandom16 fs master in
  (with_master_password_set (with_encryption AccountManager_init em) true, fs').

(** Add two accounts, remove the first, add a third: the id the third
    call returns, the registry before it and the registry after it. *)
Definition add_remove_add `{CryptoLib} (now : datetime) (entropy : bytes)
    (m : AccountManager) (fs : Files) (u1 p1 u2 p2 u3 p3 : string)
  : result (string * accounts_dict * accounts_dict) :=
  '(id1, m1, fs1) <- add_account now entropy m fs u1 p1 "" "" ;;
  '(id2, m2, fs2) <- add_account now entropy m1 fs1 u2 p2 "" "" ;;
  let '(_, m3, fs3) := remove_account m2 fs2 id1 in
  '(id3, m4, fs4) <- add_account now entropy m3 fs3 u3 p3 "" "" ;;
  Ok (id3, accounts m3, accounts m4).

(* ================================================================== *)
(** ** What a run collects, in the words of the specification *)

(** The events the keyword loop goes through before it ends or an
    exception leaves it; a search whose iteration raises afterwards counts
    as a search. *)
Fixpoint executed (with_manager : bool) (evs : list keyword_event)
  : list keyword_event :=
  match evs with
  | [] => []
  | Throws e :: rest =>
      if with_manager || negb (is_Exception e) then []
      else Throws e :: executed with_manager rest
  | SearchedThenThrows posts comments e :: rest =>
      if with_manager || negb (is_Exception e) then [Searched posts comments]
      else Searched posts comments :: executed with_manager rest
  | ev :: rest => ev :: executed with_manager rest
  end.

(** The events a run goes through: none when the browser cannot be
    opened or, without an account manager, when the context or the login
    before the loop raise. *)
Definition executed_events (sc : RunScript) : list keyword_event :=
  match init_browser_io sc with
  | Some _ => []
  | None =>
      if has_account_manager sc
      then executed true (map snd (keyword_events sc))
      else
        match setup_io sc with
        | Some _ => []
        | None => executed false (map snd (keyword_events sc))
        end
  end.

Definition gathered_posts (evs : list keyword_event) : list Post :=
  flat_map (fun ev => match ev with Searched p _ => p | _ => [] end) evs.

Definition gathered_comments (evs : list keyword_event) : list Comment :=
  flat_map (fun ev => match ev with Searched _ c => c | _ => [] end) evs.

Definition searches (evs : list keyword_event) : Z :=
  Z.of_nat
    (List.length
       (filter (fun ev => match ev with Searched _ _ => true | _ => false end)
               evs)).

Definition sample_post : Post :=
  {| post_id := "xhs_1717243200_000"; title := "GEO"; 
     post_timestamp_raw := Some "3天前"; timestamp_unix := 0;
     keyword := "GEO 优化" |}.

(** A run with an account manager whose first keyword fails before
    anything was collected. *)
Definition failing_run : RunScript :=
  {| has_account_manager := true;
     start_now := example_now; end_now := example_now;
     init_browser_io := None; setup_io := None;
     keyword_events :=
       [("GEO 优化", Throws (RuntimeError "Target closed"));
        ("AI 搜索排名", Searched [sample_post] [])] |}.

(** Three keywords and no account to use. *)
Definition no_account_run : RunScript :=
  {| has_account_manager := true;
     start_now := example_now; end_now := example_now;
     init_browser_io := None; setup_io := None;
     keyword_events :=
       [("GEO 优化", NoAccount); ("AI 搜索排名", NoAccount);
        ("品牌获客", NoAccount)] |}.

(** The registry of the rotation demonstration, read at noon on
    2024-06-01: a fresh account, one used half an hour ago, one used two
    hours ago, a suspicious one and a limited one. *)
Definition demo_account (id : string) (uses : Z) (st : AccountStatus)
    (last_used : string) : AccountConfig :=
  {| account_id := id; username := "user_" ++ id;
     password_encrypted := "encrypted_password"; phone := "";
     status := status_value st; created_at := "2024-05-01T08:00:00";
     last_used_at := last_used; total_searches := uses;
     consecutive_failures := 0; last_error := ""; notes := "" |}.

Definition demo_registry : accounts_dict :=
  [("acc_001", demo_account "acc_001" 5 ACTIVE "");
   ("acc_002", demo_account "acc_002" 12 ACTIVE "2024-06-01T11:30:00");
   ("acc_003", demo_account "acc_003" 3 ACTIVE "2024-06-01T10:00:00.250000");
   ("acc_004", demo_account "acc_004" 20 SUSPICIOUS "2024-06-01T07:00:00");
   ("acc_005", demo_account "acc_005" 8 LIMITED "")].

(* ================================================================== *)
(** ** Time zones, and the time-window filter in the words of the
       specification *)

(** 1970-01-01T00:00:00. *)
Definition epoch : datetime :=
  Eval vm_compute in
    match mk 1970 1 1 0 0 0 0 with Some t => t | None => 0 end.

(** A zone that keeps one offset from UTC all year. *)
Definition FixedZone (utcoffset : timedelta) : LocalZone :=
  {| timestamp_us t := t - epoch - utcoffset |}.

Definition Shanghai : LocalZone := FixedZone (8 * us_per_hour).

(** The zone does not change its offset: equal lapses of local time and of
    Unix time. *)
Definition fixed_offset `{LocalZone} : Prop :=
  forall t d, timestamp_us (t - d) = timestamp_us t - d.

(** None of the relative phrases occurs in the text. *)
Definition no_relative_phrase (s : string) : bool :=
  negb (contains "刚刚" s) && negb (contains "分钟前" s)
  && negb (contains "小时前" s) && negb (contains "天前" s)
  && negb (contains "昨天" s) && negb (contains "前天" s).

(** The text [MM<sep>DD] with two digits each. *)
Definition mmdd_text (sep : string) (m d : Z) : string :=
  fixed_dec 2 m ++ sep ++ fixed_dec 2 d.

Definition is_none {A} (o : option A) : bool :=
  match o with None => true | Some _ => false end.

(** What the parser does with [MM-DD] and [MM/DD] before it looks at the
    clock: no relative phrase, no format with a year matches, and the
    format without a year gives that month and day at midnight. *)
Definition mmdd_static (m d : Z) : bool :=
  let s1 := mmdd_text "-" m d in
  let s2 := mmdd_text "/" m d in
  no_relative_phrase s1 && no_relative_phrase s2
  && truthy s1 && truthy s2
  && forallb (fun fmt => is_none (strptime s1 fmt))
       ["%Y-%m-%d"; "%Y/%m/%d"; "%Y-%m-%d %H:%M"; "%Y/%m/%d %H:%M"]
  && forallb (fun fmt => is_none (strptime s2 fmt))
       ["%Y-%m-%d"; "%Y/%m/%d"; "%Y-%m-%d %H:%M"; "%Y/%m/%d %H:%M"; "%m-%d"]
  && match strptime s1 "%m-%d", strptime s2 "%m/%d" with
     | Some p1, Some p2 =>
         (p1 =? p2) && (month p1 =? m) && (day p1 =? d)
         && (hour p1 =? 0) && (minute p1 =? 0) && (second p1 =? 0)
         && (microsecond p1 =? 0)
     | _, _ => false
     end.

(** The days of a year that is not a leap year, as (month, day). *)
Definition common_year_days : list (Z * Z) :=
  flat_map
    (fun m =>
       map (fun d => (m, Z.of_nat d))
           (seq 1 (Z.to_nat (days_in_month 1900 m))))
    (map Z.of_nat (seq 1 12)).

(** The canonical timestamp of a post at filtering time: the stored
    [timestamp_unix], or, when that is 0, what the raw text parses to
    (0 when it does not parse or there is none). *)
Definition canonical_timestamp `{LocalZone} (now : datetime) (p : Post) : Z :=
  if timestamp_unix p =? 0 then
    match parse_timestamp now (post_timestamp_raw p) with
    | Ok v => v
    | Raise _ => 0
    end
  else timestamp_unix p.

(** Inside the window, or without a usable timestamp. *)
Definition retained `{LocalZone} (now : datetime)
    (time_range : datetime * datetime) (p : Post) : bool :=
  let ts := canonical_timestamp now p in
  ((to_ms (fst time_range) <=? ts) && (ts <=? to_ms (snd time_range)))
  || (ts =? 0).

Definition week_before (now : datetime) : datetime * datetime :=
  (now - 7 * us_per_day, now).

Definition sample_posts : list Post :=
  [{| post_id := "xhs_1717214400_000"; title := "in the window";
      post_timestamp_raw := Some "2024-05-30"; timestamp_unix := 1717027200000;
      keyword := "GEO 优化" |};
   {| post_id := "xhs_1717214400_001"; title := "too old";
      post_timestamp_raw := Some "2024-01-15"; timestamp_unix := 1705248000000;
      keyword := "GEO 优化" |};
   {| post_id := "xhs_1717214400_002"; title := "no usable time";
      post_timestamp_raw := Some "编辑于 北京"; timestamp_unix := 0;
      keyword := "GEO 优化" |};
   {| post_id := "xhs_1717214400_003"; title := "parsed when filtered";
      post_timestamp_raw := Some "3天前"; timestamp_unix := 0;
      keyword := "GEO 优化" |}].

(** A vault opened with the master password "correct horse" that holds
    one account. *)
Definition vault_with_one_account : result (AccountManager * Files) :=
  let '(m, fs) :=
    @fresh_manager ToyCrypto sample_salt sample_files "correct horse" in
  '(_, m1, fs1) <-
    @add_account ToyCrypto example_now [] m fs "13800000001" "s3cret" "" "" ;;
  Ok (m1, fs1).

(* ================================================================== *)
(** ** The registry as the account manager keeps it *)

(** Every record is stored under its own id, and no id is stored twice:
    [add_account] and [_load_accounts] both write
    [self.accounts[acc.account_id] = acc]. *)
Fixpoint registry_ok (d : accounts_dict) : bool :=
  match d with
  | [] => true
  | (k, a) :: d' =>
      (k =? account_id a)%string && negb (dict_mem k d') && registry_ok d'
  end.

(** [get_account]: the record, and the decrypted password the method
    hangs on it. *)
Definition get_account `{CryptoLib} (m : AccountManager) (account_id : string)
  : result (option (AccountConfig * string)) :=
  if negb (master_password_set m) then Raise (ValueError "请先验证主密码")
  else
    match dict_get account_id (accounts m) with
    | None => Ok None
    | Some account =>
        password <- decrypt (encryption m) (password_encrypted account) ;;
        Ok (Some (account, password))
    end.

(** A later session: a new [AccountManager] on the files of an earlier
    one, unlocked by [setup_master_password()] with one answer to the
    prompt. *)
Definition reopen `{CryptoLib} (password : string) (urandom16 : bytes)
    (fs : Files) : result (string * AccountManager * Files) :=
  setup_master_password false [password] urandom16 AccountManager_init fs.

(** The vault between two operations: the manager is unlocked with the key
    that [master] derives from the salt on file, its registry is well
    formed, and the accounts file holds the registry. *)
Definition vault_ok `{CryptoLib} (master : string) (m : AccountManager)
    (fs : Files) : Prop :=
  master_password_set m = true
  /\ (exists salt,
         salt_file fs = Some salt
         /\ encryption m
            = {| cipher :=
                   Some (Base64.urlsafe_b64encode
                           (pbkdf2_hmac_sha256 salt 100000 (encode master)));
                 master_password := Some master |})
  /\ registry_ok (accounts m) = true
  /\ accounts_file fs = AccountsDoc (dict_values (accounts m)).

(** What [run] does with an account whose login failed. *)
Definition mark_login_failed (m : AccountManager) (fs : Files)
    (account_id : string) : AccountManager * Files :=
  update_account_status m fs account_id SUSPICIOUS "登录失败".

(** The demonstration registry in a manager unlocked with "correct horse"
    on the sample cipher, and the files once it is saved. *)
Definition demo_manager : AccountManager :=
  {| encryption :=
       fst (@set_master_password ToyCrypto sample_salt sample_files
              "correct horse");
     accounts := demo_registry;
     current_account_id := None;
     master_password_set := true |}.

Definition demo_files : Files := save_accounts demo_manager sample_files.

(** [k] failed logins of the same account, one after the other. *)
Definition failed_logins (k : nat) (m : AccountManager) (fs : Files)
    (account_id : string) : AccountManager * Files :=
  Nat.iter k (fun s => mark_login_failed (fst s) (snd s) account_id) (m, fs).

(* ================================================================== *)
(** ** Dates within a year *)

(** The last step of [_ord2ymd]: the month and the day of the month from
    the day of the year (counted from 0) and the leap-year flag. *)
Definition month_day (leapyear : bool) (n : Z) : Z * Z :=
  let month := Z.shiftr (n + 50) 5 in
  let preceding :=
    nth (Z.to_nat month) DAYS_BEFORE_MONTH 0
    + (if (2 <? month) && leapyear then 1 else 0) in
  if n <? preceding then
    let month := month - 1 in
    let preceding :=
      preceding - (nth (Z.to_nat month) DAYS_IN_MONTH 0
                   + (if (month =? 2) && leapyear then 1 else 0)) in
    (month, n - preceding + 1)
  else (month, n - preceding + 1).

(** [month_day] names a day of the year that exists, and the right one:
    checked on a common year (1900) or a leap year (2000). *)
Definition month_day_ok (leapyear : bool) (n : Z) : bool :=
  let y := if leapyear then 2000 else 1900 in
  let '(m, d) := month_day leapyear n in
  (1 <=? m) && (m <=? 12) && (1 <=? d) && (d <=? days_in_month y m)
  && (days_before_month y m + d =? n + 1).

Definition days_of_year : list Z := map Z.of_nat (seq 0 365).

(** Every stored time of last use is empty, or a time [fromisoformat]
    reads whose cooldown ends within the calendar. *)
Definition times_readable (cooldown : timedelta) (d : accounts_dict) : bool :=
  forallb (last_used_ok cooldown) (dict_values d).

(* ================================================================== *)
(** ** [AccountManager.get_account_statistics] *)

(** The counters of [stats["by_status"]], a [dict] from status to count. *)
Definition counters := list (string * Z).

(** [d.get(k, 0)]. *)
Fixpoint counter_get (k : string) (d : counters) : Z :=
  match d with
  | [] => 0
  | (k', v) :: d' => if (k =? k')%string then v else counter_get k d'
  end.

(** [d[k] = v]. *)
Fixpoint counter_set (k : string) (v : Z) (d : counters) : counters :=
  match d with
  | [] => [(k, v)]
  | (k', v') :: d' =>
      if (k =? k')%string then (k', v) :: d' else (k', v') :: counter_set k v d'
  end.

Record AccountStatistics : Type := mkStatistics {
  stat_total : Z;
  stat_by_status : counters;
  stat_total_searches : Z;
  stat_active_in_last_hour : Z;
  stat_in_cooldown : Z
}.

(** One round of the loop over [self.accounts.values()]. *)
Definition statistics_step (now : datetime) (stats : AccountStatistics)
    (acc : AccountConfig) : result AccountStatistics :=
  let by_status :=
    counter_set (status acc)
                (counter_get (status acc) (stat_by_status stats) + 1)
                (stat_by_status stats) in
  if truthy (last_used_at acc) then
    match fromisoformat (last_used_at acc) with
    | None => Raise (ValueError "Invalid isoformat string")
    | Some last_used =>
        let active :=
          if now - last_used <? timedelta_of 0 1 0
          then stat_active_in_last_hour stats + 1
          else stat_active_in_last_hour stats in
        let cooling :=
          if now - last_used <? timedelta_of 0 1 0
          then stat_in_cooldown stats + 1
          else stat_in_cooldown stats in
        Ok {| stat_total := stat_total stats;
              stat_by_status := by_status;
              stat_total_searches := stat_total_searches stats;
              stat_active_in_last_hour := active;
              stat_in_cooldown := cooling |}
    end
  else
    Ok {| stat_total := stat_total stats;
          stat_by_status := by_status;
          stat_total_searches := stat_total_searches stats;
          stat_active_in_last_hour := stat_active_in_last_hour stats;
          stat_in_cooldown := stat_in_cooldown stats |}.

Fixpoint statistics_loop (now : datetime) (stats : AccountStatistics)
    (accs : list AccountConfig) : result AccountStatistics :=
  match accs with
  | [] => Ok stats
  | acc :: rest =>
      stats' <- statistics_step now stats acc ;;
      statistics_loop now stats' rest
  end.

(** [get_account_statistics]; [None] is the empty [dict] that is returned
    when there is no account. *)
Definition get_account_statistics (accounts : accounts_dict) (now : datetime)
  : result (option AccountStatistics) :=
  match accounts with
  | [] => Ok None
  | _ =>
      let stats :=
        {| stat_total := Z.of_nat (List.length accounts);
           stat_by_status := [];
           stat_total_searches :=
             fold_left Z.add (map total_searches (dict_values accounts)) 0;
           stat_active_in_last_hour := 0;
           stat_in_cooldown := 0 |} in
      stats <- statistics_loop now stats (dict_values accounts) ;;
      Ok (Some stats)
  end.

(** The three numbers [run] prints from the statistics: all accounts, the
    available ones, the cooling ones; an absent key counts as 0. *)
Definition run_account_summary (stats : option AccountStatistics)
  : Z * Z * Z :=
  match stats with
  | None => (0, 0, 0)
  | Some s =>
      (stat_total s,
       stat_total s - counter_get "banned" (stat_by_status s)
       - counter_get "limited" (stat_by_status s),
       stat_in_cooldown s)
  end.

(** The number of elements of a list that pass a test. *)
Definition count {A} (f : A -> bool) (l : list A) : Z :=
  Z.of_nat (List.length (filter f l)).

(** Used less than an hour before [now]. *)
Definition used_within_hour (now : datetime) (a : AccountConfig) : bool :=
  truthy (last_used_at a)
  && match fromisoformat (last_used_at a) with
     | Some last_used => now - last_used <? us_per_hour
     | None => false
     end.

(** The stored time of last use is empty or can be read. *)
Definition last_used_readable (a : AccountConfig) : bool :=
  negb (truthy (last_used_at a))
  || negb (is_none (fromisoformat (last_used_at a))).

(* ================================================================== *)
(** ** The monitor's configuration and time range ([MonitorPeriod],
       [MonitorConfig], [_calculate_time_range]) *)

Inductive MonitorPeriod : Type :=
| ONE_DAY | THREE_DAYS | ONE_WEEK | TWO_WEEKS | ONE_MONTH | CUSTOM.

Definition period_value (p : MonitorPeriod) : string :=
  match p with
  | ONE_DAY => "1_day"
  | THREE_DAYS => "3_days"
  | ONE_WEEK => "1_week"
  | TWO_WEEKS => "2_weeks"
  | ONE_MONTH => "1_month"
  | CUSTOM => "custom"
  end.

Record MonitorConfig : Type := mkConfig {
  keywords : list string;
  monitor_period : MonitorPeriod;
  custom_days : Z;
  max_posts_per_keyword : Z;
  max_comments_per_post : Z;
  extract_comments : bool;
  headless : bool
}.

(** [_calculate_time_range]; [now] is [datetime.now()].  The periods are
    [timedelta(days=1)], [(days=3)], [(weeks=1)], [(weeks=2)], [(days=30)]
    and [(days=custom_days)]. *)
Definition calculate_time_range (config : MonitorConfig) (now : datetime)
  : result (datetime * datetime) :=
  let end_time := now in
  start_time <-
    match monitor_period config with
    | ONE_DAY => sub end_time (timedelta_of 1 0 0)
    | THREE_DAYS => sub end_time (timedelta_of 3 0 0)
    | ONE_WEEK => sub end_time (timedelta_of 7 0 0)
    | TWO_WEEKS => sub end_time (timedelta_of 14 0 0)
    | ONE_MONTH => sub end_time (timedelta_of 30 0 0)
    | CUSTOM =>
        td <- timedelta_checked (custom_days config * us_per_day) ;;
        sub end_time td
    end ;;
  Ok (start_time, end_time).

(** [period_map.get(period, MonitorPeriod.ONE_WEEK)] of [quick_monitor]. *)
Definition quick_monitor_period (period : string) : MonitorPeriod :=
  if (period =? "1_day")%string then ONE_DAY
  else if (period =? "3_days")%string then THREE_DAYS
  else if (period =? "1_week")%string then ONE_WEEK
  else if (period =? "2_weeks")%string then TWO_WEEKS
  else if (period =? "1_month")%string then ONE_MONTH
  else ONE_WEEK.

(** The configuration [quick_monitor] builds: [custom_days] and
    [max_comments_per_post] keep the defaults of [MonitorConfig]. *)
Definition quick_monitor_config (keywords : list string) (period : string)
    (max_posts : Z) (extract_comments headless : bool) : MonitorConfig :=
  {| keywords := keywords;
     monitor_period := quick_monitor_period period;
     custom_days := 7;
     max_posts_per_keyword := max_posts;
     max_comments_per_post := 20;
     extract_comments := extract_comments;
     headless := headless |}.

(** The length of the period in days. *)
Definition period_days (config : MonitorConfig) : Z :=
  match monitor_period config with
  | ONE_DAY => 1
  | THREE_DAYS => 3
  | ONE_WEEK => 7
  | TWO_WEEKS => 14
  | ONE_MONTH => 30
  | CUSTOM => custom_days config
  end.

(** Local time and Unix time go forward together (no clock is set back
    during the run). *)
Definition zone_monotone `{LocalZone} : Prop :=
  forall t1 t2, t1 <= t2 -> timestamp_us t1 <= timestamp_us t2.

(** The time fields of the post [_extract_search_results] builds from a
    note card read at [now]: the text of the card's time element, and
    what [_parse_timestamp] makes of it. *)
Definition extract_post `{LocalZone} (now : datetime)
    (id title timestamp_str keyword : string) : result Post :=
  timestamp_unix <- parse_timestamp now (Some timestamp_str) ;;
  Ok {| post_id := id; title := title;
        post_timestamp_raw := Some timestamp_str;
        timestamp_unix := timestamp_unix;
        keyword := keyword |}.

Definition sample_config : MonitorConfig :=
  {| keywords := ["GEO 优化"; "AI 搜索排名"];
     monitor_period := ONE_WEEK;
     custom_days := 7;
     max_posts_per_keyword := 50;
     max_comments_per_post := 20;
     extract_comments := true;
     headless := false |}.

(* ================================================================== *)
(** ** Values written to disk ([json.dump], [csv.DictWriter]) *)

(** The Python values the monitor hands to [json] and [csv]: [None],
    booleans, integers, strings, lists, dictionaries with string keys, and
    members of an [Enum] class (by class and member name). *)
#[warnings="-register-all"]
Inductive pyval : Type :=
| PNone
| PBool (b : bool)
| PInt (n : Z)
| PStr (s : string)
| PList (l : list pyval)
| PDict (d : list (string * pyval))
| PEnum (cls member : string).

Definition pydict := list (string * pyval).

Fixpoint pydict_get (k : string) (d : pydict) : option pyval :=
  match d with
  | [] => None
  | (k', v) :: d' => if (k =? k')%string then Some v else pydict_get k d'
  end.

Definition PStr_or_None (s : option string) : pyval :=
  match s with
  | Some s => PStr s
  | None => PNone
  end.

(** [TypeError], an [Exception]. *)
Definition TypeError (msg : string) : exn := RuntimeError ("TypeError: " ++ msg).

(** What [json]'s encoder accepts: it knows no [Enum] member, and raises
    [TypeError] when it reaches one. *)
Fixpoint json_serializable (v : pyval) : bool :=
  match v with
  | PList l => forallb json_serializable l
  | PDict d => forallb (fun kv => let '(_, x) := kv in json_serializable x) d
  | PEnum _ _ => false
  | _ => true
  end.

(** A file of the data directory: a JSON document (the text is stood for
    by the value it encodes), the part of a JSON document that was written
    when the encoder raised, or a CSV table with its header. *)
Inductive file_content : Type :=
| JsonDocument (v : pyval)
| JsonFragment (v : pyval)
| CsvTable (header : list string) (rows : list (list pyval)).

(** Path to content, the file written last first. *)
Definition disk := list (string * file_content).

Definition disk_write (path : string) (c : file_content) (d : disk) : disk :=
  (path, c) :: d.

Fixpoint disk_read (path : string) (d : disk) : option file_content :=
  match d with
  | [] => None
  | (p, c) :: d' => if (path =? p)%string then Some c else disk_read path d'
  end.

(** [with open(filepath, 'w') as f: json.dump(v, f, ...)]: the file is
    created; the encoder writes as it goes. *)
Definition json_dump_file (path : string) (v : pyval) (d : disk)
  : result unit * disk :=
  if json_serializable v then (Ok tt, disk_write path (JsonDocument v) d)
  else (Raise (TypeError "Object is not JSON serializable"),
        disk_write path (JsonFragment v) d).

(* ================================================================== *)
(** ** The dictionaries of posts and comments, and [asdict(config)] *)

(** [post_data] of [_extract_search_results]; [time_s] is
    [int(time.time())]. *)
Definition post_data (time_s idx : Z) (title author url timestamp_str : string)
    (timestamp_unix like_count : Z) (tags : list string) (keyword : string)
  : pydict :=
  [("id", PStr ("xhs_" ++ dec_string time_s ++ "_" ++ format_03d idx));
   ("title", PStr title);
   ("description", PStr "");
   ("author_nickname", PStr author);
   ("author_id", PStr "");
   ("url", PStr url);
   ("timestamp", PStr timestamp_str);
   ("timestamp_unix", PInt timestamp_unix);
   ("like_count", PInt like_count);
   ("collect_count", PInt 0);
   ("comment_count", PInt 0);
   ("share_count", PInt 0);
   ("tags", PList (map PStr tags));
   ("images", PList []);
   ("keyword", PStr keyword)].

(** [comment_data] of [_extract_comments]. *)
Definition comment_data (time_s idx : Z)
    (post_id post_title content author time_str : string)
    (timestamp_unix like_count : Z) (keyword : string) (now : datetime)
  : pydict :=
  [("id", PStr ("comment_" ++ dec_string time_s ++ "_" ++ format_03d idx));
   ("post_id", PStr post_id);
   ("post_title", PStr post_title);
   ("content", PStr content);
   ("author_nickname", PStr author);
   ("author_id", PStr "");
   ("timestamp", PStr time_str);
   ("timestamp_unix", PInt timestamp_unix);
   ("like_count", PInt like_count);
   ("keyword", PStr keyword);
   ("extracted_at", PStr (isoformat now))].

(** [asdict(config)]: the member of [MonitorPeriod] stays a member. *)
Definition asdict_config (config : MonitorConfig) : pydict :=
  [("keywords", PList (map PStr (keywords config)));
   ("monitor_period",
    PEnum "MonitorPeriod"
      match monitor_period config with
      | ONE_DAY => "ONE_DAY"
      | THREE_DAYS => "THREE_DAYS"
      | ONE_WEEK => "ONE_WEEK"
      | TWO_WEEKS => "TWO_WEEKS"
      | ONE_MONTH => "ONE_MONTH"
      | CUSTOM => "CUSTOM"
      end);
   ("custom_days", PInt (custom_days config));
   ("max_posts_per_keyword", PInt (max_posts_per_keyword config));
   ("max_comments_per_post", PInt (max_comments_per_post config));
   ("extract_comments", PBool (extract_comments config));
   ("headless", PBool (headless config))].

(** [self.stats]. *)
Definition stats_dict (s : Stats) : pydict :=
  [("total_posts", PInt (total_posts s));
   ("total_comments", PInt (total_comments s));
   ("keywords_processed", PInt (keywords_processed s));
   ("start_time", PStr_or_None (start_time s));
   ("end_time", PStr_or_None (end_time s))].

(** The [results] dictionary [run] builds. *)
Record ResultsDict : Type := mkResultsDict {
  results_posts : list pydict;
  results_comments : list pydict;
  results_stats : pydict;
  results_config : pydict;
  results_time_range : pydict
}.

Definition results_value (r : ResultsDict) : pyval :=
  PDict [("posts", PList (map PDict (results_posts r)));
         ("comments", PList (map PDict (results_comments r)));
         ("stats", PDict (results_stats r));
         ("config", PDict (results_config r));
         ("time_range", PDict (results_time_range r))].

(* ================================================================== *)
(** ** [DataStorage] *)

Definition DATA_DIR : string := "xhs_browser_data".

Definition posts_fieldnames : list string :=
  ["id"; "title"; "description"; "author_nickname"; "author_id";
   "url"; "timestamp"; "like_count"; "collect_count"; "comment_count";
   "share_count"; "tags"; "keyword"; "extracted_at"].

Definition comments_fieldnames : list string :=
  ["id"; "post_id"; "post_title"; "content"; "author_nickname";
   "author_id"; "timestamp"; "like_count"; "keyword"; "extracted_at"].

Definition string_mem (k : string) (l : list string) : bool :=
  existsb (String.eqb k) l.

(** [rowdict.keys() - self.fieldnames] of [DictWriter._dict_to_list]. *)
Definition wrong_fields (fieldnames : list string) (rowdict : pydict)
  : list string :=
  filter (fun k => negb (string_mem k fieldnames)) (map fst rowdict).

(** [DictWriter._dict_to_list] with [extrasaction='raise'] and
    [restval='']. *)
Definition dict_to_list (fieldnames : list string) (rowdict : pydict)
  : result (list pyval) :=
  if nonempty (wrong_fields fieldnames rowdict) then
    Raise (ValueError "dict contains fields not in fieldnames")
  else
    Ok (map (fun key =>
               match pydict_get key rowdict with
               | Some v => v
               | None => PStr ""
               end) fieldnames).

(** [writer.writerows(data)]: the rows written, and the exception that
    stopped the writing, if any. *)
Fixpoint writerows (fieldnames : list string) (data : list pydict)
  : list (list pyval) * option exn :=
  match data with
  | [] => ([], None)
  | rowdict :: rest =>
      match dict_to_list fieldnames rowdict with
      | Raise e => ([], Some e)
      | Ok row =>
          let '(rows, err) := writerows fieldnames rest in
          (row :: rows, err)
      end
  end.

(** [export_to_csv]. *)
Definition export_to_csv (data : list pydict) (data_type timestamp : string)
    (d : disk) : result string * disk :=
  let filename := "export_" ++ data_type ++ "_" ++ timestamp ++ ".csv" in
  let filepath := DATA_DIR ++ "/exports/" ++ filename in
  match data with
  | [] => (Ok filepath, d)
  | _ =>
      let fieldnames :=
        if (data_type =? "posts")%string then posts_fieldnames
        else comments_fieldnames in
      let '(rows, err) := writerows fieldnames data in
      let d' := disk_write filepath (CsvTable fieldnames rows) d in
      match err with
      | Some e => (Raise e, d')
      | None => (Ok filepath, d')
      end
  end.

(** [datetime.now().strftime("%Y%m%d_%H%M%S")]. *)
Definition strftime_compact (t : datetime) : string :=
  fixed_dec 4 (year t) ++ fixed_dec 2 (month t) ++ fixed_dec 2 (day t)
  ++ "_" ++ fixed_dec 2 (hour t) ++ fixed_dec 2 (minute t)
  ++ fixed_dec 2 (second t).

(** [save_results]; [now] is [datetime.now()]. *)
Definition save_results (now : datetime) (results : ResultsDict) (d : disk)
  : result string * disk :=
  let timestamp := strftime_compact now in
  let filename := "monitor_result_" ++ timestamp ++ ".json" in
  let filepath := DATA_DIR ++ "/" ++ filename in
  match json_dump_file filepath (results_value results) d with
  | (Raise e, d1) => (Raise e, d1)
  | (Ok _, d1) =>
      match
        (if nonempty (results_posts results)
         then export_to_csv (results_posts results) "posts" timestamp d1
         else (Ok "", d1))
      with
      | (Raise e, d2) => (Raise e, d2)
      | (Ok _, d2) =>
          match
            (if nonempty (results_comments results)
             then export_to_csv (results_comments results) "comments"
                    timestamp d2
             else (Ok "", d2))
          with
          | (Raise e, d3) => (Raise e, d3)
          | (Ok _, d3) => (Ok filepath, d3)
          end
      end
  end.

(* ================================================================== *)
(** ** [run] with the data storage as it is written *)

(** The [results] dictionary of [run]; [post_dict] and [comment_dict] give
    the dictionary of a post and of a comment. *)
Definition results_dict (post_dict : Post -> pydict)
    (comment_dict : Comment -> pydict) (config : MonitorConfig)
    (time_range : datetime * datetime) (st : RunState) : ResultsDict :=
  {| results_posts := map post_dict (all_posts st);
     results_comments := map comment_dict (all_comments st);
     results_stats := stats_dict (stats st);
     results_config := asdict_config config;
     results_time_range :=
       [("start", PStr (isoformat (fst time_range)));
        ("end", PStr (isoformat (snd time_range)))] |}.

(** The [except] clauses of [run] for an exception [e] raised in the [try]
    block, with [save_results] called at the clock reading [now]; an
    exception raised inside a clause leaves [run]. *)
Definition handle_exception (sc : RunScript) (st : RunState)
    (results : ResultsDict) (now : datetime) (e : exn) (d : disk)
  : RunExit * disk :=
  match e with
  | KeyboardInterrupt =>
      match save_results now results d with
      | (Ok _, d') =>
          (ReturnedAfterInterrupt (with_end_time sc (make_results sc st)), d')
      | (Raise e', d') => (Reraised e', d')
      end
  | _ =>
      if nonempty (all_posts st) || nonempty (all_comments st) then
        match save_results now results d with
        | (Ok _, d') => (Reraised e, d')
        | (Raise e', d') => (Reraised e', d')
        end
      else (Reraised e, d)
  end.

(** The end of the [try] statement of [run]: [save_results] at the end of
    the block (at the clock reading [save1]) when the keyword loop ended,
    and the [except] clauses (which call [save_results] at [save1] when the
    loop raised, at [save2] when the first [save_results] raised). *)
Definition try_end_stored (post_dict : Post -> pydict)
    (comment_dict : Comment -> pydict) (config : MonitorConfig)
    (time_range : datetime * datetime) (sc : RunScript)
    (save1 save2 : datetime) (st : RunState) (raised : option exn) (d : disk)
  : RunExit * disk :=
  let results := results_dict post_dict comment_dict config time_range st in
  match raised with
  | None =>
      match save_results save1 results d with
      | (Ok _, d1) => (Returned (with_end_time sc (make_results sc st)), d1)
      | (Raise e, d1) => handle_exception sc st results save2 e d1
      end
  | Some e => handle_exception sc st results save1 e d
  end.

(** [run] on a disk. *)
Definition run_stored (post_dict : Post -> pydict)
    (comment_dict : Comment -> pydict) (config : MonitorConfig)
    (time_range : datetime * datetime) (sc : RunScript)
    (save1 save2 : datetime) (d : disk) : RunExit * disk :=
  let st :=
    {| all_posts := []; all_comments := [];
       stats :=
         {| total_posts := 0; total_comments := 0; keywords_processed := 0;
            start_time := Some (isoformat (start_now sc));
            end_time := None |} |} in
  match init_browser_io sc with
  | Some e => (Reraised e, d)
  | None =>
      let '(st', raised) := try_body sc st in
      try_end_stored post_dict comment_dict config time_range sc
        save1 save2 st' raised d
  end.

(** A post and a comment of the run model as dictionaries with the keys
    the extraction gives them. *)
Definition sample_post_dict (p : Post) : pydict :=
  post_data 1717214700 0 (title p) "" ""
    match post_timestamp_raw p with Some s => s | None => "" end
    (timestamp_unix p) 0 [] (keyword p).

Definition sample_comment_dict (c : Comment) : pydict :=
  comment_data 1717214700 0 (comment_post_id c) "" (content c) "" "" 0 0 ""
    example_now.

(* ================================================================== *)
(** ** Account ids *)

(** The number a string of decimal digits writes ([0] for a string that is
    empty or holds another character); leading zeros do not count. *)
Definition decimal_value (s : string) : Z :=
  match NilZero.uint_of_string s with
  | Some d => Z.of_N (N.of_uint d)
  | None => 0
  end.

(** The id [add_account] gives to the [n]-th account. *)
Definition nth_account_id (n : Z) : string := "acc_" ++ format_03d n.

(** The number written in an account id. *)
Definition account_number (id : string) : Z :=
  match id with
  | String _ (String _ (String _ (String _ digits))) => decimal_value digits
  | _ => 0
  end.

(** The ids of a registry are [acc_001], [acc_002], ... in this order:
    the registry of a manager that has only added accounts. *)
Fixpoint ids_from (n : Z) (d : accounts_dict) : bool :=
  match d with
  | [] => true
  | (k, a) :: d' =>
      (k =? nth_account_id n)%string && (account_id a =? k)%string
      && ids_from (n + 1) d'
  end.

(** [add_account] for each of a list of (user name, password), in turn;
    the ids it returned, in this order. *)
Fixpoint add_accounts `{CryptoLib} (now : datetime) (entropy : bytes)
    (m : AccountManager) (fs : Files) (credentials : list (string * string))
  : result (list string * AccountManager * Files) :=
  match credentials with
  | [] => Ok ([], m, fs)
  | (username, password) :: rest =>
      '(id, m1, fs1) <- add_account now entropy m fs username password "" "" ;;
      '(ids, m2, fs2) <- add_accounts now entropy m1 fs1 rest ;;
      Ok (id :: ids, m2, fs2)
  end.

(* ================================================================== *)
(** ** The keyword loop of [run] with an account manager *)

(** What the browser does with the account chosen for a keyword: the login
    succeeds and the search returns, or the login fails. *)
Inductive browser_answer : Type :=
| LoginSucceeds (posts : list Post) (comments : list Comment)
| LoginFails.

(** The account manager, its files, and the local variables of [run]
    ([used_accounts], a set in the source, is kept as the list of the ids
    added to it). *)
Record Rotation : Type := mkRotation {
  rot_manager : AccountManager;
  rot_files : Files;
  rot_state : RunState;
  used_accounts : list string
}.

(** One round of the keyword loop: the account [get_account_for_search]
    chooses at the clock reading [select_now]; after a successful login
    the results are added and [record_usage] runs at [usage_now]; after a
    failed one the account is marked suspicious.  The round is logged as
    the id of the account and whether its login succeeded, or as [None]
    when there was no account to use. *)
Definition rotation_round (select_now usage_now : datetime)
    (answer : browser_answer) (r : Rotation)
  : result (Rotation * option (string * bool)) :=
  account <- get_account_for_search (accounts (rot_manager r)) select_now ;;
  match account with
  | None => Ok (r, None)
  | Some account =>
      match answer with
      | LoginSucceeds posts comments =>
          let s := record_usage usage_now (rot_manager r) (rot_files r)
                     (account_id account) in
          Ok ({| rot_manager := fst s;
                 rot_files := snd s;
                 rot_state := after_search (rot_state r) posts comments;
                 used_accounts := account_id account :: used_accounts r |},
              Some (account_id account, true))
      | LoginFails =>
          let s := mark_login_failed (rot_manager r) (rot_files r)
                     (account_id account) in
          Ok ({| rot_manager := fst s;
                 rot_files := snd s;
                 rot_state := rot_state r;
                 used_accounts := used_accounts r |},
              Some (account_id account, false))
      end
  end.

(** The keyword loop: one round per keyword, with the two clock readings
    and the browser's answer of each; the log holds the rounds in which an
    account was used. *)
Fixpoint rotation_loop (rounds : list (datetime * datetime * browser_answer))
    (r : Rotation) : result (Rotation * list (string * bool)) :=
  match rounds with
  | [] => Ok (r, [])
  | (select_now, usage_now, answer) :: rest =>
      '(r1, entry) <- rotation_round select_now usage_now answer r ;;
      '(r2, log) <- rotation_loop rest r1 ;;
      Ok (r2, match entry with Some e => e :: log | None => log end)
  end.

(** The rounds of the log in which the account [id] was used, and those in
    which its login failed. *)
Definition uses_of (id : string) (log : list (string * bool)) : Z :=
  count (fun e => (fst e =? id)%string && snd e) log.

Definition failures_of (id : string) (log : list (string * bool)) : Z :=
  count (fun e => (fst e =? id)%string && negb (snd e)) log.

(** A run of three keywords on the demonstration registry, from noon on
    2024-06-01: the first login fails, the next two succeed. *)
Definition demo_rotation : Rotation :=
  {| rot_manager := demo_manager;
     rot_files := demo_files;
     rot_state :=
       {| all_posts := []; all_comments := []; stats := Stats_init |};
     used_accounts := [] |}.

Definition demo_rounds : list (datetime * datetime * browser_answer) :=
  [(example_now, example_now + us_per_minute, LoginFails);
   (example_now + 2 * us_per_minute, example_now + 3 * us_per_minute,
    LoginSucceeds [sample_post] []);
   (example_now + 4 * us_per_minute, example_now + 5 * us_per_minute,
    LoginSucceeds [] [])].

(* ================================================================== *)
(** ** The monitoring service ([XiaohongshuBrowserMonitorService]) *)

Inductive BrowserMonitorStatus : Type :=
| IDLE | INITIALIZING | WAITING_LOGIN | SEARCHING | EXTRACTING | SAVING
| COMPLETED | ERROR | STOPPED.

(** [BrowserMonitorResult]; the error message is stood for by the
    exception it is made from, and [export_path], which [run]'s results
    never hold, is left out. *)
Record BrowserMonitorResult : Type := mkMonitorResult {
  success : bool;
  result_posts : list Post;
  result_comments : list Comment;
  result_stats : option Stats;
  error : option exn
}.

Record Service : Type := mkService {
  service_status : BrowserMonitorStatus;
  service_config : option MonitorConfig;
  stop_requested : bool;
  service_results : option BrowserMonitorResult
}.

(** [XiaohongshuBrowserMonitorService.__init__]. *)
Definition Service_init : Service :=
  {| service_status := IDLE; service_config := None;
     stop_requested := false; service_results := None |}.

(** The states in which no monitoring is under way. *)
Definition at_rest (s : BrowserMonitorStatus) : bool :=
  match s with
  | IDLE | COMPLETED | ERROR | STOPPED => true
  | _ => false
  end.

(** [period_map.get(monitor_period, MonitorPeriod.ONE_WEEK)] of
    [start_monitoring], which knows "custom". *)
Definition service_period (period : string) : MonitorPeriod :=
  if (period =? "custom")%string then CUSTOM else quick_monitor_period period.

(** [start_monitoring], up to the start of the worker thread: whether the
    monitoring was started, and the service afterwards. *)
Definition start_monitoring (svc : Service) (keywords : list string)
    (monitor_period : string) (custom_days max_posts_per_keyword
     max_comments_per_post : Z) (extract_comments headless : bool)
  : bool * Service :=
  if negb (at_rest (service_status svc)) then (false, svc)
  else
    (true,
     {| service_status := INITIALIZING;
        service_config :=
          Some {| keywords := keywords;
                  monitor_period := service_period monitor_period;
                  custom_days := custom_days;
                  max_posts_per_keyword := max_posts_per_keyword;
                  max_comments_per_post := max_comments_per_post;
                  extract_comments := extract_comments;
                  headless := headless |};
        stop_requested := false;
        service_results := None |}).

(** [stop_monitoring]. *)
Definition stop_monitoring (svc : Service) : bool * Service :=
  if at_rest (service_status svc) then (false, svc)
  else
    (true,
     {| service_status := STOPPED;
        service_config := service_config svc;
        stop_requested := true;
        service_results := service_results svc |}).

(** [_handle_error]. *)
Definition handle_error (svc : Service) (e : exn) : Service :=
  {| service_status := ERROR;
     service_config := service_config svc;
     stop_requested := stop_requested svc;
     service_results :=
       Some {| success := false; result_posts := []; result_comments := [];
               result_stats := None; error := Some e |} |}.

(** A run script without an account manager: the service constructs its
    monitor with the configuration only. *)
Definition without_manager (sc : RunScript) : RunScript :=
  {| has_account_manager := false;
     start_now := start_now sc; end_now := end_now sc;
     init_browser_io := init_browser_io sc; setup_io := setup_io sc;
     keyword_events := keyword_events sc |}.

(** [_execute_monitoring] with [_run_async_loop] around it.  The monitor
    is constructed at the clock reading [now] and run; [during] is the
    service as the other threads and the wrapped search have left it when
    [run] ends (its status and its stop flag).  An [Exception] ends in
    [_handle_error]; any other exception leaves the thread.  The result is
    the service afterwards and the disk. *)
Definition execute_monitoring (post_dict : Post -> pydict)
    (comment_dict : Comment -> pydict) (config : MonitorConfig)
    (now : datetime) (sc : RunScript) (save1 save2 : datetime)
    (during : Service) (d : disk) : Service * disk :=
  match calculate_time_range config now with
  | Raise e => ((if is_Exception e then handle_error during e else during), d)
  | Ok time_range =>
      let '(exit, d') :=
        run_stored post_dict comment_dict config time_range
          (without_manager sc) save1 save2 d in
      match exit with
      | Returned results | ReturnedAfterInterrupt results =>
          if stop_requested during then (during, d')
          else
            ({| service_status := COMPLETED;
                service_config := service_config during;
                stop_requested := stop_requested during;
                service_results :=
                  Some {| success := true;
                          result_posts := res_posts results;
                          result_comments := res_comments results;
                          result_stats := Some (res_stats results);
                          error := None |} |}, d')
      | Reraised e =>
          ((if is_Exception e then handle_error during e else during), d')
      end
  end.

(* ################################################################## *)
(** * Properties *)

(* ================================================================== *)
(** ** The stable sort returns a least element first *)

Section SortFacts.

Context {A K : Type}.
Variable key : A -> K.
Variable lt : K -> K -> bool.

Hypothesis lt_asym : forall a b, lt a b = true -> lt b a = false.
Hypothesis lt_negtrans :
  forall a b c, lt a b = false -> lt b c = false -> lt a c = false.

Lemma lt_irrefl a : lt a a = false.
Proof.
  destruct (lt a a) eqn:E; [|reflexivity].
  rewrite (lt_asym _ _ E) in E. discriminate.
Qed.

Lemma insert_In x y l : In y (insert key lt x l) <-> y = x \/ In y l.
Proof.
  induction l as [|h t IH]; simpl.
  - intuition.
  - destruct (lt (key h) (key x)); simpl; rewrite ?IH; intuition.
Qed.

Lemma sort_by_key_In y l : In y (sort_by_key key lt l) <-> In y l.
Proof.
  induction l as [|h t IH]; simpl.
  - reflexivity.
  - rewrite insert_In, IH. intuition.
Qed.

Lemma insert_head_least x l :
  head_least key lt l -> head_least key lt (insert key lt x l).
Proof.
  destruct l as [|h t]; simpl.
  - intros _ y [].
  - intros Hh. destruct (lt (key h) (key x)) eqn:E; simpl.
    + intros y Hy. apply insert_In in Hy. destruct Hy as [->|Hy].
      * now apply lt_asym.
      * now apply Hh.
    + intros y [<-|Hy]; [assumption|].
      apply lt_negtrans with (b := key h); [now apply Hh | assumption].
Qed.

Lemma sort_head_least l : head_least key lt (sort_by_key key lt l).
Proof.
  induction l as [|h t IH]; simpl.
  - exact I.
  - now apply insert_head_least.
Qed.

Lemma sort_by_key_nil l : sort_by_key key lt l = [] -> l = [].
Proof.
  destruct l as [|h t]; [reflexivity|]. simpl.
  destruct (sort_by_key key lt t) as [|h' t']; simpl.
  - discriminate.
  - destruct (lt (key h') (key h)); discriminate.
Qed.

Lemma hd_sort_least l h :
  hd_error (sort_by_key key lt l) = Some h ->
  In h l /\ forall y, In y l -> lt (key y) (key h) = false.
Proof.
  intros Hh.
  pose proof (sort_head_least l) as Hl.
  pose proof (sort_by_key_In h l) as Hin.
  destruct (sort_by_key key lt l) as [|h' t] eqn:E; [discriminate|].
  simpl in Hh. injection Hh as ->.
  split.
  - apply Hin. now left.
  - intros y Hy. apply (sort_by_key_In y l) in Hy. rewrite E in Hy.
    destruct Hy as [<-|Hy]; [apply lt_irrefl | now apply Hl].
Qed.

Lemma hd_sort_some l :
  l <> [] -> exists h, hd_error (sort_by_key key lt l) = Some h.
Proof.
  intros Hl. destruct (sort_by_key key lt l) as [|h t] eqn:E.
  - now apply sort_by_key_nil in E.
  - now exists h.
Qed.

End SortFacts.

(* ================================================================== *)
(** ** The orders used as sort keys *)

Lemma Zltb_asym a b : (a <? b) = true -> (b <? a) = false.
Proof. intros H. apply Z.ltb_lt in H. apply Z.ltb_ge. lia. Qed.

Lemma Zltb_negtrans a b c :
  (a <? b) = false -> (b <? c) = false -> (a <? c) = false.
Proof. rewrite !Z.ltb_ge. lia. Qed.

Lemma Qlt_bool_asym a b : Qlt_bool a b = true -> Qlt_bool b a = false.
Proof.
  unfold Qlt_bool. intros H. apply negb_true_iff in H.
  apply negb_false_iff, Qle_bool_iff.
  destruct (Qlt_le_dec a b) as [Hlt|Hle].
  - now apply Qlt_le_weak.
  - apply Qle_bool_iff in Hle. congruence.
Qed.

Lemma Qlt_bool_false a b : Qlt_bool a b = false <-> (b <= a)%Q.
Proof.
  unfold Qlt_bool. rewrite negb_false_iff. apply Qle_bool_iff.
Qed.

Lemma Qlt_bool_negtrans a b c :
  Qlt_bool a b = false -> Qlt_bool b c = false -> Qlt_bool a c = false.
Proof.
  rewrite !Qlt_bool_false. intros H1 H2. now apply Qle_trans with b.
Qed.

Lemma ascii_compare_refl c : Ascii.compare c c = Eq.
Proof. unfold Ascii.compare. apply N.compare_refl. Qed.

Lemma string_compare_refl s : String.compare s s = Eq.
Proof.
  induction s as [|c s IH]; simpl; [reflexivity|].
  now rewrite ascii_compare_refl.
Qed.

(** [String.compare] is transitive on [Lt]. *)
Lemma string_compare_lt_trans s1 : forall s2 s3,
  String.compare s1 s2 = Lt -> String.compare s2 s3 = Lt ->
  String.compare s1 s3 = Lt.
Proof.
  induction s1 as [|c1 s1 IH]; intros [|c2 s2] [|c3 s3]; simpl;
    try discriminate; try reflexivity.
  unfold Ascii.compare.
  destruct (N.compare_spec (N_of_ascii c1) (N_of_ascii c2)) as [E12|L12|G12];
    try discriminate;
  destruct (N.compare_spec (N_of_ascii c2) (N_of_ascii c3)) as [E23|L23|G23];
    try discriminate; intros H1 H2.
  - rewrite E12, E23, N.compare_refl. now apply IH with s2.
  - rewrite E12. now apply N.compare_lt_iff in L23 as ->.
  - rewrite <- E23. now apply N.compare_lt_iff in L12 as ->.
  - assert (L : (N_of_ascii c1 < N_of_ascii c3)%N) by lia.
    now apply N.compare_lt_iff in L as ->.
Qed.

Lemma string_ltb_asym a b : String.ltb a b = true -> String.ltb b a = false.
Proof.
  unfold String.ltb. rewrite (String.compare_antisym b a).
  destruct (String.compare a b); simpl; congruence.
Qed.

Lemma string_ltb_negtrans a b c :
  String.ltb a b = false -> String.ltb b c = false -> String.ltb a c = false.
Proof.
  unfold String.ltb.
  destruct (String.compare a c) eqn:Eac; try reflexivity.
  intros Hab Hbc.
  destruct (String.compare a b) eqn:Eab; try discriminate.
  - apply String.compare_eq_iff in Eab. subst b. now rewrite Eac in Hbc.
  - destruct (String.compare b c) eqn:Ebc; try discriminate.
    + apply String.compare_eq_iff in Ebc. subst c. now rewrite Eac in Eab.
    + (* b < a and c < b, so c < a, against a < c *)
      assert (Hcb : String.compare c b = Lt)
        by (rewrite String.compare_antisym, Ebc; reflexivity).
      assert (Hba : String.compare b a = Lt)
        by (rewrite String.compare_antisym, Eab; reflexivity).
      pose proof (string_compare_lt_trans _ _ _ Hcb Hba) as Hca.
      rewrite String.compare_antisym, Eac in Hca. discriminate.
Qed.

Lemma key3_lt_asym k1 k2 : key3_lt k1 k2 = true -> key3_lt k2 k1 = false.
Proof.
  destruct k1 as [[b1 n1] s1], k2 as [[b2 n2] s2]. unfold key3_lt.
  destruct b1, b2; simpl; try congruence;
    rewrite (Z.eqb_sym n2 n1);
    destruct (n1 =? n2) eqn:E;
    try apply string_ltb_asym; apply Zltb_asym.
Qed.

Lemma key3_lt_negtrans k1 k2 k3 :
  key3_lt k1 k2 = false -> key3_lt k2 k3 = false -> key3_lt k1 k3 = false.
Proof.
  destruct k1 as [[b1 n1] s1], k2 as [[b2 n2] s2], k3 as [[b3 n3] s3].
  unfold key3_lt.
  destruct b1, b2, b3; simpl; try congruence;
    destruct (n1 =? n2) eqn:E12; destruct (n2 =? n3) eqn:E23;
    destruct (n1 =? n3) eqn:E13;
    rewrite ?Z.eqb_eq, ?Z.eqb_neq, ?Z.ltb_ge in *;
    intros H1 H2;
    try (apply Z.ltb_ge in H1); try (apply Z.ltb_ge in H2);
    try (apply Z.ltb_ge); try lia;
    try (now apply string_ltb_negtrans with s2).
Qed.

(* ================================================================== *)
(** ** Cooldown-respecting selection ([get_next_account]) *)

Lemma key3_lt_spec_before b a :
  key3_lt (available_key b) (available_key a) = true <-> spec_before b a.
Proof.
  unfold key3_lt, available_key, spec_before. cbn [status_value].
  destruct (status b =? "active")%string, (status a =? "active")%string;
    simpl;
    destruct (Z.eqb_spec (total_searches b) (total_searches a)) as [E|E];
    rewrite ?Z.ltb_lt; intuition (try congruence; try lia).
Qed.

Lemma Ok_inj {A} (a b : A) : Ok a = Ok b -> a = b.
Proof. congruence. Qed.

Lemma scan_accounts_members rc cd now items av co :
  scan_accounts rc cd now items = Ok (av, co) ->
  (forall a, In a av -> In a (dict_values items) /\ banned_or_limited a = false)
  /\ (forall p, In p co ->
      In (fst p) (dict_values items) /\ banned_or_limited (fst p) = false).
Proof.
  revert av co. induction items as [|[k a] rest IH]; simpl; intros av co H.
  - injection H as <- <-. split; intros ? [].
  - destruct (banned_or_limited a) eqn:Eb.
    + destruct (IH _ _ H) as [H1 H2]. split; intros x Hx.
      * destruct (H1 _ Hx); auto.
      * destruct (H2 _ Hx); auto.
    + assert (Hstep : forall av' co',
                 scan_accounts rc cd now rest = Ok (av', co') ->
                 (av = a :: av' /\ co = co'
                  \/ exists e, av = av' /\ co = (a, e) :: co') ->
                 (forall x, In x av ->
                    In x (a :: dict_values rest) /\ banned_or_limited x = false)
                 /\ (forall p, In p co ->
                    In (fst p) (a :: dict_values rest)
                    /\ banned_or_limited (fst p) = false)).
      { intros av' co' Hs Hcase. destruct (IH _ _ Hs) as [H1 H2].
        destruct Hcase as [[-> ->]|[e [-> ->]]]; split; intros x Hx.
        - destruct Hx as [<-|Hx]; [simpl; auto|].
          destruct (H1 _ Hx); simpl; auto.
        - destruct (H2 _ Hx); simpl; auto.
        - destruct (H1 _ Hx); simpl; auto.
        - destruct Hx as [<-|Hx]; [simpl; auto|].
          destruct (H2 _ Hx); simpl; auto. }
      destruct (rc && truthy (last_used_at a)).
      * destruct (fromisoformat (last_used_at a)) as [lu|]; [|discriminate].
        destruct (add lu cd) as [e|]; [|discriminate]. simpl in H.
        destruct (scan_accounts rc cd now rest) as [[av' co']|]; [|discriminate].
        simpl in H. apply (Hstep av' co' eq_refl).
        destruct (now <? e); injection H as <- <-; eauto.
      * destruct (scan_accounts rc cd now rest) as [[av' co']|]; [|discriminate].
        simpl in H. injection H as <- <-. apply (Hstep av' co' eq_refl). auto.
Qed.

(** Property X2 (the half of claim C1 that holds).  The account
    [get_next_account] returns is in the registry and is neither banned
    nor limited, with or without cooldown. *)
Lemma get_next_account_eligible accounts rc cd now a :
  get_next_account accounts rc cd now = Ok (Some a) ->
  In a (dict_values accounts) /\ banned_or_limited a = false.
Proof.
  unfold get_next_account. destruct accounts as [|p rest]; [discriminate|].
  destruct (scan_accounts rc cd now (p :: rest)) as [[av co]|] eqn:Es;
    [|discriminate].
  simpl bind. destruct (scan_accounts_members _ _ _ _ _ _ Es) as [H1 H2].
  destruct av as [|x av'].
  - destruct co as [|y co']; cbv beta iota zeta; [discriminate|].
    intros H. apply Ok_inj in H.
    destruct (hd_error (sort_by_key snd Z.ltb (y :: co'))) as [[a' e]|] eqn:Eh;
      simpl in H; [|discriminate].
    injection H as ->.
    apply hd_sort_least in Eh;
      [|exact Zltb_asym | exact Zltb_negtrans].
    destruct Eh as [Hin _]. exact (H2 _ Hin).
  - cbv beta iota zeta. intros H. apply Ok_inj in H.
    apply hd_sort_least in H;
      [|exact key3_lt_asym | exact key3_lt_negtrans].
    destruct H as [Hin _]. exact (H1 _ Hin).
Qed.

Lemma spec_eligible_banned_or_limited a :
  spec_eligible a = negb (banned_or_limited a).
Proof. reflexivity. Qed.

Lemma scan_accounts_partition cd now items :
  Forall (fun a => last_used_ok cd a = true)
         (filter spec_eligible (dict_values items)) ->
  exists av co,
    scan_accounts true cd now items = Ok (av, co)
    /\ av = filter (spec_available cd now)
                   (filter spec_eligible (dict_values items))
    /\ map fst co = filter (spec_cooling cd now)
                           (filter spec_eligible (dict_values items))
    /\ Forall (fun p => spec_cooldown_end cd (fst p) = Some (snd p)) co.
Proof.
  induction items as [|[k a] rest IH]; simpl; intros Hok.
  - exists [], []. repeat split; constructor.
  - rewrite spec_eligible_banned_or_limited in *.
    destruct (banned_or_limited a); simpl in *.
    + now apply IH.
    + inversion Hok as [|? ? Ha Hrest]; subst.
      destruct (IH Hrest) as [av [co [Hs [Hav [Hco Hends]]]]].
      rewrite Hs. unfold last_used_ok in Ha.
      unfold spec_available, spec_cooling.
      assert (Hend : spec_cooldown_end cd a
                     = if (last_used_at a =? "")%string then None
                       else option_map (fun lu => lu + cd)
                                       (fromisoformat (last_used_at a)))
        by reflexivity.
      unfold truthy in *.
      destruct (last_used_at a =? "")%string; simpl in *.
      * rewrite Hend. exists (a :: av), co.
        split; [reflexivity|]. split; [now rewrite Hav|]. auto.
      * destruct (fromisoformat (last_used_at a)) as [lu|]; [|discriminate].
        simpl in Hend. rewrite Hend.
        unfold add. rewrite Ha. simpl.
        rewrite Z.leb_antisym.
        destruct (now <? lu + cd) eqn:E; simpl.
        -- exists av, ((a, lu + cd) :: co). simpl.
           split; [reflexivity|]. split; [exact Hav|].
           split; [now rewrite Hco|]. constructor; auto.
        -- exists (a :: av), co.
           split; [reflexivity|]. split; [now rewrite Hav|]. auto.
Qed.

(** Claim C7.  With [respect_cooldown] on, and every stored time of last
    use readable, [get_next_account] returns; the accounts that are neither
    banned nor limited split into the available ones (never used, or last
    used at least the cooldown ago) and the cooling ones (within the
    cooldown).  When some account is available the result is the head of
    the available accounts sorted by (status is not active, number of uses,
    time of last use), an available account that no available account
    precedes in that order; otherwise, when some account is cooling, the result is a
    cooling account whose cooldown ends first; otherwise there is no
    result. *)
Theorem get_next_account_cooldown_spec accounts cooldown now :
  let rest := filter spec_eligible (dict_values accounts) in
  let available := filter (spec_available cooldown now) rest in
  let cooling := filter (spec_cooling cooldown now) rest in
  forallb (last_used_ok cooldown) rest = true ->
  exists r,
    get_next_account accounts true cooldown now = Ok r
    /\ match available, cooling with
       | _ :: _, _ =>
           r = hd_error (sort_by_key available_key key3_lt available)
           /\ exists a,
                r = Some a /\ In a available
                /\ forall b, In b available -> ~ spec_before b a
       | [], _ :: _ =>
           exists a e,
             r = Some a /\ In a cooling
             /\ spec_cooldown_end cooldown a = Some e
             /\ forall b eb, In b cooling ->
                             spec_cooldown_end cooldown b = Some eb -> e <= eb
       | [], [] => r = None
       end.
Proof.
  intros rest available cooling Hok.
  assert (Hok' : Forall (fun a => last_used_ok cooldown a = true) rest)
    by (apply Forall_forall; now apply forallb_forall).
  destruct (scan_accounts_partition cooldown now accounts Hok')
    as [av [co [Hs [Hav [Hco Hends]]]]].
  fold rest in Hav, Hco. fold available in Hav. fold cooling in Hco.
  assert (Hget : get_next_account accounts true cooldown now
                 = match av with
                   | _ :: _ =>
                       Ok (hd_error (sort_by_key available_key key3_lt av))
                   | [] =>
                       Ok (option_map fst
                             (hd_error (sort_by_key snd Z.ltb co)))
                   end).
  { unfold get_next_account. destruct accounts as [|p l].
    - simpl in Hs. apply Ok_inj in Hs. injection Hs as <- <-. reflexivity.
    - rewrite Hs. simpl bind. cbv beta iota zeta.
      destruct av; [destruct co|]; reflexivity. }
  rewrite Hget, <- Hav, <- Hco. clear Hget.
  destruct av as [|x av'].
  - destruct co as [|y co']; simpl map.
    + now exists None.
    + destruct (hd_sort_some snd Z.ltb (y :: co')) as [[a e] Hh];
        [discriminate|].
      destruct (hd_sort_least snd Z.ltb Zltb_asym Zltb_negtrans _ _ Hh)
        as [Hin Hleast].
      rewrite Hh. exists (Some a). split; [reflexivity|].
      exists a, e. split; [reflexivity|].
      rewrite Forall_forall in Hends.
      split; [|split].
      * change (fst y :: map fst co') with (map fst (y :: co')).
        apply in_map_iff. now exists (a, e).
      * exact (Hends _ Hin).
      * intros b eb Hb Heb.
        change (fst y :: map fst co') with (map fst (y :: co')) in Hb.
        apply in_map_iff in Hb. destruct Hb as [[b' eb'] [Eb Hb]].
        simpl in Eb. subst b'.
        pose proof (Hends _ Hb) as Heb'. simpl in Heb'.
        assert (eb' = eb) by congruence. subst eb'.
        specialize (Hleast _ Hb). simpl in Hleast.
        apply Z.ltb_ge in Hleast. exact Hleast.
  - destruct (hd_sort_some available_key key3_lt (x :: av')) as [a Hh];
      [discriminate|].
    destruct (hd_sort_least available_key key3_lt key3_lt_asym
                key3_lt_negtrans _ _ Hh) as [Hin Hleast].
    rewrite Hh. exists (Some a). split; [reflexivity|].
    split; [reflexivity|].
    exists a. split; [reflexivity|]. split; [exact Hin|].
    intros b Hb Hbefore. apply key3_lt_spec_before in Hbefore.
    rewrite (Hleast _ Hb) in Hbefore. discriminate.
Qed.

(* ================================================================== *)
(** ** Scored selection ([get_account_for_search]) *)

Lemma cooldown_remaining_spec now a :
  last_used_ok us_per_hour a = true ->
  exists q, cooldown_remaining now a = Ok q
            /\ (q == spec_remaining_minutes now a)%Q.
Proof.
  unfold last_used_ok, cooldown_remaining, spec_remaining_minutes.
  destruct (truthy (last_used_at a)); [|intros _; eexists; split; reflexivity].
  destruct (fromisoformat (last_used_at a)) as [lu|]; [|discriminate].
  intros Hr. unfold add.
  change (timedelta_of 0 1 0) with us_per_hour. rewrite Hr. simpl bind.
  destruct (now <? lu + us_per_hour) eqn:E.
  - eexists; split; [reflexivity|].
    apply Z.ltb_lt in E. rewrite Z.max_r by lia.
    unfold Qeq, Qdiv, Qmult, Qinv, inject_Z. simpl. lia.
  - eexists; split; [reflexivity|].
    apply Z.ltb_ge in E. rewrite Z.max_l by lia.
    unfold Qeq, Qdiv, Qmult, Qinv, inject_Z. simpl. lia.
Qed.

Lemma account_score_spec now a :
  last_used_ok us_per_hour a = true ->
  exists s, account_score now a = Ok s /\ (s == spec_score now a)%Q.
Proof.
  intros H. destruct (cooldown_remaining_spec now a H) as [q [Hq Hqe]].
  unfold account_score, spec_score. rewrite Hq. simpl bind.
  cbn [status_value].
  destruct (status a =? "active")%string; simpl negb; cbv iota zeta;
    eexists; (split; [reflexivity|]); rewrite Hqe; ring.
Qed.

Lemma scan_candidates_spec now items :
  Forall (fun a => last_used_ok us_per_hour a = true)
         (filter is_candidate (dict_values items)) ->
  exists cands,
    scan_candidates now items = Ok cands
    /\ map fst cands = filter is_candidate (dict_values items)
    /\ Forall (fun p => account_score now (fst p) = Ok (snd p)
                        /\ (snd p == spec_score now (fst p))%Q) cands.
Proof.
  induction items as [|[k a] rest IH]; simpl; intros Hok.
  - exists []. repeat split; constructor.
  - unfold is_candidate at 1. unfold is_candidate at 1 in Hok.
    cbn [status_value] in *.
    destruct (status a =? "banned")%string; simpl in *.
    + now apply IH.
    + rewrite Z.geb_leb, Z.leb_antisym.
      destruct (consecutive_failures a <? 3); simpl in *.
      * inversion Hok as [|? ? Ha Hrest]; subst.
        destruct (account_score_spec now a Ha) as [s [Hs Es]].
        destruct (IH Hrest) as [cands [Hc [Hm Hf]]].
        exists ((a, s) :: cands). rewrite Hs, Hc. simpl.
        repeat split; [now rewrite Hm | constructor; auto].
      * now apply IH.
Qed.

Lemma get_account_for_search_unfold accounts now :
  get_account_for_search accounts now
  = (candidates <- scan_candidates now accounts ;;
     Ok (option_map fst (hd_error (sort_by_key snd Qlt_bool candidates)))).
Proof.
  destruct accounts as [|p rest]; [reflexivity|].
  unfold get_account_for_search.
  destruct (scan_candidates now (p :: rest)) as [[|c cands]|e]; reflexivity.
Qed.


Lemma scan_candidates_fst now items : forall cands,
  scan_candidates now items = Ok cands ->
  map fst cands = filter is_candidate (dict_values items).
Proof.
  induction items as [|[k a] rest IH]; simpl; intros cands H.
  - apply Ok_inj in H. now subst.
  - unfold is_candidate at 1. cbn [status_value] in *.
    destruct (status a =? "banned")%string; simpl; [now apply IH|].
    rewrite Z.geb_leb, Z.leb_antisym in H.
    destruct (consecutive_failures a <? 3); simpl in *; [|now apply IH].
    destruct (account_score now a) as [s|]; [|discriminate].
    destruct (scan_candidates now rest) as [cs|]; [|discriminate].
    simpl in H. apply Ok_inj in H. subst cands. simpl.
    now rewrite (IH cs).
Qed.

Lemma get_account_for_search_candidate accounts now a :
  get_account_for_search accounts now = Ok (Some a) ->
  In a (dict_values accounts) /\ is_candidate a = true.
Proof.
  rewrite get_account_for_search_unfold.
  destruct (scan_candidates now accounts) as [cands|] eqn:Es; [|discriminate].
  simpl bind. intros H. apply Ok_inj in H.
  destruct (hd_error (sort_by_key snd Qlt_bool cands)) as [[a' s]|] eqn:Eh;
    simpl in H; [|discriminate].
  injection H as ->.
  apply hd_sort_least in Eh; [|exact Qlt_bool_asym | exact Qlt_bool_negtrans].
  destruct Eh as [Hin _].
  assert (Ha : In a (map fst cands)) by (apply in_map_iff; now exists (a, s)).
  rewrite (scan_candidates_fst _ _ _ Es) in Ha.
  apply filter_In in Ha. exact Ha.
Qed.


(** Claim C1.  The claim says that neither strategy returns a banned or a
    limited account.  [get_next_account] never does
    ([get_next_account_eligible]), and [get_account_for_search] never
    returns a banned one ([get_account_for_search_candidate]); but on a
    registry whose only account is limited, [get_account_for_search]
    returns that account. *)
Theorem get_account_for_search_returns_limited :
  get_account_for_search [("acc_001", limited_account)] example_now
  = Ok (Some limited_account)
  /\ status limited_account = status_value LIMITED.
Proof. vm_compute. split; reflexivity. Qed.



(* ================================================================== *)
(** ** Base64 decoding undoes encoding *)

Import Base64.

Lemma val_bounds b : 0 <= val b < 256.
Proof.
  unfold val. pose proof (Byte.to_N_bounded b). lia.
Qed.

Lemma byte_of_val b : byte_of (val b) = b.
Proof.
  unfold byte_of, val. rewrite N2Z.id, Byte.of_to_N. reflexivity.
Qed.

Lemma sextets_ok :
  forallb sextet_ok (map Z.of_nat (seq 0 64)) = true.
Proof. vm_compute. reflexivity. Qed.

Lemma sextet_ok_lt i : 0 <= i < 64 -> sextet_ok i = true.
Proof.
  intros Hi.
  pose proof sextets_ok as H. rewrite forallb_forall in H.
  apply H. apply in_map_iff. exists (Z.to_nat i). split.
  - lia.
  - apply in_seq. lia.
Qed.

Lemma index_of_char_of i :
  0 <= i < 64 -> index_of (char_of i) = Some i.
Proof.
  intros Hi. pose proof (sextet_ok_lt i Hi) as H. unfold sextet_ok in H.
  destruct (index_of (char_of i)) as [j|]; [|discriminate].
  apply andb_prop in H. destruct H as [H _].
  apply Z.eqb_eq in H. congruence.
Qed.

Lemma char_of_not_pad i :
  0 <= i < 64 -> Byte.eqb (char_of i) pad = false.
Proof.
  intros Hi. pose proof (sextet_ok_lt i Hi) as H. unfold sextet_ok in H.
  destruct (index_of (char_of i)) as [j|]; [|discriminate].
  apply andb_prop in H. destruct H as [_ H].
  now apply negb_true_iff in H.
Qed.

Lemma decode_group3 a b c :
  let n := val a * 65536 + val b * 256 + val c in
  decode_group (char_of (n / 262144)) (char_of ((n / 4096) mod 64))
               (char_of ((n / 64) mod 64)) (char_of (n mod 64))
  = Some [a; b; c].
Proof.
  intros n.
  pose proof (val_bounds a) as Ha. pose proof (val_bounds b) as Hb.
  pose proof (val_bounds c) as Hc.
  assert (H1 : 0 <= n / 262144 < 64) by (subst n; split; [apply Z.div_pos; lia | apply Z.div_lt_upper_bound; lia]).
  assert (H2 : 0 <= (n / 4096) mod 64 < 64) by (apply Z.mod_pos_bound; lia).
  assert (H3 : 0 <= (n / 64) mod 64 < 64) by (apply Z.mod_pos_bound; lia).
  assert (H4 : 0 <= n mod 64 < 64) by (apply Z.mod_pos_bound; lia).
  unfold decode_group.
  rewrite !index_of_char_of by assumption.
  rewrite (char_of_not_pad _ H4).
  assert (E : n / 262144 * 262144 + (n / 4096) mod 64 * 4096
              + (n / 64) mod 64 * 64 + n mod 64 = n).
  { clear. Z.div_mod_to_equations. lia. }
  rewrite E.
  assert (Ea : n / 65536 = val a) by (subst n; Z.div_mod_to_equations; lia).
  assert (Eb : (n / 256) mod 256 = val b) by (subst n; Z.div_mod_to_equations; lia).
  assert (Ec : n mod 256 = val c) by (subst n; Z.div_mod_to_equations; lia).
  rewrite Ea, Eb, Ec, !byte_of_val. reflexivity.
Qed.

Lemma decode_group2 a b :
  let n := val a * 65536 + val b * 256 in
  decode_group (char_of (n / 262144)) (char_of ((n / 4096) mod 64))
               (char_of ((n / 64) mod 64)) pad
  = Some [a; b].
Proof.
  intros n.
  pose proof (val_bounds a) as Ha. pose proof (val_bounds b) as Hb.
  assert (H1 : 0 <= n / 262144 < 64)
    by (subst n; split;
        [apply Z.div_pos; lia | apply Z.div_lt_upper_bound; lia]).
  assert (H2 : 0 <= (n / 4096) mod 64 < 64) by (apply Z.mod_pos_bound; lia).
  assert (H3 : 0 <= (n / 64) mod 64 < 64) by (apply Z.mod_pos_bound; lia).
  unfold decode_group.
  rewrite !index_of_char_of by assumption.
  rewrite (char_of_not_pad _ H3).
  replace (Byte.eqb pad pad) with true by reflexivity.
  assert (E : n / 262144 * 262144 + (n / 4096) mod 64 * 4096
              + (n / 64) mod 64 * 64 = n)
    by (subst n; Z.div_mod_to_equations; lia).
  rewrite E.
  assert (Ea : n / 65536 = val a) by (subst n; Z.div_mod_to_equations; lia).
  assert (Eb : (n / 256) mod 256 = val b)
    by (subst n; Z.div_mod_to_equations; lia).
  rewrite Ea, Eb, !byte_of_val. reflexivity.
Qed.

Lemma decode_group1 a :
  let n := val a * 65536 in
  decode_group (char_of (n / 262144)) (char_of ((n / 4096) mod 64)) pad pad
  = Some [a].
Proof.
  intros n.
  pose proof (val_bounds a) as Ha.
  assert (H1 : 0 <= n / 262144 < 64)
    by (subst n; split;
        [apply Z.div_pos; lia | apply Z.div_lt_upper_bound; lia]).
  assert (H2 : 0 <= (n / 4096) mod 64 < 64) by (apply Z.mod_pos_bound; lia).
  unfold decode_group.
  rewrite !index_of_char_of by assumption.
  replace (Byte.eqb pad pad) with true by reflexivity.
  assert (E : n / 262144 * 262144 + (n / 4096) mod 64 * 4096 = n)
    by (subst n; Z.div_mod_to_equations; lia).
  rewrite E.
  assert (Ea : n / 65536 = val a) by (subst n; Z.div_mod_to_equations; lia).
  rewrite Ea, byte_of_val. reflexivity.
Qed.

Lemma bytes_ind3 (P : bytes -> Prop) :
  P [] -> (forall a, P [a]) -> (forall a b, P [a; b]) ->
  (forall a b c l, P l -> P (a :: b :: c :: l)) ->
  forall l, P l.
Proof.
  intros H0 H1 H2 H3.
  fix IH 1. intros [|a [|b [|c l]]].
  - exact H0.
  - apply H1.
  - apply H2.
  - apply H3, IH.
Qed.

Theorem urlsafe_b64_roundtrip bs :
  urlsafe_b64decode (urlsafe_b64encode bs) = Some bs.
Proof.
  induction bs as [|a|a b|a b c l IH] using bytes_ind3.
  - reflexivity.
  - cbn [urlsafe_b64encode urlsafe_b64decode].
    rewrite decode_group1. reflexivity.
  - cbn [urlsafe_b64encode urlsafe_b64decode].
    rewrite decode_group2. reflexivity.
  - cbn [urlsafe_b64encode urlsafe_b64decode].
    rewrite decode_group3.
    rewrite char_of_not_pad by (apply Z.mod_pos_bound; lia).
    rewrite IH. reflexivity.
Qed.

Lemma urlsafe_b64encode_inj b1 b2 :
  urlsafe_b64encode b1 = urlsafe_b64encode b2 -> b1 = b2.
Proof.
  intros H. apply (f_equal urlsafe_b64decode) in H.
  rewrite !urlsafe_b64_roundtrip in H. congruence.
Qed.

(* ================================================================== *)
(** ** The vault: encryption round trip ([EncryptionManager]) *)

Lemma byte_eqb_refl b : Byte.eqb b b = true.
Proof. now apply Byte.byte_dec_lb. Qed.

Lemma strip_prefix_app p l : strip_prefix p (p ++ l)%list = Some l.
Proof.
  induction p as [|a p IH]; simpl; [reflexivity|].
  now rewrite byte_eqb_refl.
Qed.

Lemma strip_prefix_Some p : forall l r,
  strip_prefix p l = Some r -> l = (p ++ r)%list.
Proof.
  induction p as [|a p IH]; intros [|b l] r; simpl; try congruence.
  destruct (Byte.eqb a b) eqn:E; [|discriminate].
  apply Byte.byte_dec_bl in E. subst b. intros H. now rewrite (IH _ _ H).
Qed.

Lemma unary_header_inj n : forall n' (a b : bytes),
  (repeat "001"%byte n ++ "000"%byte :: a
   = repeat "001"%byte n' ++ "000"%byte :: b)%list ->
  n = n' /\ a = b.
Proof.
  induction n as [|n IH]; intros [|n'] a b; simpl; intros E.
  - injection E as ->. auto.
  - discriminate.
  - discriminate.
  - injection E as E. destruct (IH _ _ _ E). auto.
Qed.

Lemma app_same_length_inj (k : bytes) : forall k' d r,
  List.length k = List.length k' ->
  (k ++ d = k' ++ r)%list -> k = k'.
Proof.
  induction k as [|x k IH]; intros [|y k'] d r; simpl; try discriminate.
  - reflexivity.
  - intros L E. injection L as L. injection E as -> E.
    f_equal. now apply IH with d r.
Qed.

Lemma toy_fernet_roundtrip : @fernet_roundtrip_law ToyCrypto.
Proof. intros key entropy data. simpl. apply strip_prefix_app. Qed.

Lemma toy_fernet_authentic : @fernet_authentic_law ToyCrypto.
Proof.
  intros key key' entropy data Hne. simpl.
  destruct (strip_prefix (toy_header key') (toy_header key ++ data)%list)
    as [r|] eqn:E; [|reflexivity].
  exfalso. apply Hne. apply strip_prefix_Some in E.
  unfold toy_header in E. rewrite <- !app_assoc in E. simpl in E.
  apply unary_header_inj in E. destruct E as [L E].
  now apply app_same_length_inj with data r.
Qed.

Section VaultLaws.

Context `{CryptoLib}.
Hypothesis fernet_roundtrip : fernet_roundtrip_law.
Hypothesis fernet_authentic : fernet_authentic_law.

Lemma decode_encode s : decode (encode s) = s.
Proof. apply string_of_list_byte_of_string. Qed.

Lemma encode_decode b : encode (decode b) = b.
Proof. apply list_byte_of_string_of_list_byte. Qed.

Lemma decrypt_encrypt_same_key key mp mp' entropy s :
  exists c,
    encrypt {| cipher := Some key; master_password := mp |} entropy s = Ok c
    /\ decrypt {| cipher := Some key; master_password := mp' |} c = Ok s.
Proof.
  unfold encrypt, decrypt. simpl. eexists. split; [reflexivity|].
  rewrite encode_decode, urlsafe_b64_roundtrip, fernet_roundtrip.
  now rewrite decode_encode.
Qed.

Lemma decrypt_encrypt_other_key key key' mp mp' entropy s :
  key <> key' ->
  exists c,
    encrypt {| cipher := Some key; master_password := mp |} entropy s = Ok c
    /\ decrypt {| cipher := Some key'; master_password := mp' |} c
       = Raise (ValueError "解密失败").
Proof.
  intros Hne. unfold encrypt, decrypt. simpl. eexists. split; [reflexivity|].
  rewrite encode_decode, urlsafe_b64_roundtrip.
  now rewrite (fernet_authentic _ _ _ _ Hne).
Qed.

Lemma set_master_password_with_salt urandom16 fs salt master :
  salt_file fs = Some salt ->
  set_master_password urandom16 fs master
  = ({| cipher :=
          Some (Base64.urlsafe_b64encode
                  (pbkdf2_hmac_sha256 salt 100000 (encode master)));
        master_password := Some master |}, fs).
Proof.
  intros Hs. unfold set_master_password, derive_key, get_or_create_salt.
  now rewrite Hs.
Qed.

Lemma set_master_password_salt urandom16 fs master :
  exists salt,
    salt_file (snd (set_master_password urandom16 fs master)) = Some salt
    /\ fst (set_master_password urandom16 fs master)
       = {| cipher :=
              Some (Base64.urlsafe_b64encode
                      (pbkdf2_hmac_sha256 salt 100000 (encode master)));
            master_password := Some master |}.
Proof.
  unfold set_master_password, derive_key, get_or_create_salt.
  destruct (salt_file fs) as [salt|] eqn:Es; simpl.
  - now exists salt.
  - now exists urandom16.
Qed.


End VaultLaws.


(* ================================================================== *)
(** ** Unlocking an existing vault ([setup_master_password]) *)

(** Claim C3.  The claim says that unlocking an existing vault succeeds
    only after a stored ciphertext was decrypted with the derived key, so
    that a wrong master password is reported as a failure.  The code never
    decrypts: whenever the account file can be read, unlocking returns the
    supplied password and sets [master_password_set], whatever the password
    and whatever the records hold. *)
Theorem setup_master_password_accepts_any_secret `{CryptoLib}
    (urandom16 salt : bytes) (records : list AccountConfig)
    (state : list string) (m : AccountManager)
    (supplied : string) (more : list string) :
  let fs := {| salt_file := Some salt;
               accounts_file := AccountsDoc records;
               state_files := state |} in
  exists m',
    setup_master_password false (supplied :: more) urandom16 m fs
    = Ok (supplied, m', fs)
    /\ master_password_set m' = true
    /\ cipher (encryption m')
       = Some (Base64.urlsafe_b64encode
                 (pbkdf2_hmac_sha256 salt 100000 (encode supplied))).
Proof.
  intros fs. unfold setup_master_password, set_master_password, derive_key,
    get_or_create_salt, load_accounts. simpl.
  eexists. repeat split.
Qed.

(* ================================================================== *)
(** ** Account ids ([add_account], [remove_account]) *)

(** Claim C10.  Ids are not fresh: after adding two accounts and removing
    the first, the third [add_account] returns [acc_002], the id of the
    account still in the registry, whose record it replaces; the registry
    holds as many accounts after the call as before. *)
Theorem add_account_reuses_id `{CryptoLib} (now : datetime)
    (urandom16 entropy : bytes) (fs : Files) (master : string)
    (u1 p1 u2 p2 u3 p3 : string) :
  let '(m, fs') := fresh_manager urandom16 fs master in
  exists id3 before after old new,
    add_remove_add now entropy m fs' u1 p1 u2 p2 u3 p3
    = Ok (id3, before, after)
    /\ id3 = "acc_002"
    /\ dict_get id3 before = Some old /\ username old = u2
    /\ dict_get id3 after = Some new /\ username new = u3
    /\ List.length after = List.length before.
Proof.
  unfold fresh_manager, set_master_password, derive_key.
  destruct (get_or_create_salt urandom16 fs) as [salt fs1].
  do 5 eexists.
  split; [reflexivity|].
  cbn. repeat split; reflexivity.
Qed.

(* ================================================================== *)
(** ** The run loop: what is persisted at each end ([run]) *)

Lemma keyword_loop_gathers wm evs : forall st,
  let st' := fst (keyword_loop wm evs st) in
  all_posts st' = (all_posts st ++ gathered_posts (executed wm evs))%list
  /\ all_comments st'
     = (all_comments st ++ gathered_comments (executed wm evs))%list
  /\ keywords_processed (stats st')
     = keywords_processed (stats st) + searches (executed wm evs).
Proof.
  induction evs as [|ev rest IH]; intros st; simpl.
  - rewrite !app_nil_r. unfold searches. simpl. repeat split; lia.
  - destruct ev as [posts comments| | |e|posts comments e]; simpl.
    + destruct (IH (after_search st posts comments)) as [Hp [Hc Hk]].
      simpl in Hp, Hc, Hk. rewrite Hp, Hc, Hk, <- !app_assoc.
      unfold searches. simpl. repeat split; lia.
    + exact (IH st).
    + exact (IH st).
    + destruct (wm || negb (is_Exception e)); simpl.
      * rewrite !app_nil_r. unfold searches. simpl. repeat split; lia.
      * exact (IH st).
    + destruct (wm || negb (is_Exception e)); simpl.
      * rewrite !app_nil_r. unfold searches. simpl. repeat split; lia.
      * destruct (IH (after_search st posts comments)) as [Hp [Hc Hk]].
        simpl in Hp, Hc, Hk. rewrite Hp, Hc, Hk, <- !app_assoc.
        unfold searches. simpl. repeat split; lia.
Qed.

Lemma keyword_loop_exception wm evs : forall st e,
  snd (keyword_loop wm evs st) = Some e ->
  wm = true \/ e = KeyboardInterrupt.
Proof.
  induction evs as [|ev rest IH]; intros st e; simpl; [discriminate|].
  destruct ev as [posts comments| | |e'|posts comments e']; simpl;
    try apply IH;
    (destruct wm; simpl; [auto|]);
    destruct e'; simpl; try apply IH; intros H; injection H as <-; auto.
Qed.

Lemma try_end_persists sc st raised :
  match run_exit (try_end sc st raised) with
  | Returned res | ReturnedAfterInterrupt res =>
      res_posts res = all_posts st /\ res_comments res = all_comments st
      /\ keywords_processed (res_stats res) = keywords_processed (stats st)
      /\ exists doc,
           saved (try_end sc st raised) = [doc]
           /\ res_posts doc = all_posts st
           /\ res_comments doc = all_comments st
           /\ res_keywords doc = config_keywords sc
  | Reraised e =>
      match all_posts st, all_comments st with
      | [], [] => saved (try_end sc st raised) = []
      | _, _ =>
          exists doc,
            saved (try_end sc st raised) = [doc]
            /\ res_posts doc = all_posts st
            /\ res_comments doc = all_comments st
      end
  end.
Proof.
  assert (Hsave : exists doc,
             [make_results sc st] = [doc]
             /\ res_posts doc = all_posts st
             /\ res_comments doc = all_comments st
             /\ res_keywords doc = config_keywords sc)
    by (eexists; repeat split).
  destruct raised as [e|]; [|simpl; repeat split; exact Hsave].
  assert (Hcases : e = KeyboardInterrupt \/ is_Exception e = true)
    by (destruct e; auto).
  destruct Hcases as [->|He].
  - simpl. repeat split. exact Hsave.
  - assert (Hte : try_end sc st (Some e)
                  = if nonempty (all_posts st) || nonempty (all_comments st)
                    then {| run_exit := Reraised e;
                            saved := [make_results sc st] |}
                    else {| run_exit := Reraised e; saved := [] |})
      by (destruct e; try discriminate; reflexivity).
    rewrite Hte. clear Hte.
    destruct (all_posts st) as [|p l] eqn:Ep;
      destruct (all_comments st) as [|c l'] eqn:Ec; simpl;
      try reflexivity;
      (exists (make_results sc st); simpl; rewrite ?Ep, ?Ec; repeat split).
Qed.



Example run_without_accounts :
  exists res doc,
    run no_account_run = {| run_exit := Returned res; saved := [doc] |}
    /\ keywords_processed (res_stats res) = 0
    /\ res_posts doc = [] /\ res_comments doc = []
    /\ res_keywords doc = ["GEO 优化"; "AI 搜索排名"; "品牌获客"].
Proof. vm_compute. do 2 eexists. repeat split. Qed.

(* ================================================================== *)
(** ** The selection strategies on the demonstration registry *)

Lemma demo_available :
  filter (spec_available us_per_hour example_now)
         (filter spec_eligible (dict_values demo_registry))
  = [demo_account "acc_001" 5 ACTIVE "";
     demo_account "acc_003" 3 ACTIVE "2024-06-01T10:00:00.250000";
     demo_account "acc_004" 20 SUSPICIOUS "2024-06-01T07:00:00"].
Proof. vm_compute. reflexivity. Qed.

(** Claim C7 on the demonstration registry. *)
Lemma get_next_account_cooldown_spec_witness :
  forallb (last_used_ok us_per_hour)
          (filter spec_eligible (dict_values demo_registry)) = true
  /\ exists r,
       get_next_account demo_registry true us_per_hour example_now = Ok r
       /\ exists a,
            r = Some a
            /\ In a (filter (spec_available us_per_hour example_now)
                            (filter spec_eligible (dict_values demo_registry)))
            /\ forall b,
                 In b (filter (spec_available us_per_hour example_now)
                         (filter spec_eligible (dict_values demo_registry))) ->
                 ~ spec_before b a.
Proof.
  assert (H : forallb (last_used_ok us_per_hour)
                (filter spec_eligible (dict_values demo_registry)) = true)
    by (vm_compute; reflexivity).
  split; [exact H|].
  pose proof (get_next_account_cooldown_spec demo_registry us_per_hour
                example_now H) as T.
  cbv zeta in T. destruct T as [r [Hr T]].
  exists r. split; [exact Hr|].
  rewrite demo_available in T |- *. exact (proj2 T).
Defined.

Example get_next_account_demo :
  get_next_account demo_registry true us_per_hour example_now
  = Ok (Some (demo_account "acc_003" 3 ACTIVE "2024-06-01T10:00:00.250000")).
Proof. vm_compute. reflexivity. Qed.

Lemma demo_candidates :
  filter is_candidate (dict_values demo_registry)
  = dict_values demo_registry.
Proof. vm_compute. reflexivity. Qed.


Example get_account_for_search_demo :
  get_account_for_search demo_registry example_now
  = Ok (Some (demo_account "acc_003" 3 ACTIVE "2024-06-01T10:00:00.250000")).
Proof. vm_compute. reflexivity. Qed.

(* ================================================================== *)
(** ** Timestamp parsing ([_parse_timestamp]) *)

Lemma dt_max_value : dt_max = 315537897599999999.
Proof. reflexivity. Qed.

Lemma sub_in_range now d :
  0 <= d <= now -> now <= dt_max -> sub now d = Ok (now - d).
Proof.
  intros Hd Hn. unfold sub, add, in_range, dt_min.
  replace (now + - d) with (now - d) by lia.
  destruct (Z.leb_spec 0 (now - d)); [|lia].
  destruct (Z.leb_spec (now - d) dt_max); [reflexivity|lia].
Qed.

Lemma quot_shift x k :
  Z.abs (Z.quot (x - 1000 * k) 1000 - (Z.quot x 1000 - k)) <= 1.
Proof.
  pose proof (Z.quot_rem' x 1000) as H1.
  pose proof (Z.quot_rem' (x - 1000 * k) 1000) as H2.
  pose proof (Z.rem_bound_abs x 1000 ltac:(lia)) as B1.
  pose proof (Z.rem_bound_abs (x - 1000 * k) 1000 ltac:(lia)) as B2.
  lia.
Qed.

Section ParseTimestamp.

Context `{LocalZone}.
Variable now : datetime.
Hypothesis clock_range : epoch <= now <= dt_max.

Lemma parse_timestamp_total s : exists v, parse_timestamp now s = Ok v.
Proof.
  destruct s as [s|]; unfold parse_timestamp; [|now exists 0].
  destruct (negb (truthy s)); [now exists 0|].
  repeat match goal with
         | |- context [if contains ?p s then _ else _] =>
             destruct (contains p s); try (eexists; reflexivity)
         end.
  - rewrite sub_in_range; [eexists; reflexivity | |];
      change (timedelta_of 1 0 0) with 86400000000;
      change epoch with 62135596800000000 in clock_range; lia.
  - rewrite sub_in_range; [eexists; reflexivity | |];
      change (timedelta_of 2 0 0) with 172800000000;
      change epoch with 62135596800000000 in clock_range; lia.
Qed.

Lemma parse_timestamp_empty :
  parse_timestamp now None = Ok 0 /\ parse_timestamp now (Some "") = Ok 0.
Proof. split; reflexivity. Qed.

Lemma try_formats_none fmts s :
  (forall fmt, In fmt fmts -> strptime s fmt = None) ->
  try_formats now fmts s = 0.
Proof.
  induction fmts as [|fmt rest IH]; cbn [try_formats]; intros Hn;
    [reflexivity|].
  rewrite (Hn fmt) by now left. apply IH. intros f Hf. apply Hn. now right.
Qed.

Lemma no_relative_phrase_split s :
  no_relative_phrase s = true ->
  contains "刚刚" s = false /\ contains "分钟前" s = false
  /\ contains "小时前" s = false /\ contains "天前" s = false
  /\ contains "昨天" s = false /\ contains "前天" s = false.
Proof.
  unfold no_relative_phrase. rewrite !andb_true_iff, !negb_true_iff.
  tauto.
Qed.

Lemma parse_timestamp_formats s :
  no_relative_phrase s = true ->
  parse_timestamp now (Some s)
  = Ok (if truthy s then try_formats now date_formats s else 0).
Proof.
  intros Hn. apply no_relative_phrase_split in Hn.
  destruct Hn as [H1 [H2 [H3 [H4 [H5 H6]]]]].
  unfold parse_timestamp. rewrite H1, H2, H3, H4, H5, H6.
  now destruct (truthy s).
Qed.

Lemma parse_timestamp_unparseable s :
  no_relative_phrase s = true ->
  (forall fmt, In fmt date_formats -> strptime s fmt = None) ->
  parse_timestamp now (Some s) = Ok 0.
Proof.
  intros Hn Hf. rewrite parse_timestamp_formats by assumption.
  rewrite try_formats_none by assumption. now destruct (truthy s).
Qed.

Lemma relative_ago_value unit arg n :
  py_int arg = Some n -> 0 <= n * unit <= now ->
  relative_ago now unit arg = to_ms (now - n * unit).
Proof.
  intros Hi Hr. unfold relative_ago, timedelta_checked. rewrite Hi.
  assert (Hd : (Z.abs (n * unit / us_per_day) <=? 999999999) = true).
  { apply Z.leb_le.
    assert (0 <= n * unit / us_per_day) by (apply Z.div_pos; [lia|reflexivity]).
    rewrite Z.abs_eq by assumption.
    assert (n * unit / us_per_day <= dt_max / us_per_day)
      by (apply Z.div_le_mono; [reflexivity | lia]).
    change (dt_max / us_per_day) with 3652058 in *. lia. }
  rewrite Hd. simpl bind. rewrite sub_in_range by lia. reflexivity.
Qed.

Lemma relative_ago_not_int unit arg :
  py_int arg = None -> relative_ago now unit arg = 0.
Proof. intros Hi. unfold relative_ago. now rewrite Hi. Qed.

Lemma mmdd_static_all :
  forallb (fun p => mmdd_static (fst p) (snd p)) common_year_days = true.
Proof. vm_compute. reflexivity. Qed.

Lemma common_year_days_In m d :
  1 <= m <= 12 -> 1 <= d <= days_in_month 1900 m ->
  In (m, d) common_year_days.
Proof.
  intros Hm Hd. unfold common_year_days. apply in_flat_map.
  exists m. split.
  - apply in_map_iff. exists (Z.to_nat m). split; [lia|].
    apply in_seq. lia.
  - apply in_map_iff. exists (Z.to_nat d). split; [f_equal; lia|].
    apply in_seq. lia.
Qed.

Lemma is_none_true {A} (o : option A) : is_none o = true -> o = None.
Proof. destruct o; [discriminate | reflexivity]. Qed.

Lemma parse_timestamp_mmdd m d t :
  1 <= m <= 12 -> 1 <= d <= days_in_month 1900 m ->
  mk (year now) m d 0 0 0 0 = Some t ->
  parse_timestamp now (Some (mmdd_text "-" m d)) = Ok (to_ms t)
  /\ parse_timestamp now (Some (mmdd_text "/" m d)) = Ok (to_ms t).
Proof.
  intros Hm Hd Ht.
  pose proof mmdd_static_all as Hall. rewrite forallb_forall in Hall.
  specialize (Hall _ (common_year_days_In m d Hm Hd)). simpl fst in Hall.
  simpl snd in Hall. unfold mmdd_static in Hall.
  cbv zeta in Hall.
  repeat (apply andb_prop in Hall; destruct Hall as [Hall ?]).
  repeat match goal with
         | Hf : forallb _ _ = true |- _ =>
             cbn [forallb] in Hf;
             repeat (apply andb_prop in Hf; destruct Hf as [? Hf]);
             clear Hf
         end.
  repeat match goal with
         | Hn : is_none _ = true |- _ => apply is_none_true in Hn
         end.
  destruct (strptime (mmdd_text "-" m d) "%m-%d") as [p1|] eqn:E1;
    [|discriminate].
  destruct (strptime (mmdd_text "/" m d) "%m/%d") as [p2|] eqn:E2;
    [|discriminate].
  match goal with
  | Hp : _ && _ = true |- _ =>
      repeat (apply andb_prop in Hp; destruct Hp as [Hp ?])
  end.
  repeat match goal with
         | Hz : (_ =? _) = true |- _ => apply Z.eqb_eq in Hz
         end.
  subst p2.
  assert (Hrep : replace_year p1 (year now) = Some t).
  { unfold replace_year.
    repeat match goal with
           | Hz : _ p1 = _ |- _ => rewrite Hz
           end.
    exact Ht. }
  split; rewrite parse_timestamp_formats by assumption.
  - match goal with Htr : truthy (mmdd_text "-" m d) = true |- _ =>
      rewrite Htr end.
    unfold date_formats. cbn [try_formats].
    repeat match goal with
           | Hs : strptime (mmdd_text "-" m d) _ = None |- _ =>
               rewrite Hs; clear Hs
           end.
    rewrite E1. change (yearless "%m-%d") with true. cbv iota.
    now rewrite Hrep.
  - match goal with Htr : truthy (mmdd_text "/" m d) = true |- _ =>
      rewrite Htr end.
    unfold date_formats. cbn [try_formats].
    repeat match goal with
           | Hs : strptime (mmdd_text "/" m d) _ = None |- _ =>
               rewrite Hs; clear Hs
           end.
    rewrite E2. change (yearless "%m/%d") with true. cbv iota.
    now rewrite Hrep.
Qed.

Lemma parse_timestamp_minutes s n :
  truthy s = true -> contains "刚刚" s = false ->
  contains "分钟前" s = true ->
  py_int (remove_all "分钟前" s) = Some n ->
  0 <= n * us_per_minute <= now ->
  parse_timestamp now (Some s) = Ok (to_ms (now - n * us_per_minute)).
Proof.
  intros Ht H1 H2 Hi Hr. unfold parse_timestamp.
  rewrite Ht, H1, H2. cbv iota. simpl negb. cbv iota.
  now rewrite (relative_ago_value _ _ _ Hi Hr).
Qed.

Lemma parse_timestamp_hours s n :
  truthy s = true -> contains "刚刚" s = false ->
  contains "分钟前" s = false -> contains "小时前" s = true ->
  py_int (remove_all "小时前" s) = Some n ->
  0 <= n * us_per_hour <= now ->
  parse_timestamp now (Some s) = Ok (to_ms (now - n * us_per_hour)).
Proof.
  intros Ht H1 H2 H3 Hi Hr. unfold parse_timestamp.
  rewrite Ht, H1, H2, H3. cbv iota. simpl negb. cbv iota.
  now rewrite (relative_ago_value _ _ _ Hi Hr).
Qed.

Lemma parse_timestamp_days s n :
  truthy s = true -> contains "刚刚" s = false ->
  contains "分钟前" s = false -> contains "小时前" s = false ->
  contains "天前" s = true ->
  py_int (remove_all "天前" s) = Some n ->
  0 <= n * us_per_day <= now ->
  parse_timestamp now (Some s) = Ok (to_ms (now - n * us_per_day)).
Proof.
  intros Ht H1 H2 H3 H4 Hi Hr. unfold parse_timestamp.
  rewrite Ht, H1, H2, H3, H4. cbv iota. simpl negb. cbv iota.
  now rewrite (relative_ago_value _ _ _ Hi Hr).
Qed.

Lemma clock_after_epoch : 62135596800000000 <= now.
Proof. exact (proj1 clock_range). Qed.

Lemma parse_timestamp_three_days_ago :
  parse_timestamp now (Some "3天前") = Ok (to_ms (now - 3 * us_per_day))
  /\ parse_timestamp now (Some "3 天前") = Ok (to_ms (now - 3 * us_per_day)).
Proof.
  pose proof clock_after_epoch as Hc.
  split; apply parse_timestamp_days; try reflexivity;
    change us_per_day with 86400000000; lia.
Qed.

Lemma parse_timestamp_phrases :
  parse_timestamp now (Some "刚刚") = Ok (to_ms now)
  /\ parse_timestamp now (Some "昨天") = Ok (to_ms (now - us_per_day))
  /\ parse_timestamp now (Some "前天") = Ok (to_ms (now - 2 * us_per_day)).
Proof.
  pose proof clock_after_epoch as Hc. pose proof (proj2 clock_range) as Hm.
  assert (H1 : sub now (timedelta_of 1 0 0) = Ok (now - us_per_day))
    by (apply sub_in_range;
        [change (timedelta_of 1 0 0) with 86400000000;
         change us_per_day with 86400000000; lia
        | assumption]).
  assert (H2 : sub now (timedelta_of 2 0 0) = Ok (now - 2 * us_per_day))
    by (apply sub_in_range;
        [change (timedelta_of 2 0 0) with 172800000000;
         change us_per_day with 86400000000; lia
        | assumption]).
  repeat split.
  - unfold parse_timestamp.
    change (truthy "昨天") with true. change (contains "刚刚" "昨天") with false.
    change (contains "分钟前" "昨天") with false.
    change (contains "小时前" "昨天") with false.
    change (contains "天前" "昨天") with false.
    change (contains "昨天" "昨天") with true.
    cbv iota. simpl negb. cbv iota. now rewrite H1.
  - unfold parse_timestamp.
    change (truthy "前天") with true. change (contains "刚刚" "前天") with false.
    change (contains "分钟前" "前天") with false.
    change (contains "小时前" "前天") with false.
    change (contains "天前" "前天") with false.
    change (contains "昨天" "前天") with false.
    change (contains "前天" "前天") with true.
    cbv iota. simpl negb. cbv iota. now rewrite H2.
Qed.

Lemma parse_timestamp_iso_date t :
  mk 2024 1 15 0 0 0 0 = Some t ->
  parse_timestamp now (Some "2024-01-15") = Ok (to_ms t).
Proof.
  intros Ht. rewrite parse_timestamp_formats by reflexivity.
  change (truthy "2024-01-15") with true. cbv iota.
  unfold date_formats. cbn [try_formats].
  change (strptime "2024-01-15" "%Y-%m-%d") with (mk 2024 1 15 0 0 0 0).
  rewrite Ht. reflexivity.
Qed.


End ParseTimestamp.

(* ================================================================== *)
(** ** The time-window filter ([_filter_posts_by_time]) *)

Section WindowFilter.

Context `{LocalZone}.
Variable now : datetime.
Hypothesis clock_range : epoch <= now <= dt_max.

Lemma keep_post_retained time_range p :
  keep_post now (to_ms (fst time_range)) (to_ms (snd time_range)) p
  = Ok (retained now time_range p).
Proof.
  unfold keep_post, retained, canonical_timestamp.
  destruct (timestamp_unix p =? 0) eqn:E0.
  - destruct (post_timestamp_raw p) as [s|] eqn:Er.
    + destruct (truthy s) eqn:Et; cbn [andb].
      * destruct (parse_timestamp_total now clock_range (Some s)) as [v Hv].
        rewrite Hv. cbn [bind].
        destruct ((to_ms (fst time_range) <=? v) && (v <=? to_ms (snd time_range)));
          [reflexivity|]. cbn [orb]. now destruct (v =? 0).
      * assert (Hs : parse_timestamp now (Some s) = Ok 0)
          by (unfold parse_timestamp; now rewrite Et).
        rewrite Hs. cbn [bind]. apply Z.eqb_eq in E0. rewrite E0.
        destruct ((to_ms (fst time_range) <=? 0) && (0 <=? to_ms (snd time_range)));
          reflexivity.
    + cbn [andb bind parse_timestamp]. apply Z.eqb_eq in E0. rewrite E0.
      destruct ((to_ms (fst time_range) <=? 0) && (0 <=? to_ms (snd time_range)));
        reflexivity.
  - cbn [andb bind]. rewrite E0.
    destruct ((to_ms (fst time_range) <=? timestamp_unix p)
              && (timestamp_unix p <=? to_ms (snd time_range))); reflexivity.
Qed.

Lemma filter_loop_filter time_range posts :
  filter_loop now (to_ms (fst time_range)) (to_ms (snd time_range)) posts
  = Ok (filter (retained now time_range) posts).
Proof.
  induction posts as [|p rest IH]; cbn [filter_loop filter]; [reflexivity|].
  rewrite keep_post_retained, IH. cbn [bind].
  now destruct (retained now time_range p).
Qed.

Lemma filter_idempotent {A} (f : A -> bool) l :
  filter f (filter f l) = filter f l.
Proof.
  induction l as [|x l IH]; simpl; [reflexivity|].
  destruct (f x) eqn:E; simpl; rewrite ?E, IH; reflexivity.
Qed.


End WindowFilter.

Lemma fixed_zone_offset utcoffset : @fixed_offset (FixedZone utcoffset).
Proof. intros t d. simpl. lia. Qed.

Lemma example_clock_range : epoch <= example_now <= dt_max.
Proof. vm_compute. split; discriminate. Qed.



(* ================================================================== *)
(** ** Unlocking with a wrong master password, on the sample vault *)

Example unlock_with_wrong_secret :
  exists m fs m',
    vault_with_one_account = Ok (m, fs)
    /\ @get_password ToyCrypto m "acc_001" = Ok "s3cret"
    /\ @setup_master_password ToyCrypto false ["wrong horse"] sample_salt
         AccountManager_init fs
       = Ok ("wrong horse", m', fs)
    /\ master_password_set m' = true
    /\ @get_password ToyCrypto m' "acc_001" = Raise (ValueError "解密失败").
Proof.
  do 3 eexists.
  split; [vm_compute; reflexivity|].
  split; [vm_compute; reflexivity|].
  split; [vm_compute; reflexivity|].
  split; vm_compute; reflexivity.
Qed.

(* ================================================================== *)
(** ** The leap day ([_parse_timestamp]) *)

(** Claim C8.  The claim says that a bare [MM-DD] is resolved to the
    current year.  [datetime.strptime] reads a date without a year in
    1900, which has no 29 February, so it raises on "02-29" before the year
    is replaced: at noon on 2024-06-01, a leap year, "02-29" and "02/29"
    give 0, while "02-28" gives the local midnight of 2024-02-28. *)
Theorem parse_timestamp_leap_day `{LocalZone} :
  year example_now = 2024
  /\ mk (year example_now) 2 29 0 0 0 0 = Some 63844761600000000
  /\ strptime "02-29" "%m-%d" = None
  /\ parse_timestamp example_now (Some "02-29") = Ok 0
  /\ parse_timestamp example_now (Some "02/29") = Ok 0
  /\ parse_timestamp example_now (Some "02-28")
     = Ok (to_ms 63844675200000000).
Proof.
  split; [reflexivity|]. split; [vm_compute; reflexivity|].
  split; [vm_compute; reflexivity|].
  split; [vm_compute; reflexivity|]. split; vm_compute; reflexivity.
Qed.

(* ================================================================== *)
(** ** [get_next_account] on the demonstration registry *)

(** Property X2 on the demonstration registry, cooldown not respected. *)
Lemma get_next_account_eligible_witness :
  get_next_account demo_registry false us_per_hour example_now
  = Ok (Some (demo_account "acc_003" 3 ACTIVE "2024-06-01T10:00:00.250000"))
  /\ banned_or_limited
       (demo_account "acc_003" 3 ACTIVE "2024-06-01T10:00:00.250000") = false.
Proof.
  assert (H : get_next_account demo_registry false us_per_hour example_now
              = Ok (Some (demo_account "acc_003" 3 ACTIVE
                            "2024-06-01T10:00:00.250000")))
    by (vm_compute; reflexivity).
  split; [exact H|].
  exact (proj2 (get_next_account_eligible _ _ _ _ _ H)).
Defined.

(* ================================================================== *)
(** ** The library models on sample inputs *)

Example isoformat_example :
  option_map isoformat (mk 2024 2 29 13 5 9 250)
  = Some "2024-02-29T13:05:09.000250"
  /\ option_map isoformat (mk 2024 6 1 12 0 0 0) = Some "2024-06-01T12:00:00".
Proof. vm_compute. split; reflexivity. Qed.

Example fromisoformat_example :
  fromisoformat "2024-02-29T13:05:09.000250" = mk 2024 2 29 13 5 9 250
  /\ fromisoformat "2023-02-29T13:05:09" = None
  /\ fromisoformat "2024-12-31" = mk 2024 12 31 0 0 0 0
  /\ fromisoformat "2024-06-01T10:00:00+08:00" = None.
Proof. vm_compute. repeat split. Qed.

Example ord2ymd_example :
  map (fun '(y, m, d) => ord2ymd (ymd2ord y m d))
      [(2024, 2, 29); (2023, 12, 31); (2000, 2, 29); (1900, 3, 1);
       (1, 1, 1); (9999, 12, 31); (1970, 1, 1)]
  = [(2024, 2, 29); (2023, 12, 31); (2000, 2, 29); (1900, 3, 1);
     (1, 1, 1); (9999, 12, 31); (1970, 1, 1)].
Proof. vm_compute. reflexivity. Qed.

Example format_03d_example :
  format_03d 7 = "007" /\ format_03d 42 = "042" /\ format_03d 1234 = "1234".
Proof. vm_compute. repeat split. Qed.

Example py_int_example :
  map py_int ["5"; " 5 "; "+5"; "-3"; "1_000"; "007"]
  = [Some 5; Some 5; Some 5; Some (-3); Some 1000; Some 7]
  /\ map py_int ["1__0"; "_1"; "1_"; ""; "3 4"; "5x"; "+ 5"]
     = [None; None; None; None; None; None; None].
Proof. vm_compute. split; reflexivity. Qed.

Example remove_all_example :
  map (remove_all "aa") ["aaa"; "baab"; "aaaa"; "xaayaaz"]
  = ["a"; "bb"; ""; "xyz"]
  /\ remove_all "天前" "3 天前" = "3 ".
Proof. vm_compute. split; reflexivity. Qed.

Example contains_example :
  map (contains "天前") ["3天前"; "前天"; "昨天"; ""] = [true; false; false; false].
Proof. vm_compute. reflexivity. Qed.

Example strptime_example :
  strptime "2024-01-15" "%Y-%m-%d" = mk 2024 1 15 0 0 0 0
  /\ strptime "2024-1-5" "%Y-%m-%d" = mk 2024 1 5 0 0 0 0
  /\ strptime "2024-01-15 " "%Y-%m-%d" = None
  /\ strptime "2024-02-30" "%Y-%m-%d" = None
  /\ strptime "2024/1/5  8:5" "%Y/%m/%d %H:%M" = mk 2024 1 5 8 5 0 0
  /\ strptime "2024/01/15 08:60" "%Y/%m/%d %H:%M" = None
  /\ strptime "12-31" "%m-%d" = mk 1900 12 31 0 0 0 0
  /\ strptime "1-32" "%m-%d" = None.
Proof. vm_compute. repeat split. Qed.

Example parse_timestamp_examples :
  map (@parse_timestamp Shanghai example_now)
      [Some "5分钟前"; Some "2 小时前"; Some "昨天 12:30";
       Some "2024/01/15 08:30"; Some "1/5"; Some "x天前";
       Some "99999999999天前"; Some "hello"]
  = [Ok 1717214100000; Ok 1717207200000; Ok 1717128000000;
     Ok 1705278600000; Ok 1704384000000; Ok 0; Ok 0; Ok 0].
Proof. vm_compute. reflexivity. Qed.

(* ================================================================== *)
(** ** The registry: lookups, updates and what is kept on file *)

Lemma dict_get_set_same k v d : dict_get k (dict_set k v d) = Some v.
Proof.
  induction d as [|[k' v'] d IH]; simpl.
  - now rewrite String.eqb_refl.
  - destruct (k =? k')%string eqn:E; simpl; rewrite E; auto.
Qed.

Lemma dict_get_set_other k k' v d :
  k <> k' -> dict_get k' (dict_set k v d) = dict_get k' d.
Proof.
  intros Hne. induction d as [|[k0 v0] d IH]; simpl.
  - apply String.eqb_neq in Hne. rewrite String.eqb_sym in Hne. now rewrite Hne.
  - destruct (k =? k0)%string eqn:E; simpl.
    + apply String.eqb_eq in E. subst k0.
      assert (E' : (k' =? k)%string = false)
        by (apply String.eqb_neq; congruence).
      now rewrite E'.
    + now rewrite IH.
Qed.

Lemma dict_mem_set k k' v d :
  dict_mem k' (dict_set k v d) = (k' =? k)%string || dict_mem k' d.
Proof.
  unfold dict_mem. destruct (k' =? k)%string eqn:E.
  - apply String.eqb_eq in E. subst k'. now rewrite dict_get_set_same.
  - rewrite dict_get_set_other; auto.
    apply String.eqb_neq in E. congruence.
Qed.

Lemma dict_get_del_other k k' d :
  k <> k' -> dict_get k' (dict_del k d) = dict_get k' d.
Proof.
  intros Hne. induction d as [|[k0 v0] d IH]; simpl; auto.
  destruct (k =? k0)%string eqn:E; simpl.
  - apply String.eqb_eq in E. subst k0.
    assert (E' : (k' =? k)%string = false)
      by (apply String.eqb_neq; congruence).
    now rewrite E'.
  - now rewrite IH.
Qed.

Lemma dict_mem_del_other k k' d :
  k <> k' -> dict_mem k' (dict_del k d) = dict_mem k' d.
Proof. intros. unfold dict_mem. now rewrite dict_get_del_other. Qed.

Lemma dict_mem_del_false k k' d :
  dict_mem k' d = false -> dict_mem k' (dict_del k d) = false.
Proof.
  unfold dict_mem. induction d as [|[k0 v0] d IH]; simpl; auto.
  destruct (k' =? k0)%string eqn:E1; [discriminate|].
  intros Hd. destruct (k =? k0)%string; simpl; auto.
  rewrite E1. auto.
Qed.

Lemma registry_ok_del k d :
  registry_ok d = true ->
  registry_ok (dict_del k d) = true /\ dict_get k (dict_del k d) = None.
Proof.
  induction d as [|[k0 v0] d IH]; simpl; auto.
  intros Hok. apply andb_prop in Hok. destruct Hok as [Hok H3].
  apply andb_prop in Hok. destruct Hok as [H1 H2].
  apply negb_true_iff in H2.
  destruct (k =? k0)%string eqn:E.
  - apply String.eqb_eq in E. subst k0. split; auto.
    unfold dict_mem in H2. destruct (dict_get k d); congruence.
  - destruct (IH H3) as [IH1 IH2]. simpl. rewrite E, H1, IH1, IH2.
    rewrite (dict_mem_del_false _ _ _ H2). auto.
Qed.

Lemma registry_ok_set k v d :
  registry_ok d = true -> k = account_id v ->
  registry_ok (dict_set k v d) = true.
Proof.
  intros Hok Hk. induction d as [|[k0 v0] d IH]; simpl.
  - rewrite <- Hk, String.eqb_refl. reflexivity.
  - simpl in Hok. apply andb_prop in Hok. destruct Hok as [Hok H3].
    apply andb_prop in Hok. destruct Hok as [H1 H2].
    destruct (k =? k0)%string eqn:E; simpl.
    + apply String.eqb_eq in E. subst k0. rewrite <- Hk, String.eqb_refl.
      now rewrite H2, H3.
    + rewrite H1, (IH H3), dict_mem_set.
      rewrite String.eqb_sym, E. simpl. now rewrite H2.
Qed.

Lemma registry_ok_key k a d :
  registry_ok d = true -> dict_get k d = Some a -> account_id a = k.
Proof.
  induction d as [|[k0 v0] d IH]; simpl; [discriminate|].
  intros Hok. apply andb_prop in Hok. destruct Hok as [Hok H3].
  apply andb_prop in Hok. destruct Hok as [H1 H2].
  destruct (k =? k0)%string eqn:E.
  - intros Hg. inversion Hg. subst v0. apply String.eqb_eq in E, H1. congruence.
  - auto.
Qed.

Lemma dict_set_absent k v d :
  dict_mem k d = false -> dict_set k v d = (d ++ [(k, v)])%list.
Proof.
  unfold dict_mem. induction d as [|[k0 v0] d IH]; simpl; auto.
  destruct (k =? k0)%string; [discriminate|].
  intros Hd. now rewrite IH.
Qed.

Lemma dict_mem_app k d1 d2 :
  dict_mem k (d1 ++ d2)%list = dict_mem k d1 || dict_mem k d2.
Proof.
  unfold dict_mem. induction d1 as [|[k0 v0] d1 IH]; simpl; auto.
  destruct (k =? k0)%string; auto.
Qed.

Lemma registry_ok_app d1 d2 :
  registry_ok (d1 ++ d2)%list = true ->
  registry_ok d2 = true
  /\ forall k, dict_mem k d2 = true -> dict_mem k d1 = false.
Proof.
  induction d1 as [|[k0 v0] d1 IH]; simpl.
  - intros Hok. split; auto.
  - intros Hok. apply andb_prop in Hok. destruct Hok as [Hok H3].
    apply andb_prop in Hok. destruct Hok as [H1 H2].
    apply negb_true_iff in H2. rewrite dict_mem_app in H2.
    apply orb_false_iff in H2. destruct H2 as [H2 H2'].
    destruct (IH H3) as [IH1 IH2]. split; auto.
    intros k Hk. unfold dict_mem. simpl.
    destruct (k =? k0)%string eqn:E.
    + apply String.eqb_eq in E. subst k0. congruence.
    + apply IH2 in Hk. exact Hk.
Qed.

(** Reading back the records of a registry, one after the other, on top of
    the records already read. *)
Lemma load_values d : forall pre,
  registry_ok (pre ++ d)%list = true ->
  fold_left (fun d0 acc => dict_set (account_id acc) acc d0) (dict_values d) pre
  = (pre ++ d)%list.
Proof.
  induction d as [|[k a] d IH]; intros pre Hok; simpl.
  - now rewrite app_nil_r.
  - destruct (registry_ok_app _ _ Hok) as [Hd Hpre].
    simpl in Hd. apply andb_prop in Hd. destruct Hd as [Hd H3].
    apply andb_prop in Hd. destruct Hd as [H1 H2].
    apply String.eqb_eq in H1.
    assert (Hk : dict_mem k pre = false).
    { apply Hpre. unfold dict_mem. simpl. now rewrite String.eqb_refl. }
    rewrite <- H1, (dict_set_absent _ _ _ Hk).
    rewrite IH; rewrite <- app_assoc; simpl; auto.
Qed.

Lemma with_accounts_same m : with_accounts m (accounts m) = m.
Proof. now destruct m. Qed.

Lemma load_after_save m m0 fs :
  registry_ok (accounts m) = true ->
  load_accounts m0 (save_accounts m fs) = Ok (with_accounts m0 (accounts m)).
Proof.
  intros Hok. unfold load_accounts, save_accounts. simpl.
  now rewrite (load_values (accounts m) []).
Qed.

Lemma load_accounts_registry_ok m fs m' :
  load_accounts m fs = Ok m' -> registry_ok (accounts m') = true.
Proof.
  unfold load_accounts.
  destruct (accounts_file fs) as [| | |records]; intros Hl;
    try discriminate; apply Ok_inj in Hl; subst m'; simpl; auto.
  assert (Hgen : forall pre, registry_ok pre = true ->
            registry_ok
              (fold_left (fun d acc => dict_set (account_id acc) acc d)
                         records pre) = true).
  { induction records as [|a records IH]; simpl; auto.
    intros pre Hpre. apply IH. now apply registry_ok_set. }
  now apply Hgen.
Qed.

(** Property X3.  [_load_accounts] undoes [_save_accounts]: for a registry
    in which every record is stored under its own id, loading the file
    that was just saved gives back the same registry, record for record
    and in the same order, whatever manager loads it; and whatever the
    accounts file holds, the registry [_load_accounts] builds stores every
    record under its own id, once. *)
Theorem load_after_save_accounts (m m0 : AccountManager) (fs : Files) :
  registry_ok (accounts m) = true ->
  (exists m',
      load_accounts m0 (save_accounts m fs) = Ok m'
      /\ accounts m' = accounts m
      /\ encryption m' = encryption m0
      /\ master_password_set m' = master_password_set m0)
  /\ salt_file (save_accounts m fs) = salt_file fs
  /\ state_files (save_accounts m fs) = state_files fs
  /\ forall fs' m1, load_accounts m0 fs' = Ok m1 ->
                    registry_ok (accounts m1) = true.
Proof.
  intros Hok. split; [|split; [|split]]; auto.
  - exists (with_accounts m0 (accounts m)).
    rewrite load_after_save; auto.
  - intros fs' m1. apply load_accounts_registry_ok.
Qed.

(** Property X3 on the demonstration registry. *)
Lemma load_after_save_accounts_witness :
  registry_ok demo_registry = true
  /\ exists m',
       load_accounts AccountManager_init
         (save_accounts demo_manager sample_files) = Ok m'
       /\ accounts m' = demo_registry.
Proof.
  split; [reflexivity|].
  destruct (load_after_save_accounts demo_manager AccountManager_init
              sample_files eq_refl) as [[m' [Hl [Ha _]]] _].
  exists m'. split; [exact Hl | exact Ha].
Defined.

(* ================================================================== *)
(** ** The vault from one operation to the next, and from one session to
       the next *)

Lemma vault_ok_saved `{CryptoLib} master m fs d :
  vault_ok master m fs ->
  registry_ok d = true ->
  vault_ok master (with_accounts m d) (save_accounts (with_accounts m d) fs).
Proof.
  intros [Hset [[salt [Hsalt Henc]] [Hok Hfile]]] Hd.
  unfold vault_ok. simpl. repeat split; auto.
  exists salt. split; auto.
Qed.

(** Property X4.  The state of the vault is kept by every operation of the
    account manager: when the manager is unlocked with the key its master
    password derives from the salt on file, every record is stored under
    its own id, and the accounts file holds the registry, then the same is
    true after [add_account] (which then succeeds), [remove_account],
    [update_account_status] and [record_usage], whatever their
    arguments. *)
Theorem vault_ok_preserved `{CryptoLib} (master : string)
    (m : AccountManager) (fs : Files) :
  vault_ok master m fs ->
  (forall now entropy username password phone notes,
      exists id m' fs',
        add_account now entropy m fs username password phone notes
        = Ok (id, m', fs')
        /\ vault_ok master m' fs')
  /\ (forall id,
         vault_ok master (snd (fst (remove_account m fs id)))
                  (snd (remove_account m fs id)))
  /\ (forall id st error,
         vault_ok master (fst (update_account_status m fs id st error))
                  (snd (update_account_status m fs id st error)))
  /\ (forall now id,
         vault_ok master (fst (record_usage now m fs id))
                  (snd (record_usage now m fs id))).
Proof.
  intros Hv. pose proof Hv as [Hset [[salt [Hsalt Henc]] [Hok Hfile]]].
  split; [|split; [|split]].
  - intros now entropy username password phone notes.
    unfold add_account. rewrite Hset. simpl negb. cbv iota.
    unfold encrypt. rewrite Henc. simpl cipher. simpl bind.
    eexists _, _, _. split; [reflexivity|].
    apply vault_ok_saved; auto.
    apply registry_ok_set; auto.
  - intros id. unfold remove_account.
    destruct (dict_mem id (accounts m)); simpl; auto.
    destruct (registry_ok_del id _ Hok) as [Hd _].
    pose proof (vault_ok_saved master m fs _ Hv Hd) as Hv'.
    destruct Hv' as [Hset' [[salt' [Hsalt' Henc']] [Hok' Hfile']]].
    unfold vault_ok. simpl. repeat split; auto.
    exists salt'. split; auto.
  - intros id st error. unfold update_account_status.
    destruct (dict_get id (accounts m)) as [acc|] eqn:Eg; simpl; auto.
    apply vault_ok_saved; auto. apply registry_ok_set; auto.
    pose proof (registry_ok_key _ _ _ Hok Eg) as Hk.
    destruct st; simpl; auto.
  - intros now id. unfold record_usage.
    destruct (dict_get id (accounts m)) as [acc|] eqn:Eg; simpl; auto.
    apply vault_ok_saved; auto. apply registry_ok_set; auto.
    pose proof (registry_ok_key _ _ _ Hok Eg) as Hk. simpl; auto.
Qed.

Lemma demo_vault_ok : @vault_ok ToyCrypto "correct horse" demo_manager demo_files.
Proof.
  unfold vault_ok. repeat split; try reflexivity.
  exists sample_salt. split; reflexivity.
Qed.

(** Property X4 on the demonstration registry: the vault is in order
    after the account acc_002 was used. *)
Lemma vault_ok_preserved_witness :
  @vault_ok ToyCrypto "correct horse"
    (fst (record_usage example_now demo_manager demo_files "acc_002"))
    (snd (record_usage example_now demo_manager demo_files "acc_002")).
Proof.
  exact (proj2 (proj2 (proj2
           (@vault_ok_preserved ToyCrypto "correct horse" demo_manager
              demo_files demo_vault_ok))) example_now "acc_002").
Defined.

(** Property X5.  A vault is the same in the next session: when the vault
    is in order, a new [AccountManager] on the same files that is
    unlocked with the same master password holds the same registry and
    the same key, leaves the files as they are, and [get_password] gives
    for every id what it gave before. *)
Theorem reopen_same_vault `{CryptoLib} (master : string)
    (m : AccountManager) (fs : Files) (urandom16 : bytes) :
  vault_ok master m fs ->
  exists m',
    reopen master urandom16 fs = Ok (master, m', fs)
    /\ vault_ok master m' fs
    /\ accounts m' = accounts m
    /\ encryption m' = encryption m
    /\ forall id, get_password m' id = get_password m id.
Proof.
  intros Hv. pose proof Hv as [Hset [[salt [Hsalt Henc]] [Hok Hfile]]].
  unfold reopen, setup_master_password. rewrite Hsalt. simpl orb. cbv iota.
  rewrite (set_master_password_with_salt urandom16 fs salt master Hsalt).
  unfold load_accounts. rewrite Hfile.
  rewrite (load_values (accounts m) [] Hok). simpl app.
  eexists. split; [reflexivity|].
  split; [|split; [|split]].
  - unfold vault_ok. simpl. repeat split; auto. exists salt. split; auto.
  - reflexivity.
  - simpl. now rewrite Henc.
  - intros id. unfold get_password. simpl. rewrite Hset, Henc. reflexivity.
Qed.

(** Property X5 on the demonstration registry. *)
Lemma reopen_same_vault_witness :
  exists m',
    @reopen ToyCrypto "correct horse" [] demo_files
    = Ok ("correct horse", m', demo_files)
    /\ accounts m' = demo_registry.
Proof.
  destruct (@reopen_same_vault ToyCrypto "correct horse" demo_manager
              demo_files [] demo_vault_ok) as [m' [Hr [_ [Ha _]]]].
  exists m'. split; [exact Hr | exact Ha].
Defined.

(** Property X6.  What [add_account] stores can be read back: under the
    contract of Fernet, after [add_account] returned an id, that id is in
    the registry with the given user name, phone and notes, status
    unknown and no use recorded; [get_password] and [get_account] of the
    id give the password that was added; and the accounts file holds the
    new registry.  Without the master password [add_account] raises
    [ValueError] whatever the registry. *)
Theorem add_account_then_get_password `{CryptoLib}
    (now : datetime) (entropy : bytes) (m m' : AccountManager)
    (fs fs' : Files) (user secret phone_number note id : string) :
  fernet_roundtrip_law ->
  add_account now entropy m fs user secret phone_number note
  = Ok (id, m', fs') ->
  (exists acc,
      dict_get id (accounts m') = Some acc
      /\ account_id acc = id /\ username acc = user
      /\ phone acc = phone_number /\ notes acc = note
      /\ status acc = "unknown" /\ total_searches acc = 0
      /\ consecutive_failures acc = 0 /\ last_used_at acc = ""
      /\ get_password m' id = Ok secret
      /\ get_account m' id = Ok (Some (acc, secret)))
  /\ accounts_file fs' = AccountsDoc (dict_values (accounts m'))
  /\ forall m0, master_password_set m0 = false ->
       exists msg,
         add_account now entropy m0 fs user secret phone_number note
         = Raise (ValueError msg).
Proof.
  intros Hlaw. unfold add_account.
  destruct (master_password_set m) eqn:Hset; simpl negb; cbv iota;
    [|discriminate].
  unfold encrypt. destruct (cipher (encryption m)) as [key|] eqn:Ec;
    [|discriminate].
  simpl bind.
  set (aid := "acc_" ++ format_03d (Z.of_nat (List.length (accounts m)) + 1)).
  intros Hadd. apply Ok_inj in Hadd.
  injection Hadd as Hid Hm Hfs. subst id m' fs'.
  assert (Hdec : decrypt (encryption m)
                   (decode (urlsafe_b64encode
                              (fernet_encrypt key entropy (encode secret))))
                 = Ok secret).
  { unfold decrypt. rewrite Ec.
    rewrite encode_decode, urlsafe_b64_roundtrip, Hlaw.
    now rewrite decode_encode. }
  split; [|split].
  - eexists. cbn [accounts with_accounts]. rewrite dict_get_set_same.
    split; [reflexivity|].
    cbn [account_id username phone notes status
         total_searches consecutive_failures last_used_at
         set_password_encrypted AccountConfig_create status_value].
    repeat split.
    + unfold get_password. cbn [accounts with_accounts master_password_set
                                encryption].
      rewrite Hset. cbn [negb]. rewrite dict_get_set_same.
      cbn [password_encrypted set_password_encrypted]. exact Hdec.
    + unfold get_account. cbn [accounts with_accounts master_password_set
                               encryption].
      rewrite Hset. cbn [negb]. rewrite dict_get_set_same.
      cbn [password_encrypted set_password_encrypted]. rewrite Hdec.
      reflexivity.
  - reflexivity.
  - intros m0 H0. rewrite H0. simpl. eexists. reflexivity.
Qed.

(** Property X6 on the sample cipher: a sixth account of the demonstration
    registry. *)
Lemma add_account_then_get_password_witness :
  exists m' fs',
    @add_account ToyCrypto example_now [] demo_manager demo_files
      "13800000006" "s3cret" "" "" = Ok ("acc_006", m', fs')
    /\ @get_password ToyCrypto m' "acc_006" = Ok "s3cret".
Proof.
  assert (E : exists m' fs',
             @add_account ToyCrypto example_now [] demo_manager demo_files
               "13800000006" "s3cret" "" "" = Ok ("acc_006", m', fs'))
    by (vm_compute; eexists; eexists; reflexivity).
  destruct E as [m' [fs' E]]. exists m', fs'. split; [exact E|].
  destruct (@add_account_then_get_password ToyCrypto _ _ _ _ _ _ _ _ _ _ _
              toy_fernet_roundtrip E) as [[acc [_ H]] _].
  decompose [and] H. assumption.
Defined.

(* ================================================================== *)
(** ** Failed logins, and removing an account *)

Lemma update_account_status_known m fs id acc st error :
  dict_get id (accounts m) = Some acc ->
  update_account_status m fs id st error
  = (let acc' :=
       match st with
       | SUSPICIOUS =>
           set_failures (set_status acc (status_value st))
                        (consecutive_failures acc + 1) error
       | ACTIVE => set_failures (set_status acc (status_value st)) 0 ""
       | _ => set_status acc (status_value st)
       end in
     let m' := with_accounts m (dict_set id acc' (accounts m)) in
     (m', save_accounts m' fs)).
Proof.
  intros Hg. unfold update_account_status. rewrite Hg. now destruct st.
Qed.

Lemma failed_logins_known k : forall m fs id acc,
  dict_get id (accounts m) = Some acc ->
  exists acc',
    dict_get id (accounts (fst (failed_logins k m fs id))) = Some acc'
    /\ consecutive_failures acc'
       = consecutive_failures acc + Z.of_nat k
    /\ (k <> O -> status acc' = "suspicious" /\ last_error acc' = "登录失败")
    /\ total_searches acc' = total_searches acc
    /\ last_used_at acc' = last_used_at acc
    /\ password_encrypted acc' = password_encrypted acc
    /\ forall k', k' <> id ->
         dict_get k' (accounts (fst (failed_logins k m fs id)))
         = dict_get k' (accounts m).
Proof.
  induction k as [|k IH]; intros m fs id acc Hg.
  - exists acc. simpl. repeat split; auto; try lia; congruence.
  - destruct (IH m fs id acc Hg) as [a [Ha [Hcf [_ [Hts [Hlu [Hpw Hother]]]]]]].
    unfold failed_logins in *. rewrite Nat.iter_succ.
    set (s := Nat.iter k _ (m, fs)) in *.
    unfold mark_login_failed.
    rewrite (update_account_status_known _ _ _ _ _ _ Ha).
    cbn [fst accounts with_accounts]. rewrite dict_get_set_same.
    eexists. split; [reflexivity|]. cbn.
    repeat split; auto; try lia.
    intros k' Hk'. rewrite dict_get_set_other; auto.
Qed.

(** Property X7.  Failed logins add up and take the account out of the
    scored selection: after [k] calls of
    [update_account_status(id, SUSPICIOUS, ...)] for an account of the
    registry, the account has [k] more consecutive failures, its status
    is suspicious and its use count, time of last use and password are
    untouched, as is every other account; once the count has reached 3,
    [get_account_for_search] does not return the account, at any clock;
    and one call with [ACTIVE] sets the count back to 0, clears the last
    error and makes the status active. *)
Theorem failed_logins_retire_account (k : nat) (m : AccountManager)
    (fs : Files) (id : string) (acc : AccountConfig) :
  dict_get id (accounts m) = Some acc ->
  (0 < k)%nat ->
  let s := failed_logins k m fs id in
  exists acc',
    dict_get id (accounts (fst s)) = Some acc'
    /\ consecutive_failures acc' = consecutive_failures acc + Z.of_nat k
    /\ status acc' = "suspicious"
    /\ last_error acc' = "登录失败"
    /\ total_searches acc' = total_searches acc
    /\ last_used_at acc' = last_used_at acc
    /\ password_encrypted acc' = password_encrypted acc
    /\ (forall k', k' <> id ->
          dict_get k' (accounts (fst s)) = dict_get k' (accounts m))
    /\ (3 <= consecutive_failures acc + Z.of_nat k ->
        forall now, get_account_for_search (accounts (fst s)) now
                    <> Ok (Some acc'))
    /\ exists acc'',
         dict_get id
           (accounts (fst (update_account_status (fst s) (snd s) id
                             ACTIVE "")))
         = Some acc''
         /\ consecutive_failures acc'' = 0
         /\ status acc'' = "active"
         /\ last_error acc'' = "".
Proof.
  intros Hg Hk s.
  destruct (failed_logins_known k m fs id acc Hg)
    as [a [Ha [Hcf [Hst [Hts [Hlu [Hpw Hother]]]]]]].
  fold s in Ha, Hother.
  destruct Hst as [Hst Herr]; [lia|].
  exists a. repeat split; auto.
  - intros H3 now Hsel.
    apply get_account_for_search_candidate in Hsel. destruct Hsel as [_ Hc].
    unfold is_candidate in Hc. apply andb_prop in Hc. destruct Hc as [_ Hc].
    apply Z.ltb_lt in Hc. lia.
  - rewrite (update_account_status_known _ _ _ _ _ _ Ha).
    cbn [fst accounts with_accounts]. rewrite dict_get_set_same.
    eexists. split; [reflexivity|]. cbn. auto.
Qed.

(** Property X7 on the demonstration registry: three failed logins of
    acc_001. *)
Lemma failed_logins_retire_account_witness :
  exists acc',
    dict_get "acc_001"
      (accounts (fst (failed_logins 3 demo_manager demo_files "acc_001")))
    = Some acc'
    /\ consecutive_failures acc' = 3
    /\ forall now,
         get_account_for_search
           (accounts (fst (failed_logins 3 demo_manager demo_files "acc_001")))
           now <> Ok (Some acc').
Proof.
  destruct (failed_logins_retire_account 3 demo_manager demo_files "acc_001"
              (demo_account "acc_001" 5 ACTIVE "") eq_refl
              (Nat.lt_0_succ 2))
    as [acc' [H1 [H2 [_ [_ [_ [_ [_ [_ [H3 _]]]]]]]]]].
  exists acc'. split; [exact H1|]. split; [exact H2|].
  apply H3. vm_compute. intros Hc. discriminate Hc.
Defined.

Lemma dict_del_length k d :
  dict_mem k d = true ->
  Z.of_nat (List.length (dict_del k d)) = Z.of_nat (List.length d) - 1.
Proof.
  intros Hm.
  assert (Hn : List.length d = S (List.length (dict_del k d))).
  { unfold dict_mem in Hm.
    induction d as [|[k0 v0] d IH]; simpl in *; [discriminate|].
    destruct (k =? k0)%string; auto. }
  rewrite Hn. lia.
Qed.

(** Property X8.  [remove_account] returns whether the id was in the
    registry.  For a registry that stores every record under its own id:
    afterwards the id is not in the registry, every other id has the
    record it had, and [get_password] of the id raises [ValueError]; when
    the id was there, the registry has one account less, the accounts
    file holds the new registry and the account's browser state file is
    gone while the other state files are kept; when it was not, neither
    the manager nor any file changes. *)
Theorem remove_account_spec `{CryptoLib} (m : AccountManager) (fs : Files)
    (id : string) :
  registry_ok (accounts m) = true ->
  let removed := fst (fst (remove_account m fs id)) in
  let m' := snd (fst (remove_account m fs id)) in
  let fs' := snd (remove_account m fs id) in
  removed = dict_mem id (accounts m)
  /\ dict_get id (accounts m') = None
  /\ (forall k, k <> id -> dict_get k (accounts m') = dict_get k (accounts m))
  /\ (exists msg, get_password m' id = Raise (ValueError msg))
  /\ (removed = true ->
      Z.of_nat (List.length (accounts m'))
      = Z.of_nat (List.length (accounts m)) - 1
      /\ accounts_file fs' = AccountsDoc (dict_values (accounts m'))
      /\ salt_file fs' = salt_file fs
      /\ forall f, In f (state_files fs') <-> In f (state_files fs) /\ f <> id)
  /\ (removed = false -> m' = m /\ fs' = fs).
Proof.
  intros Hok removed m' fs'. subst removed m' fs'. unfold remove_account.
  destruct (dict_mem id (accounts m)) eqn:Em; cbn [fst snd].
  - destruct (registry_ok_del id _ Hok) as [_ Hnone].
    cbn [accounts with_accounts].
    split; [reflexivity|]. split; [exact Hnone|].
    split; [intros k Hk; now apply dict_get_del_other|].
    split.
    { unfold get_password. cbn [accounts with_accounts master_password_set].
      destruct (master_password_set m); cbn [negb]; [|eexists; reflexivity].
      rewrite Hnone. eexists; reflexivity. }
    split; [|discriminate].
    intros _. split; [now apply dict_del_length|].
    split; [reflexivity|]. split; [reflexivity|].
    intros f. cbn [state_files set_state_files save_accounts set_accounts_file].
    rewrite filter_In, negb_true_iff, String.eqb_neq. reflexivity.
  - split; [reflexivity|].
    assert (Hnone : dict_get id (accounts m) = None).
    { unfold dict_mem in Em. destruct (dict_get id (accounts m)); congruence. }
    split; [exact Hnone|]. split; [reflexivity|].
    split.
    { unfold get_password. destruct (master_password_set m); cbn [negb];
        [|eexists; reflexivity].
      rewrite Hnone. eexists; reflexivity. }
    split; [discriminate|]. auto.
Qed.

(** Property X8 on the demonstration registry: acc_004 is removed. *)
Lemma remove_account_spec_witness :
  fst (fst (remove_account demo_manager demo_files "acc_004")) = true
  /\ dict_get "acc_004"
       (accounts (snd (fst (remove_account demo_manager demo_files "acc_004"))))
     = None.
Proof.
  destruct (@remove_account_spec ToyCrypto demo_manager demo_files "acc_004"
              eq_refl) as [H1 [H2 _]].
  split; [exact H1 | exact H2].
Defined.

(* ================================================================== *)
(** ** [isoformat] and [fromisoformat] *)

Lemma digit_char_ok d :
  0 <= d <= 9 -> is_digit (digit_char d) = true /\ digit_val (digit_char d) = d.
Proof.
  intros Hd.
  assert (Hc : d = 0 \/ d = 1 \/ d = 2 \/ d = 3 \/ d = 4 \/ d = 5 \/ d = 6
               \/ d = 7 \/ d = 8 \/ d = 9) by lia.
  repeat (destruct Hc as [-> | Hc]; [split; reflexivity|]).
  subst d. split; reflexivity.
Qed.

Lemma take_digits_fixed_dec w : forall n rest,
  0 <= n ->
  take_digits w (fixed_dec w n ++ rest) = Some (n mod 10 ^ Z.of_nat w, rest).
Proof.
  induction w as [|w IH]; intros n rest Hn.
  - simpl. now rewrite Z.mod_1_r.
  - cbn [fixed_dec take_digits append].
    assert (Hp : 0 < 10 ^ Z.of_nat w) by (apply Z.pow_pos_nonneg; lia).
    assert (Hd : 0 <= (n / 10 ^ Z.of_nat w) mod 10 <= 9)
      by (pose proof (Z.mod_pos_bound (n / 10 ^ Z.of_nat w) 10); lia).
    destruct (digit_char_ok _ Hd) as [H1 H2].
    rewrite H1, H2, IH by assumption.
    f_equal. f_equal.
    rewrite Nat2Z.inj_succ, Z.pow_succ_r by lia.
    rewrite (Z.mul_comm 10), Z.rem_mul_r by lia. lia.
Qed.

Lemma take_digits_fixed w n rest :
  0 <= n < 10 ^ Z.of_nat w ->
  take_digits w (fixed_dec w n ++ rest) = Some (n, rest).
Proof.
  intros Hn. rewrite take_digits_fixed_dec by lia.
  now rewrite Z.mod_small.
Qed.

Lemma month_day_all leap :
  forallb (month_day_ok leap) days_of_year = true.
Proof. destruct leap; vm_compute; reflexivity. Qed.

Lemma days_of_year_In n : 0 <= n < 365 -> In n days_of_year.
Proof.
  intros Hn. unfold days_of_year. apply in_map_iff.
  exists (Z.to_nat n). split; [lia|]. apply in_seq. lia.
Qed.

Lemma ord2ymd_unfold n0 :
  ord2ymd n0
  = (let n := n0 - 1 in
     let n400 := n / 146097 in
     let r400 := n mod 146097 in
     let n100 := r400 / 36524 in
     let r100 := r400 mod 36524 in
     let n4 := r100 / 1461 in
     let r4 := r100 mod 1461 in
     let n1 := r4 / 365 in
     let r1 := r4 mod 365 in
     let y := n400 * 400 + 1 + n100 * 100 + n4 * 4 + n1 in
     if (n1 =? 4) || (n100 =? 4) then (y - 1, 12, 31)
     else
       (y,
        fst (month_day ((n1 =? 3) && (negb (n4 =? 24) || (n100 =? 3))) r1),
        snd (month_day ((n1 =? 3) && (negb (n4 =? 24) || (n100 =? 3))) r1))).
Proof.
  unfold ord2ymd, month_day.
  change DI400Y with 146097. change DI100Y with 36524. change DI4Y with 1461.
  cbv zeta.
  match goal with |- context [if ?c || ?c' then _ else _] =>
    destruct (c || c') end; [reflexivity|].
  match goal with |- context [if ?c then _ else _] => destruct c end;
    reflexivity.
Qed.

Lemma leap_days y y' m :
  is_leap y = is_leap y' ->
  days_in_month y m = days_in_month y' m
  /\ days_before_month y m = days_before_month y' m.
Proof.
  intros Hl. unfold days_in_month, days_before_month. now rewrite Hl.
Qed.

Lemma month_day_spec leap y n :
  is_leap y = leap -> 0 <= n < 365 ->
  let m := fst (month_day leap n) in
  let d := snd (month_day leap n) in
  1 <= m <= 12 /\ 1 <= d <= days_in_month y m
  /\ days_before_month y m + d = n + 1.
Proof.
  intros Hl Hn m d.
  pose proof (month_day_all leap) as Hall.
  rewrite forallb_forall in Hall.
  specialize (Hall n (days_of_year_In n Hn)).
  unfold month_day_ok in Hall.
  fold m d in Hall.
  destruct (month_day leap n) as [m0 d0] eqn:E. simpl in m, d. subst m d.
  destruct (leap_days y (if leap then 2000 else 1900) m0) as [H1 H2].
  { rewrite Hl. now destruct leap. }
  rewrite H1, H2.
  repeat (apply andb_prop in Hall; destruct Hall as [Hall ?]).
  repeat match goal with
         | H : (_ <=? _) = true |- _ => apply Z.leb_le in H
         | H : (_ =? _) = true |- _ => apply Z.eqb_eq in H
         end.
  lia.
Qed.

Lemma days_before_year_split a b c e :
  0 <= a -> 0 <= b <= 3 -> 0 <= c <= 24 -> 0 <= e <= 3 ->
  days_before_year (a * 400 + 1 + b * 100 + c * 4 + e)
  = 146097 * a + 36524 * b + 1461 * c + 365 * e.
Proof.
  intros Ha Hb Hc He. unfold days_before_year. cbv zeta.
  replace (a * 400 + 1 + b * 100 + c * 4 + e - 1)
    with (a * 400 + b * 100 + c * 4 + e) by lia.
  assert (H4 : (a * 400 + b * 100 + c * 4 + e) / 4 = a * 100 + b * 25 + c)
    by (symmetry; apply (Z.div_unique _ 4 _ e); lia).
  assert (H100 : (a * 400 + b * 100 + c * 4 + e) / 100 = a * 4 + b)
    by (symmetry; apply (Z.div_unique _ 100 _ (c * 4 + e)); lia).
  assert (H400 : (a * 400 + b * 100 + c * 4 + e) / 400 = a)
    by (symmetry; apply (Z.div_unique _ 400 _ (b * 100 + c * 4 + e)); lia).
  rewrite H4, H100, H400. lia.
Qed.

Lemma is_leap_split a b c e :
  0 <= a -> 0 <= b <= 3 -> 0 <= c <= 24 -> 0 <= e <= 3 ->
  is_leap (a * 400 + 1 + b * 100 + c * 4 + e)
  = (e =? 3) && (negb (c =? 24) || (b =? 3)).
Proof.
  intros Ha Hb Hc He. unfold is_leap.
  set (y := a * 400 + 1 + b * 100 + c * 4 + e).
  assert (H4 : y mod 4 = (e + 1) mod 4).
  { unfold y. replace (a * 400 + 1 + b * 100 + c * 4 + e)
      with ((e + 1) + (a * 100 + b * 25 + c) * 4) by lia.
    apply Z.mod_add. lia. }
  assert (H100 : y mod 100 = (c * 4 + e + 1) mod 100).
  { unfold y. replace (a * 400 + 1 + b * 100 + c * 4 + e)
      with ((c * 4 + e + 1) + (a * 4 + b) * 100) by lia.
    apply Z.mod_add. lia. }
  assert (H400 : y mod 400 = (b * 100 + c * 4 + e + 1) mod 400).
  { unfold y. replace (a * 400 + 1 + b * 100 + c * 4 + e)
      with ((b * 100 + c * 4 + e + 1) + a * 400) by lia.
    apply Z.mod_add. lia. }
  rewrite H4, H100, H400.
  destruct (Z.eqb_spec e 3) as [->|He3].
  - change ((3 + 1) mod 4) with 0. simpl andb.
    destruct (Z.eqb_spec c 24) as [->|Hc24].
    + change ((24 * 4 + 3 + 1) mod 100) with 0. simpl.
      destruct (Z.eqb_spec b 3) as [->|Hb3]; [reflexivity|].
      apply Z.eqb_neq. rewrite Z.mod_small by lia. lia.
    + simpl. replace ((c * 4 + 3 + 1) mod 100 =? 0) with false; [reflexivity|].
      symmetry. apply Z.eqb_neq. rewrite Z.mod_small by lia. lia.
  - simpl. replace ((e + 1) mod 4 =? 0) with false; [reflexivity|].
    symmetry. apply Z.eqb_neq. rewrite Z.mod_small by lia. lia.
Qed.

(** [_ord2ymd] is the inverse of [_ymd2ord] on the days of the years 1 to
    9999, and names a day that exists. *)
Lemma ord2ymd_ok n0 :
  1 <= n0 <= 3652059 ->
  exists y m d,
    ord2ymd n0 = (y, m, d)
    /\ 1 <= y <= 9999 /\ 1 <= m <= 12 /\ 1 <= d <= days_in_month y m
    /\ ymd2ord y m d = n0.
Proof.
  intros Hn. rewrite ord2ymd_unfold. cbv zeta.
  pose proof (Z.div_mod (n0 - 1) 146097 ltac:(lia)) as E400.
  pose proof (Z.mod_pos_bound (n0 - 1) 146097 ltac:(lia)) as B400.
  assert (A400 : 0 <= (n0 - 1) / 146097) by (apply Z.div_pos; lia).
  set (a := (n0 - 1) / 146097) in *.
  set (r400 := (n0 - 1) mod 146097) in *.
  pose proof (Z.div_mod r400 36524 ltac:(lia)) as E100.
  pose proof (Z.mod_pos_bound r400 36524 ltac:(lia)) as B100.
  assert (A100 : 0 <= r400 / 36524) by (apply Z.div_pos; lia).
  set (b := r400 / 36524) in *.
  set (r100 := r400 mod 36524) in *.
  pose proof (Z.div_mod r100 1461 ltac:(lia)) as E4.
  pose proof (Z.mod_pos_bound r100 1461 ltac:(lia)) as B4.
  assert (A4 : 0 <= r100 / 1461) by (apply Z.div_pos; lia).
  set (c := r100 / 1461) in *.
  set (r4 := r100 mod 1461) in *.
  pose proof (Z.div_mod r4 365 ltac:(lia)) as E1.
  pose proof (Z.mod_pos_bound r4 365 ltac:(lia)) as B1.
  assert (A1 : 0 <= r4 / 365) by (apply Z.div_pos; lia).
  set (e := r4 / 365) in *.
  set (r1 := r4 mod 365) in *.
  clearbody a r400 b r100 c r4 e r1.
  assert (Hb : b <= 4) by lia.
  assert (Hc : c <= 24) by lia.
  assert (He : e <= 4) by lia.
  destruct (Z.eqb_spec e 4) as [He4|He4]; simpl orb.
  - (* the last day of a leap year *)
    subst e. assert (Hr1 : r1 = 0) by lia. assert (Hc' : c <= 23) by lia.
    assert (Hb' : b <= 3) by lia.
    exists (a * 400 + 1 + b * 100 + c * 4 + 4 - 1), 12, 31.
    split; [reflexivity|].
    replace (a * 400 + 1 + b * 100 + c * 4 + 4 - 1)
      with (a * 400 + 1 + b * 100 + c * 4 + 3) by lia.
    assert (Hleap : is_leap (a * 400 + 1 + b * 100 + c * 4 + 3) = true).
    { rewrite is_leap_split by lia. simpl.
      replace (c =? 24) with false by (symmetry; apply Z.eqb_neq; lia).
      reflexivity. }
    split; [lia|]. split; [lia|].
    split; [unfold days_in_month; simpl; lia|].
    unfold ymd2ord, days_before_month. rewrite Hleap.
    rewrite days_before_year_split by lia.
    change (nth (Z.to_nat 12) DAYS_BEFORE_MONTH 0) with 334.
    change ((2 <? 12) && true) with true. cbv iota. lia.
  - destruct (Z.eqb_spec b 4) as [Hb4|Hb4].
    + (* the last day of a 400-year cycle *)
      subst b. assert (c = 0 /\ e = 0 /\ r1 = 0) by lia.
      destruct H as [-> [-> ->]].
      exists (a * 400 + 1 + 4 * 100 + 0 * 4 + 0 - 1), 12, 31.
      split; [reflexivity|].
      replace (a * 400 + 1 + 4 * 100 + 0 * 4 + 0 - 1)
        with (a * 400 + 1 + 3 * 100 + 24 * 4 + 3) by lia.
      assert (Hleap : is_leap (a * 400 + 1 + 3 * 100 + 24 * 4 + 3) = true)
        by (rewrite is_leap_split by lia; reflexivity).
      split; [lia|]. split; [lia|].
      split; [unfold days_in_month; simpl; lia|].
      unfold ymd2ord, days_before_month. rewrite Hleap.
      rewrite days_before_year_split by lia.
      change (nth (Z.to_nat 12) DAYS_BEFORE_MONTH 0) with 334.
      change ((2 <? 12) && true) with true. cbv iota. lia.
    + set (leap := (e =? 3) && (negb (c =? 24) || (b =? 3))).
      set (y := a * 400 + 1 + b * 100 + c * 4 + e).
      assert (Hleap : is_leap y = leap)
        by (unfold y, leap; apply is_leap_split; lia).
      destruct (month_day_spec leap y r1 Hleap B1) as [Hm [Hd Hs]].
      exists y, (fst (month_day leap r1)), (snd (month_day leap r1)).
      split; [reflexivity|].
      split; [unfold y; lia|]. split; [exact Hm|]. split; [exact Hd|].
      unfold ymd2ord. unfold y at 1.
      rewrite days_before_year_split by lia. lia.
Qed.

Lemma append_empty_r s : s ++ "" = s.
Proof. induction s as [|c s IH]; simpl; now rewrite ?IH. Qed.

Lemma expect_same c s : expect c (String c s) = Some s.
Proof. unfold expect. now rewrite Ascii.eqb_refl. Qed.

Lemma parse_time_fields H M S us :
  0 <= H < 100 -> 0 <= M < 100 -> 0 <= S < 100 -> 0 <= us < 1000000 ->
  parse_hh_mm_ss_ff
    (fixed_dec 2 H ++ ":" ++ fixed_dec 2 M ++ ":" ++ fixed_dec 2 S
     ++ (if us =? 0 then "" else "." ++ fixed_dec 6 us))
  = Some (H, M, S, us).
Proof.
  intros HH HM HS Hus. unfold parse_hh_mm_ss_ff.
  rewrite take_digits_fixed by (change (10 ^ Z.of_nat 2) with 100; lia).
  cbn [append]. rewrite expect_same.
  rewrite take_digits_fixed by (change (10 ^ Z.of_nat 2) with 100; lia).
  cbn [append]. rewrite expect_same.
  destruct (Z.eqb_spec us 0) as [->|Hne].
  - rewrite take_digits_fixed by (change (10 ^ Z.of_nat 2) with 100; lia).
    reflexivity.
  - rewrite take_digits_fixed by (change (10 ^ Z.of_nat 2) with 100; lia).
    cbn [append]. rewrite expect_same. unfold parse_fraction.
    rewrite <- (append_empty_r (fixed_dec 6 us)).
    rewrite take_digits_fixed by (change (10 ^ Z.of_nat 6) with 1000000; lia).
    reflexivity.
Qed.

Lemma fromisoformat_fields y m d H M S us :
  0 <= y < 10000 -> 0 <= m < 100 -> 0 <= d < 100 ->
  0 <= H < 100 -> 0 <= M < 100 -> 0 <= S < 100 -> 0 <= us < 1000000 ->
  fromisoformat
    (fixed_dec 4 y ++ "-" ++ fixed_dec 2 m ++ "-" ++ fixed_dec 2 d ++ "T"
     ++ fixed_dec 2 H ++ ":" ++ fixed_dec 2 M ++ ":" ++ fixed_dec 2 S
     ++ (if us =? 0 then "" else "." ++ fixed_dec 6 us))
  = mk y m d H M S us.
Proof.
  intros Hy Hm Hd HH HM HS Hus. unfold fromisoformat.
  pose proof (parse_time_fields H M S us HH HM HS Hus) as Htime.
  set (time := fixed_dec 2 H ++ ":" ++ fixed_dec 2 M ++ ":" ++ fixed_dec 2 S
               ++ (if us =? 0 then "" else "." ++ fixed_dec 6 us)) in *.
  clearbody time.
  rewrite take_digits_fixed by (change (10 ^ Z.of_nat 4) with 10000; lia).
  cbn [append]. rewrite expect_same.
  rewrite take_digits_fixed by (change (10 ^ Z.of_nat 2) with 100; lia).
  cbn [append]. rewrite expect_same.
  rewrite take_digits_fixed by (change (10 ^ Z.of_nat 2) with 100; lia).
  cbn [append].
  now rewrite Htime.
Qed.

Lemma time_fields t :
  0 <= t ->
  0 <= hour t <= 23 /\ 0 <= minute t <= 59 /\ 0 <= second t <= 59
  /\ 0 <= microsecond t <= 999999
  /\ ((t / us_per_day) * 86400 + hour t * 3600 + minute t * 60 + second t)
     * us_per_second + microsecond t = t.
Proof.
  intros Ht. unfold hour, minute, second, microsecond.
  change us_per_day with 86400000000. change us_per_hour with 3600000000.
  change us_per_minute with 60000000. change us_per_second with 1000000.
  Z.div_mod_to_equations. lia.
Qed.

(** [fromisoformat] reads back what [isoformat] writes, for every datetime
    of the years 1 to 9999. *)
Lemma fromisoformat_isoformat t :
  in_range t = true -> fromisoformat (isoformat t) = Some t.
Proof.
  intros Hr. unfold in_range in Hr. apply andb_prop in Hr.
  destruct Hr as [H0 H1]. apply Z.leb_le in H0, H1.
  unfold dt_min in H0.
  assert (Hmax : dt_max = 3652059 * 86400000000 - 1) by reflexivity.
  rewrite Hmax in H1.
  destruct (time_fields t H0) as [HH [HM [HS [Hus Ht]]]].
  assert (Hord : 1 <= ordinal t <= 3652059).
  { unfold ordinal. change us_per_day with 86400000000.
    Z.div_mod_to_equations. lia. }
  destruct (ord2ymd_ok _ Hord) as [y [m [d [E [Hy [Hm [Hd Hymd]]]]]]].
  assert (Hdim : days_in_month y m <= 31).
  { unfold days_in_month.
    destruct (m =? 2); [destruct (is_leap y); lia|].
    destruct ((m =? 4) || (m =? 6) || (m =? 9) || (m =? 11)); lia. }
  unfold isoformat, year, month, day. rewrite E. cbn [fst snd].
  rewrite fromisoformat_fields by lia.
  unfold mk. change MINYEAR with 1. change MAXYEAR with 9999.
  replace (1 <=? y) with true by (symmetry; apply Z.leb_le; lia).
  replace (y <=? 9999) with true by (symmetry; apply Z.leb_le; lia).
  replace (1 <=? m) with true by (symmetry; apply Z.leb_le; lia).
  replace (m <=? 12) with true by (symmetry; apply Z.leb_le; lia).
  replace (1 <=? d) with true by (symmetry; apply Z.leb_le; lia).
  replace (d <=? days_in_month y m) with true
    by (symmetry; apply Z.leb_le; lia).
  replace (0 <=? hour t) with true by (symmetry; apply Z.leb_le; lia).
  replace (hour t <=? 23) with true by (symmetry; apply Z.leb_le; lia).
  replace (0 <=? minute t) with true by (symmetry; apply Z.leb_le; lia).
  replace (minute t <=? 59) with true by (symmetry; apply Z.leb_le; lia).
  replace (0 <=? second t) with true by (symmetry; apply Z.leb_le; lia).
  replace (second t <=? 59) with true by (symmetry; apply Z.leb_le; lia).
  replace (0 <=? microsecond t) with true by (symmetry; apply Z.leb_le; lia).
  replace (microsecond t <=? 999999) with true
    by (symmetry; apply Z.leb_le; lia).
  cbn [andb]. f_equal. rewrite Hymd. unfold ordinal.
  replace (t / us_per_day + 1 - 1) with (t / us_per_day) by lia.
  exact Ht.
Qed.

(* ================================================================== *)
(** ** Recording a use, and the cooldown that follows *)

Lemma isoformat_truthy t : truthy (isoformat t) = true.
Proof. unfold isoformat. cbn [fixed_dec append]. reflexivity. Qed.

Lemma record_usage_known now m fs id acc :
  dict_get id (accounts m) = Some acc ->
  record_usage now m fs id
  = (let acc' := set_usage acc (isoformat now) (total_searches acc + 1) in
     let m' := with_accounts m (dict_set id acc' (accounts m)) in
     (m', save_accounts m' fs)).
Proof. intros Hg. unfold record_usage. now rewrite Hg. Qed.

(** Property X9.  [record_usage] writes a time that the selection reads
    back: for an account of the registry and a clock within the calendar,
    afterwards the account has one use more, its time of last use is a
    text that [fromisoformat] reads as the clock reading, its status,
    failures and password are untouched, as is every other account, the
    accounts file holds the new registry, and, when the hour that follows
    is within the calendar, the account is in cooldown for that hour: its
    remaining cooldown at a later reading is what is left of the hour, in
    minutes, and nothing once the hour is over.  For an id that is not in
    the registry nothing changes. *)
Theorem record_usage_read_back (now : datetime) (m : AccountManager)
    (fs : Files) (id : string) (acc : AccountConfig) :
  dict_get id (accounts m) = Some acc ->
  in_range now = true ->
  let m' := fst (record_usage now m fs id) in
  let fs' := snd (record_usage now m fs id) in
  (exists acc',
      dict_get id (accounts m') = Some acc'
      /\ total_searches acc' = total_searches acc + 1
      /\ truthy (last_used_at acc') = true
      /\ fromisoformat (last_used_at acc') = Some now
      /\ status acc' = status acc
      /\ consecutive_failures acc' = consecutive_failures acc
      /\ password_encrypted acc' = password_encrypted acc
      /\ (in_range (now + us_per_hour) = true ->
          forall later,
            cooldown_remaining later acc'
            = Ok (if later <? now + us_per_hour
                  then ((inject_Z (now + us_per_hour - later)
                         / inject_Z us_per_second) / inject_Z 60)%Q
                  else 0%Q)))
  /\ (forall k, k <> id -> dict_get k (accounts m') = dict_get k (accounts m))
  /\ accounts_file fs' = AccountsDoc (dict_values (accounts m'))
  /\ (forall id', dict_get id' (accounts m) = None ->
                  record_usage now m fs id' = (m, fs)).
Proof.
  intros Hg Hr m' fs'. subst m' fs'.
  rewrite (record_usage_known _ _ _ _ _ Hg). cbn [fst snd accounts with_accounts].
  split; [|split; [|split]].
  - eexists. rewrite dict_get_set_same. split; [reflexivity|].
    cbn [total_searches last_used_at status consecutive_failures
         password_encrypted set_usage].
    split; [reflexivity|]. split; [apply isoformat_truthy|].
    split; [now apply fromisoformat_isoformat|].
    repeat (split; [reflexivity|]).
    intros Hr1 later. unfold cooldown_remaining.
    cbn [last_used_at set_usage].
    rewrite isoformat_truthy, (fromisoformat_isoformat _ Hr).
    change (timedelta_of 0 1 0) with us_per_hour.
    unfold add. rewrite Hr1. cbn [bind].
    now destruct (later <? now + us_per_hour).
  - intros k Hk. now apply dict_get_set_other.
  - reflexivity.
  - intros id' Hn. unfold record_usage. now rewrite Hn.
Qed.

(** Property X9 on the demonstration registry: acc_001 is used at noon. *)
Lemma record_usage_read_back_witness :
  exists acc',
    dict_get "acc_001"
      (accounts (fst (record_usage example_now demo_manager demo_files
                        "acc_001")))
    = Some acc'
    /\ total_searches acc' = 6
    /\ fromisoformat (last_used_at acc') = Some example_now.
Proof.
  destruct (record_usage_read_back example_now demo_manager demo_files
              "acc_001" (demo_account "acc_001" 5 ACTIVE "") eq_refl eq_refl)
    as [[acc' [H1 [H2 [_ [H3 _]]]]] _].
  exists acc'. split; [exact H1|]. split; [exact H2 | exact H3].
Defined.

Lemma scan_accounts_readable cd now items av co :
  scan_accounts true cd now items = Ok (av, co) ->
  Forall (fun a => last_used_ok cd a = true)
         (filter spec_eligible (dict_values items)).
Proof.
  revert av co. induction items as [|[k a] rest IH]; simpl; intros av co Hs.
  - constructor.
  - rewrite spec_eligible_banned_or_limited.
    destruct (banned_or_limited a); simpl.
    + eapply IH; eauto.
    + destruct (truthy (last_used_at a)) eqn:Et.
      * destruct (fromisoformat (last_used_at a)) as [lu|] eqn:Ef;
          [|discriminate].
        unfold add in Hs.
        destruct (in_range (lu + cd)) eqn:Er; [|discriminate].
        simpl in Hs.
        destruct (scan_accounts true cd now rest) as [[av' co']|];
          [|discriminate].
        constructor; [|eapply IH; eauto].
        unfold last_used_ok. now rewrite Et, Ef.
      * destruct (scan_accounts true cd now rest) as [[av' co']|];
          [|discriminate].
        constructor; [|eapply IH; eauto].
        unfold last_used_ok. now rewrite Et.
Qed.

(** Property X10.  An account that was just used rests: when
    [record_usage] ran for an account at one reading of the clock and
    [get_next_account] is called with [respect_cooldown] at a later
    reading that is less than the cooldown after it, the account is not
    returned as long as some account of the registry is neither banned nor
    limited and is out of cooldown. *)
Theorem used_account_rests (now later : datetime) (cooldown : timedelta)
    (m : AccountManager) (fs : Files) (id : string)
    (acc acc' r other : AccountConfig) :
  dict_get id (accounts m) = Some acc ->
  in_range now = true ->
  now <= later < now + cooldown ->
  let m' := fst (record_usage now m fs id) in
  dict_get id (accounts m') = Some acc' ->
  In other (dict_values (accounts m')) ->
  banned_or_limited other = false ->
  spec_available cooldown later other = true ->
  get_next_account (accounts m') true cooldown later = Ok (Some r) ->
  r <> acc' /\ spec_available cooldown later r = true
  /\ banned_or_limited r = false.
Proof.
  intros Hg Hr Hlater m' Hg' Hin Hel Hav Hget. subst m'.
  rewrite (record_usage_known _ _ _ _ _ Hg) in *.
  cbn [fst accounts with_accounts] in *.
  rewrite dict_get_set_same in Hg'. injection Hg' as <-.
  set (d := dict_set id _ (accounts m)) in *.
  unfold get_next_account in Hget.
  destruct d as [|p d'] eqn:Ed; [discriminate|]. rewrite <- Ed in *.
  destruct (scan_accounts true cooldown later d) as [[av co]|] eqn:Es;
    [|discriminate].
  pose proof (scan_accounts_readable _ _ _ _ _ Es) as Hread.
  destruct (scan_accounts_partition cooldown later d Hread)
    as [av0 [co0 [Hs0 [Hav0 _]]]].
  rewrite Es in Hs0. injection Hs0 as <- <-.
  assert (Hother : In other av).
  { rewrite Hav0. apply filter_In. split; [|exact Hav].
    apply filter_In. split; [exact Hin|].
    rewrite spec_eligible_banned_or_limited. now rewrite Hel. }
  simpl bind in Hget.
  destruct av as [|a0 av']; [destruct Hother|].
  apply Ok_inj in Hget.
  apply hd_sort_least in Hget;
    [|exact key3_lt_asym | exact key3_lt_negtrans].
  destruct Hget as [Hrin _].
  rewrite Hav0 in Hrin. apply filter_In in Hrin. destruct Hrin as [Hrin Hrav].
  apply filter_In in Hrin. destruct Hrin as [_ Hrel].
  rewrite spec_eligible_banned_or_limited in Hrel.
  apply negb_true_iff in Hrel.
  split; [|split; auto].
  intros ->. revert Hrav. unfold spec_available, spec_cooldown_end.
  cbn [last_used_at set_usage].
  pose proof (isoformat_truthy now) as Ht. unfold truthy in Ht.
  apply negb_true_iff in Ht. rewrite Ht.
  rewrite (fromisoformat_isoformat _ Hr). simpl.
  intros Hle. apply Z.leb_le in Hle. lia.
Qed.

(** Property X10 on the demonstration registry: acc_001 is used at noon,
    and half an hour later the selection hands out acc_003. *)
Lemma used_account_rests_witness :
  get_next_account
    (accounts (fst (record_usage example_now demo_manager demo_files
                      "acc_001")))
    true us_per_hour (example_now + 30 * us_per_minute)
  = Ok (Some (demo_account "acc_003" 3 ACTIVE "2024-06-01T10:00:00.250000"))
  /\ demo_account "acc_003" 3 ACTIVE "2024-06-01T10:00:00.250000"
     <> set_usage (demo_account "acc_001" 5 ACTIVE "")
                  (isoformat example_now) 6.
Proof.
  assert (Hget :
      get_next_account
        (accounts (fst (record_usage example_now demo_manager demo_files
                          "acc_001")))
        true us_per_hour (example_now + 30 * us_per_minute)
      = Ok (Some (demo_account "acc_003" 3 ACTIVE
                    "2024-06-01T10:00:00.250000")))
    by (vm_compute; reflexivity).
  split; [exact Hget|].
  refine (proj1 (used_account_rests example_now
                   (example_now + 30 * us_per_minute) us_per_hour
                   demo_manager demo_files "acc_001"
                   (demo_account "acc_001" 5 ACTIVE "")
                   (set_usage (demo_account "acc_001" 5 ACTIVE "")
                              (isoformat example_now) 6)
                   (demo_account "acc_003" 3 ACTIVE
                      "2024-06-01T10:00:00.250000")
                   (demo_account "acc_003" 3 ACTIVE
                      "2024-06-01T10:00:00.250000")
                   eq_refl eq_refl _ _ _ eq_refl _ Hget)).
  - split; [apply Z.leb_le | apply Z.ltb_lt]; vm_compute; reflexivity.
  - vm_compute; reflexivity.
  - right; right; left; vm_compute; reflexivity.
  - vm_compute; reflexivity.
Defined.

Lemma forallb_dict_set (P : AccountConfig -> bool) k v d :
  forallb P (dict_values d) = true -> P v = true ->
  forallb P (dict_values (dict_set k v d)) = true.
Proof.
  intros Hd Hv. induction d as [|[k0 v0] d IH]; simpl in *.
  - now rewrite Hv.
  - apply andb_prop in Hd. destruct Hd as [H0 Hd].
    destruct (k =? k0)%string; simpl.
    + now rewrite Hv, Hd.
    + now rewrite H0, IH.
Qed.

Lemma forallb_dict_del (P : AccountConfig -> bool) k d :
  forallb P (dict_values d) = true ->
  forallb P (dict_values (dict_del k d)) = true.
Proof.
  intros Hd. induction d as [|[k0 v0] d IH]; simpl in *; auto.
  apply andb_prop in Hd. destruct Hd as [H0 Hd].
  destruct (k =? k0)%string; simpl; auto.
  now rewrite H0, IH.
Qed.

Lemma forallb_dict_get (P : AccountConfig -> bool) k v d :
  forallb P (dict_values d) = true -> dict_get k d = Some v -> P v = true.
Proof.
  intros Hd. induction d as [|[k0 v0] d IH]; simpl in *; [discriminate|].
  apply andb_prop in Hd. destruct Hd as [H0 Hd].
  destruct (k =? k0)%string; auto. intros Hv. now inversion Hv; subst.
Qed.

Lemma scan_accounts_no_cooldown cd now items :
  exists av, scan_accounts false cd now items = Ok (av, []).
Proof.
  induction items as [|[k a] rest IH]; simpl.
  - now exists [].
  - destruct IH as [av Hs].
    destruct (banned_or_limited a); [now exists av|].
    rewrite Hs. simpl. eexists; reflexivity.
Qed.

Lemma get_next_account_of_scan accounts rc cd now av co :
  scan_accounts rc cd now accounts = Ok (av, co) ->
  exists r, get_next_account accounts rc cd now = Ok r.
Proof.
  intros Hs. unfold get_next_account.
  destruct accounts as [|p d]; [now exists None|].
  rewrite Hs. simpl bind.
  destruct av; [destruct co|]; eexists; reflexivity.
Qed.

Lemma Forall_filter_sub {A} (P : A -> Prop) (f : A -> bool) l :
  Forall P l -> Forall P (filter f l).
Proof.
  intros H. apply Forall_forall. intros x Hx. apply filter_In in Hx.
  rewrite Forall_forall in H. now apply H.
Qed.



(* ================================================================== *)
(** ** Statistics of the registry ([get_account_statistics]) *)

Lemma counter_get_set_same k v d : counter_get k (counter_set k v d) = v.
Proof.
  induction d as [|[k' v'] d IH]; simpl.
  - now rewrite String.eqb_refl.
  - destruct (k =? k')%string eqn:E; simpl; rewrite E; auto.
Qed.

Lemma counter_get_set_other k k' v d :
  k <> k' -> counter_get k' (counter_set k v d) = counter_get k' d.
Proof.
  intros Hne. induction d as [|[k0 v0] d IH]; simpl.
  - apply String.eqb_neq in Hne. rewrite String.eqb_sym in Hne. now rewrite Hne.
  - destruct (k =? k0)%string eqn:E; simpl.
    + apply String.eqb_eq in E. subst k0.
      assert (E' : (k' =? k)%string = false)
        by (apply String.eqb_neq; congruence).
      now rewrite E'.
    + now rewrite IH.
Qed.

Lemma count_cons {A} (f : A -> bool) a l :
  count f (a :: l) = (if f a then 1 else 0) + count f l.
Proof.
  unfold count. simpl. destruct (f a); simpl List.length; lia.
Qed.

Lemma fold_left_add_shift l : forall a,
  fold_left Z.add l a = a + fold_left Z.add l 0.
Proof.
  induction l as [|x l IH]; intros a; simpl; [lia|].
  rewrite (IH (a + x)), (IH x). lia.
Qed.

(** The sum of all the counters. *)
Lemma counter_sum_set k d :
  fold_left Z.add (map snd (counter_set k (counter_get k d + 1) d)) 0
  = fold_left Z.add (map snd d) 0 + 1.
Proof.
  induction d as [|[k0 v0] d IH]; simpl; [reflexivity|].
  destruct (k =? k0)%string; simpl.
  - rewrite (fold_left_add_shift _ (v0 + 1)), (fold_left_add_shift _ v0). lia.
  - rewrite (fold_left_add_shift _ v0), IH, (fold_left_add_shift _ v0). lia.
Qed.

Lemma statistics_loop_spec now accs : forall stats,
  forallb last_used_readable accs = true ->
  exists stats',
    statistics_loop now stats accs = Ok stats'
    /\ stat_total stats' = stat_total stats
    /\ stat_total_searches stats' = stat_total_searches stats
    /\ (forall s, counter_get s (stat_by_status stats')
                  = counter_get s (stat_by_status stats)
                    + count (fun a => (status a =? s)%string) accs)
    /\ fold_left Z.add (map snd (stat_by_status stats')) 0
       = fold_left Z.add (map snd (stat_by_status stats)) 0
         + Z.of_nat (List.length accs)
    /\ stat_active_in_last_hour stats'
       = stat_active_in_last_hour stats + count (used_within_hour now) accs
    /\ stat_in_cooldown stats'
       = stat_in_cooldown stats + count (used_within_hour now) accs.
Proof.
  induction accs as [|a accs IH]; intros stats Hok.
  - exists stats. simpl. unfold count. simpl.
    repeat split; auto; try lia.
  - simpl in Hok. apply andb_prop in Hok. destruct Hok as [Ha Hok].
    assert (Hstep : exists st1,
               statistics_step now stats a = Ok st1
               /\ stat_total st1 = stat_total stats
               /\ stat_total_searches st1 = stat_total_searches stats
               /\ stat_by_status st1
                  = counter_set (status a)
                      (counter_get (status a) (stat_by_status stats) + 1)
                      (stat_by_status stats)
               /\ stat_active_in_last_hour st1
                  = stat_active_in_last_hour stats
                    + (if used_within_hour now a then 1 else 0)
               /\ stat_in_cooldown st1
                  = stat_in_cooldown stats
                    + (if used_within_hour now a then 1 else 0)).
    { unfold statistics_step, used_within_hour, last_used_readable in *.
      change (timedelta_of 0 1 0) with us_per_hour.
      destruct (truthy (last_used_at a)); simpl in *.
      - destruct (fromisoformat (last_used_at a)) as [lu|]; [|discriminate].
        eexists. split; [reflexivity|]. simpl.
        destruct (now - lu <? us_per_hour); repeat split; lia.
      - eexists. split; [reflexivity|]. simpl. repeat split; lia. }
    destruct Hstep as [st1 [Hs1 [Ht1 [Hts1 [Hby1 [Hact1 Hcool1]]]]]].
    destruct (IH st1 Hok) as [st2 [Hs2 [Ht2 [Hts2 [Hby2 [Hsum2 [Hact2 Hcool2]]]]]]].
    exists st2. cbn [statistics_loop]. rewrite Hs1. cbn [bind].
    split; [exact Hs2|]. split; [congruence|]. split; [congruence|].
    split; [|split; [|split]].
    + intros s. rewrite Hby2, Hby1, count_cons.
      destruct (status a =? s)%string eqn:E.
      * apply String.eqb_eq in E. subst s. rewrite counter_get_set_same. lia.
      * rewrite counter_get_set_other by (apply String.eqb_neq; exact E). lia.
    + rewrite Hsum2, Hby1, counter_sum_set. simpl List.length. lia.
    + rewrite Hact2, Hact1, count_cons. lia.
    + rewrite Hcool2, Hcool1, count_cons. lia.
Qed.

Lemma statistics_loop_raises now accs : forall stats,
  forallb last_used_readable accs = false ->
  exists msg, statistics_loop now stats accs = Raise (ValueError msg).
Proof.
  induction accs as [|a accs IH]; intros stats Hbad; [discriminate|].
  simpl in Hbad. cbn [statistics_loop].
  destruct (last_used_readable a) eqn:Ea.
  - simpl in Hbad. unfold statistics_step.
    unfold last_used_readable in Ea.
    destruct (truthy (last_used_at a)); simpl in Ea.
    + destruct (fromisoformat (last_used_at a)); [|discriminate].
      cbn [bind]. now apply IH.
    + cbn [bind]. now apply IH.
  - unfold statistics_step. unfold last_used_readable in Ea.
    destruct (truthy (last_used_at a)); simpl in Ea; [|discriminate].
    destruct (fromisoformat (last_used_at a)); [discriminate|].
    cbn [bind]. eexists; reflexivity.
Qed.

Lemma count_available l :
  Z.of_nat (List.length l)
  - count (fun a => (status a =? "banned")%string) l
  - count (fun a => (status a =? "limited")%string) l
  = count (fun a => negb (banned_or_limited a)) l.
Proof.
  induction l as [|a l IH]; [reflexivity|].
  rewrite !count_cons. cbn [List.length]. rewrite Nat2Z.inj_succ.
  unfold banned_or_limited at 1. cbn [status_value].
  destruct (status a =? "banned")%string eqn:Eb.
  - apply String.eqb_eq in Eb.
    assert (El : (status a =? "limited")%string = false)
      by (rewrite Eb; reflexivity).
    rewrite El. cbn [orb negb]. lia.
  - destruct (status a =? "limited")%string; cbn [orb negb]; lia.
Qed.



(* ================================================================== *)
(** ** The window of a monitor ([_calculate_time_range]) *)

Lemma timedelta_checked_days n :
  timedelta_checked (n * us_per_day)
  = if Z.abs n <=? 999999999 then Ok (n * us_per_day) else Raise OverflowError.
Proof.
  unfold timedelta_checked. rewrite Z.div_mul by discriminate. reflexivity.
Qed.

Lemma calculate_time_range_start config now start_time end_time :
  calculate_time_range config now = Ok (start_time, end_time) ->
  0 <= start_time.
Proof.
  unfold calculate_time_range, sub, add.
  destruct (monitor_period config);
    try (match goal with
         | |- context [in_range ?t] => destruct (in_range t) eqn:Er
         end; [|discriminate];
         cbn [bind]; intros Heq; apply Ok_inj in Heq; injection Heq as <- _;
         unfold in_range, dt_min in Er; apply andb_prop in Er;
         destruct Er as [Er _]; now apply Z.leb_le in Er).
  destruct (timedelta_checked (custom_days config * us_per_day)) as [td|];
    [|discriminate].
  cbn [bind].
  destruct (in_range (now + - td)) eqn:Er; [|discriminate].
  cbn [bind]. intros Heq. apply Ok_inj in Heq. injection Heq as <- _.
  unfold in_range, dt_min in Er. apply andb_prop in Er.
  destruct Er as [Er _]. now apply Z.leb_le in Er.
Qed.

Lemma calculate_time_range_end config now start_time end_time :
  calculate_time_range config now = Ok (start_time, end_time) ->
  end_time = now.
Proof.
  unfold calculate_time_range.
  match goal with |- context [bind ?r _] => destruct r as [t|] end;
    [|discriminate].
  cbn [bind]. intros Heq. apply Ok_inj in Heq. now injection Heq as _ <-.
Qed.

(** Property X13.  The window of a monitor ends at the clock reading of
    its construction and starts one period before: 1, 3, 7, 14 or 30 days,
    or [custom_days] days.  [_calculate_time_range] returns that window
    when its start is within the calendar (and [custom_days] is a number
    of days a [timedelta] can hold), and raises [OverflowError] otherwise;
    with a clock not before 1970 it returns for every period but the
    custom one.  A negative [custom_days] gives a window that starts after
    its end.  [quick_monitor] knows the five named periods; any other
    name, also "custom", gives one week. *)
Theorem calculate_time_range_spec (config : MonitorConfig) (now : datetime) :
  calculate_time_range config now
  = (if in_range (now - period_days config * us_per_day)
        && (Z.abs (period_days config) <=? 999999999)
     then Ok (now - period_days config * us_per_day, now)
     else Raise OverflowError)
  /\ (epoch <= now <= dt_max -> monitor_period config <> CUSTOM ->
      calculate_time_range config now
      = Ok (now - period_days config * us_per_day, now)
      /\ 1 <= period_days config <= 30)
  /\ (forall start_time end_time,
        calculate_time_range config now = Ok (start_time, end_time) ->
        end_time = now
        /\ (start_time <= end_time <-> 0 <= period_days config))
  /\ (forall p, p <> CUSTOM -> quick_monitor_period (period_value p) = p)
  /\ quick_monitor_period (period_value CUSTOM) = ONE_WEEK
  /\ (forall s, (forall p, s <> period_value p) ->
                quick_monitor_period s = ONE_WEEK).
Proof.
  assert (Hmain : calculate_time_range config now
                  = (if in_range (now - period_days config * us_per_day)
                        && (Z.abs (period_days config) <=? 999999999)
                     then Ok (now - period_days config * us_per_day, now)
                     else Raise OverflowError)).
  { unfold calculate_time_range, period_days, sub, add.
    destruct (monitor_period config);
      try (match goal with
           | |- context [timedelta_of ?d 0 0] =>
               change (timedelta_of d 0 0) with (d * us_per_day);
               change (Z.abs d <=? 999999999) with true
           end;
           rewrite andb_true_r, <- Z.add_opp_r;
           match goal with
           | |- context [in_range ?t] => destruct (in_range t)
           end; reflexivity).
    rewrite timedelta_checked_days.
    destruct (Z.abs (custom_days config) <=? 999999999).
    - rewrite andb_true_r. cbn [bind]. rewrite <- Z.add_opp_r.
      match goal with
      | |- context [in_range ?t] => destruct (in_range t)
      end; reflexivity.
    - rewrite andb_false_r. reflexivity. }
  split; [exact Hmain|]. split; [|split; [|split; [|split]]].
  - intros [Hlo Hhi] Hp. rewrite Hmain.
    assert (Hd : 1 <= period_days config <= 30)
      by (unfold period_days; destruct (monitor_period config);
          try lia; congruence).
    split; [|exact Hd].
    replace (in_range (now - period_days config * us_per_day)) with true.
    + replace (Z.abs (period_days config) <=? 999999999) with true;
        [reflexivity|].
      symmetry. apply Z.leb_le. lia.
    + symmetry. unfold in_range. apply andb_true_intro.
      unfold dt_min. unfold epoch in Hlo.
      change us_per_day with 86400000000.
      split; apply Z.leb_le; lia.
  - intros start_time end_time. rewrite Hmain.
    destruct (in_range (now - period_days config * us_per_day)
              && (Z.abs (period_days config) <=? 999999999));
      [|discriminate].
    intros Heq. apply Ok_inj in Heq. injection Heq as <- <-.
    split; [reflexivity|]. change us_per_day with 86400000000. lia.
  - intros p Hp. destruct p; try reflexivity. congruence.
  - reflexivity.
  - intros s Hs. unfold quick_monitor_period.
    pose proof (Hs ONE_DAY) as H1. pose proof (Hs THREE_DAYS) as H2.
    pose proof (Hs TWO_WEEKS) as H3. pose proof (Hs ONE_MONTH) as H4.
    apply String.eqb_neq in H1, H2, H3, H4. simpl in H1, H2, H3, H4.
    rewrite H1, H2, H3, H4. now destruct (s =? "1_week")%string.
Qed.

(** Property X13 at noon on 2024-06-01, for one week. *)
Lemma calculate_time_range_spec_witness :
  calculate_time_range sample_config example_now
  = Ok (example_now - 7 * us_per_day, example_now).
Proof.
  refine (proj1 (proj1 (proj2 (calculate_time_range_spec sample_config
                                 example_now)) _ _)).
  - split; apply Z.leb_le; vm_compute; reflexivity.
  - discriminate.
Defined.

(* ================================================================== *)
(** ** From the note card to the filter *)

Section Pipeline.

Context `{LocalZone}.
Hypothesis monotone : zone_monotone.

Lemma to_ms_mono t1 t2 : t1 <= t2 -> to_ms t1 <= to_ms t2.
Proof.
  intros Hle. unfold to_ms. apply Z.quot_le_mono; [lia|]. now apply monotone.
Qed.

Lemma filter_one now time_range p :
  epoch <= now <= dt_max ->
  timestamp_unix p <> 0 ->
  filter_posts_by_time now time_range [p]
  = Ok (if (to_ms (fst time_range) <=? timestamp_unix p)
           && (timestamp_unix p <=? to_ms (snd time_range))
        then [p] else []).
Proof.
  intros Hnow Hts. unfold filter_posts_by_time.
  rewrite (filter_loop_filter now Hnow). cbn [filter].
  unfold retained, canonical_timestamp. cbv zeta.
  apply Z.eqb_neq in Hts. rewrite Hts. cbv iota. rewrite Hts, orb_false_r.
  reflexivity.
Qed.

(** Property X14.  From the note card to the filter.  A monitor has the
    window [_calculate_time_range] computed when it was constructed; a
    post is built from a note card at a later clock reading, its
    [timestamp_unix] being what [_parse_timestamp] makes of the card's
    time text at that reading; and [_filter_posts_by_time] runs later
    still.  When local time and Unix time go forward together: a post
    whose card says "N天前" is kept when the instant N days before the
    card was read lies in the window (and the window starts after 1970);
    a post whose card says "刚刚" is dropped as soon as the card was read
    in a later millisecond than the one the monitor was constructed in,
    because the window ends at the construction. *)
Theorem card_to_filter (config : MonitorConfig)
    (now0 now1 now2 start_time end_time : datetime)
    (id title s kw : string) (p : Post) :
  calculate_time_range config now0 = Ok (start_time, end_time) ->
  epoch <= now1 <= dt_max -> epoch <= now2 <= dt_max ->
  extract_post now1 id title s kw = Ok p ->
  end_time = now0
  /\ (forall n,
        truthy s = true -> contains "刚刚" s = false ->
        contains "分钟前" s = false -> contains "小时前" s = false ->
        contains "天前" s = true ->
        py_int (remove_all "天前" s) = Some n ->
        0 <= n ->
        start_time <= now1 - n * us_per_day <= end_time ->
        0 < to_ms start_time ->
        timestamp_unix p = to_ms (now1 - n * us_per_day)
        /\ filter_posts_by_time now2 (start_time, end_time) [p] = Ok [p])
  /\ (contains "刚刚" s = true ->
      0 <= to_ms end_time < to_ms now1 ->
      timestamp_unix p = to_ms now1
      /\ filter_posts_by_time now2 (start_time, end_time) [p] = Ok []).
Proof.
  intros Hwin Hnow1 Hnow2 Hpost.
  pose proof (calculate_time_range_end _ _ _ _ Hwin) as Hend.
  split; [exact Hend|]. unfold extract_post in Hpost.
  split.
  - intros n Ht H1 H2 H3 H4 Hint Hn Hin Hpos.
    rewrite (parse_timestamp_days now1 Hnow1 s n Ht H1 H2 H3 H4 Hint) in Hpost.
    2:{ pose proof (calculate_time_range_start _ _ _ _ Hwin) as Hs.
        change us_per_day with 86400000000 in *. lia. }
    cbn [bind] in Hpost. apply Ok_inj in Hpost. subst p.
    cbn [timestamp_unix]. split; [reflexivity|].
    assert (Hlo : to_ms start_time <= to_ms (now1 - n * us_per_day))
      by (apply to_ms_mono; lia).
    assert (Hhi : to_ms (now1 - n * us_per_day) <= to_ms end_time)
      by (apply to_ms_mono; lia).
    rewrite filter_one; cbn [timestamp_unix fst snd]; auto; [|lia].
    apply Z.leb_le in Hlo, Hhi. now rewrite Hlo, Hhi.
  - intros Hc [Hpos Hlate].
    assert (Ht : truthy s = true) by (destruct s; [discriminate | reflexivity]).
    unfold parse_timestamp in Hpost. rewrite Ht, Hc in Hpost.
    cbn [negb bind] in Hpost. apply Ok_inj in Hpost. subst p.
    cbn [timestamp_unix]. split; [reflexivity|].
    rewrite filter_one; cbn [timestamp_unix fst snd]; auto; [|lia].
    replace (to_ms now1 <=? to_ms end_time) with false
      by (symmetry; apply Z.leb_gt; lia).
    now rewrite andb_false_r.
Qed.

End Pipeline.

Lemma fixed_zone_monotone utcoffset : @zone_monotone (FixedZone utcoffset).
Proof. intros t1 t2 Hle. simpl. lia. Qed.

(** Property X14 in the zone of Shanghai: the monitor is constructed at
    noon on 2024-06-01 for one week, the cards are read five minutes
    later and the filter runs ten minutes later. *)
Lemma card_to_filter_witness :
  exists p3 pnow,
    @extract_post Shanghai (example_now + 5 * us_per_minute)
      "xhs_1717214700_000" "GEO" "3天前" "GEO 优化" = Ok p3
    /\ @extract_post Shanghai (example_now + 5 * us_per_minute)
         "xhs_1717214700_001" "AI" "刚刚" "GEO 优化" = Ok pnow
    /\ @filter_posts_by_time Shanghai (example_now + 10 * us_per_minute)
         (example_now - 7 * us_per_day, example_now) [p3] = Ok [p3]
    /\ @filter_posts_by_time Shanghai (example_now + 10 * us_per_minute)
         (example_now - 7 * us_per_day, example_now) [pnow] = Ok [].
Proof.
  assert (E3 : exists p3,
             @extract_post Shanghai (example_now + 5 * us_per_minute)
               "xhs_1717214700_000" "GEO" "3天前" "GEO 优化" = Ok p3)
    by (vm_compute; eexists; reflexivity).
  assert (En : exists pnow,
             @extract_post Shanghai (example_now + 5 * us_per_minute)
               "xhs_1717214700_001" "AI" "刚刚" "GEO 优化" = Ok pnow)
    by (vm_compute; eexists; reflexivity).
  destruct E3 as [p3 E3]. destruct En as [pnow En].
  assert (Hwin : calculate_time_range sample_config example_now
                 = Ok (example_now - 7 * us_per_day, example_now))
    by (vm_compute; reflexivity).
  assert (Hr1 : epoch <= example_now + 5 * us_per_minute <= dt_max)
    by (split; apply Z.leb_le; vm_compute; reflexivity).
  assert (Hr2 : epoch <= example_now + 10 * us_per_minute <= dt_max)
    by (split; apply Z.leb_le; vm_compute; reflexivity).
  exists p3, pnow. split; [exact E3|]. split; [exact En|]. split.
  - refine (proj2 (proj1 (proj2
             (@card_to_filter Shanghai (fixed_zone_monotone _) sample_config
                example_now _ _ _ _ _ _ _ _ p3 Hwin Hr1 Hr2 E3))
             3 _ _ _ _ _ _ _ _ _)); try (vm_compute; reflexivity).
    + vm_compute. intros Hc. discriminate Hc.
    + split; apply Z.leb_le; vm_compute; reflexivity.
  - refine (proj2 (proj2 (proj2
             (@card_to_filter Shanghai (fixed_zone_monotone _) sample_config
                example_now _ _ _ _ _ _ _ _ pnow Hwin Hr1 Hr2 En))
             _ _)); [vm_compute; reflexivity|].
    split; [apply Z.leb_le | apply Z.ltb_lt]; vm_compute; reflexivity.
Defined.

(* ================================================================== *)
(** ** Writing the results ([DataStorage]) *)

Lemma writerows_good fieldnames data :
  forallb (fun row => negb (nonempty (wrong_fields fieldnames row))) data
  = true ->
  exists rows,
    writerows fieldnames data = (rows, None)
    /\ List.length rows = List.length data
    /\ Forall (fun r => List.length r = List.length fieldnames) rows.
Proof.
  induction data as [|row rest IH]; simpl; intros Hok.
  - exists []. repeat split. constructor.
  - apply andb_prop in Hok. destruct Hok as [Hrow Hok].
    destruct (IH Hok) as [rows [Hw [Hl Hf]]].
    unfold dict_to_list. apply negb_true_iff in Hrow. rewrite Hrow, Hw.
    eexists. split; [reflexivity|]. split; [simpl; congruence|].
    constructor; [apply length_map | exact Hf].
Qed.

Lemma writerows_bad fieldnames good bad rest :
  forallb (fun row => negb (nonempty (wrong_fields fieldnames row))) good
  = true ->
  nonempty (wrong_fields fieldnames bad) = true ->
  exists rows msg,
    writerows fieldnames (good ++ bad :: rest)%list
    = (rows, Some (ValueError msg))
    /\ List.length rows = List.length good.
Proof.
  intros Hgood Hbad. induction good as [|row good IH]; simpl.
  - unfold dict_to_list. rewrite Hbad. eexists _, _. split; reflexivity.
  - simpl in Hgood. apply andb_prop in Hgood. destruct Hgood as [Hrow Hgood].
    destruct (IH Hgood) as [rows [msg [Hw Hl]]].
    unfold dict_to_list at 1. apply negb_true_iff in Hrow. rewrite Hrow, Hw.
    eexists _, _. split; [reflexivity|]. simpl. congruence.
Qed.

(** Property X15.  [export_to_csv] writes nothing for an empty list.  For
    rows whose keys are all among the columns it writes the header and one
    line per row, each with one cell per column (an absent key gives an
    empty cell), and returns the path.  A row with a key that is no column
    makes it raise [ValueError], the file holding the header and the rows
    before that one.  Every post that [_extract_search_results] builds has
    the keys [timestamp_unix] and [images], which are no columns of the
    posts table, and every comment that [_extract_comments] builds has the
    key [timestamp_unix], which is no column of the comments table: on a
    list that starts with one of them [export_to_csv] raises [ValueError]
    and leaves a table with no row. *)
Theorem export_to_csv_spec (data : list pydict) (data_type timestamp : string)
    (d : disk) :
  let fieldnames :=
    if (data_type =? "posts")%string then posts_fieldnames
    else comments_fieldnames in
  let path :=
    DATA_DIR ++ "/exports/export_" ++ data_type ++ "_" ++ timestamp ++ ".csv" in
  (data = [] -> export_to_csv data data_type timestamp d = (Ok path, d))
  /\ (data <> [] ->
      forallb (fun row => negb (nonempty (wrong_fields fieldnames row))) data
      = true ->
      exists rows,
        export_to_csv data data_type timestamp d
        = (Ok path, disk_write path (CsvTable fieldnames rows) d)
        /\ List.length rows = List.length data
        /\ Forall (fun r => List.length r = List.length fieldnames) rows)
  /\ (forall good bad rest,
        data = (good ++ bad :: rest)%list ->
        forallb (fun row => negb (nonempty (wrong_fields fieldnames row))) good
        = true ->
        nonempty (wrong_fields fieldnames bad) = true ->
        exists rows msg,
          export_to_csv data data_type timestamp d
          = (Raise (ValueError msg),
             disk_write path (CsvTable fieldnames rows) d)
          /\ List.length rows = List.length good)
  /\ (forall time_s idx title author url timestamp_str timestamp_unix
             like_count tags keyword rest,
        wrong_fields posts_fieldnames
          (post_data time_s idx title author url timestamp_str timestamp_unix
             like_count tags keyword)
        = ["timestamp_unix"; "images"]
        /\ exists msg,
             export_to_csv
               (post_data time_s idx title author url timestamp_str
                  timestamp_unix like_count tags keyword :: rest)
               "posts" timestamp d
             = (Raise (ValueError msg),
                disk_write
                  (DATA_DIR ++ "/exports/export_posts_" ++ timestamp ++ ".csv")
                  (CsvTable posts_fieldnames []) d))
  /\ (forall time_s idx post_id post_title content author time_str
             timestamp_unix like_count keyword now rest,
        wrong_fields comments_fieldnames
          (comment_data time_s idx post_id post_title content author time_str
             timestamp_unix like_count keyword now)
        = ["timestamp_unix"]
        /\ exists msg,
             export_to_csv
               (comment_data time_s idx post_id post_title content author
                  time_str timestamp_unix like_count keyword now :: rest)
               "comments" timestamp d
             = (Raise (ValueError msg),
                disk_write
                  (DATA_DIR ++ "/exports/export_comments_" ++ timestamp
                   ++ ".csv")
                  (CsvTable comments_fieldnames []) d)).
Proof.
  intros fieldnames path.
  split; [|split; [|split; [|split]]].
  - intros ->. reflexivity.
  - intros Hne Hok. destruct (writerows_good fieldnames data Hok)
      as [rows [Hw [Hl Hf]]].
    exists rows. unfold export_to_csv. fold fieldnames.
    destruct data as [|r0 data']; [congruence|].
    rewrite Hw. repeat split; auto.
  - intros good bad rest -> Hgood Hbad.
    destruct (writerows_bad fieldnames good bad rest Hgood Hbad)
      as [rows [msg [Hw Hl]]].
    exists rows, msg. unfold export_to_csv. fold fieldnames.
    destruct (good ++ bad :: rest)%list as [|r0 data'] eqn:Ed.
    + destruct good; discriminate.
    + rewrite Hw. split; auto.
  - intros. split; [reflexivity|]. eexists. reflexivity.
  - intros. split; [reflexivity|]. eexists. reflexivity.
Qed.

Lemma json_serializable_entry d k v :
  In (k, v) d -> json_serializable v = false ->
  json_serializable (PDict d) = false.
Proof.
  intros Hin Hv. cbn [json_serializable].
  destruct (forallb (fun kv => let '(_, x) := kv in json_serializable x) d)
    eqn:E; [|reflexivity].
  rewrite forallb_forall in E. specialize (E _ Hin). simpl in E. congruence.
Qed.

Lemma asdict_config_not_serializable config :
  json_serializable (PDict (asdict_config config)) = false.
Proof.
  eapply json_serializable_entry; [right; left; reflexivity | reflexivity].
Qed.

Lemma results_not_serializable r :
  json_serializable (PDict (results_config r)) = false ->
  json_serializable (results_value r) = false.
Proof.
  intros Hc. unfold results_value.
  eapply json_serializable_entry; [|exact Hc].
  right; right; right; left; reflexivity.
Qed.

Lemma save_results_not_serializable now r d :
  json_serializable (results_value r) = false ->
  save_results now r d
  = (Raise (TypeError "Object is not JSON serializable"),
     disk_write
       (DATA_DIR ++ "/monitor_result_" ++ strftime_compact now ++ ".json")
       (JsonFragment (results_value r)) d).
Proof.
  intros Hs. unfold save_results, json_dump_file. now rewrite Hs.
Qed.

Lemma save_results_of_run now post_dict comment_dict config time_range st d :
  save_results now (results_dict post_dict comment_dict config time_range st) d
  = (Raise (TypeError "Object is not JSON serializable"),
     disk_write
       (DATA_DIR ++ "/monitor_result_" ++ strftime_compact now ++ ".json")
       (JsonFragment
          (results_value
             (results_dict post_dict comment_dict config time_range st)))
       d).
Proof.
  apply save_results_not_serializable.
  apply results_not_serializable. apply asdict_config_not_serializable.
Qed.

(** Property X16.  [save_results] opens the result file and hands the
    results to [json.dump]; when the encoder rejects a value it raises
    [TypeError], the file is left with the part of the document that was
    written, and no CSV file is written.  The [config] entry that [run]
    puts in its results is [asdict(self.config)], whose [monitor_period]
    is a member of the [Enum] class [MonitorPeriod], which the encoder
    rejects: on the results of [run], whatever was collected,
    [save_results] raises [TypeError].  On results that the encoder
    accepts, it returns the path of the document when there is neither a
    post nor a comment, and raises [ValueError] from the CSV export, after
    the document was written, when the first post is one
    [_extract_search_results] built. *)
Theorem save_results_spec (now : datetime) (d : disk) :
  let path :=
    DATA_DIR ++ "/monitor_result_" ++ strftime_compact now ++ ".json" in
  (forall r,
      json_serializable (results_value r) = false ->
      save_results now r d
      = (Raise (TypeError "Object is not JSON serializable"),
         disk_write path (JsonFragment (results_value r)) d))
  /\ (forall post_dict comment_dict config time_range st,
        save_results now
          (results_dict post_dict comment_dict config time_range st) d
        = (Raise (TypeError "Object is not JSON serializable"),
           disk_write path
             (JsonFragment
                (results_value
                   (results_dict post_dict comment_dict config time_range st)))
             d))
  /\ (forall r,
        json_serializable (results_value r) = true ->
        results_posts r = [] -> results_comments r = [] ->
        save_results now r d
        = (Ok path, disk_write path (JsonDocument (results_value r)) d))
  /\ (forall r time_s idx title author url timestamp_str timestamp_unix
             like_count tags keyword rest,
        json_serializable (results_value r) = true ->
        results_posts r
        = post_data time_s idx title author url timestamp_str timestamp_unix
            like_count tags keyword :: rest ->
        exists msg,
          save_results now r d
          = (Raise (ValueError msg),
             disk_write
               (DATA_DIR ++ "/exports/export_posts_" ++ strftime_compact now
                ++ ".csv")
               (CsvTable posts_fieldnames [])
               (disk_write path (JsonDocument (results_value r)) d))).
Proof.
  intros path. split; [|split; [|split]].
  - intros r Hs. now apply save_results_not_serializable.
  - intros. apply save_results_of_run.
  - intros r Hs Hp Hc. unfold save_results, json_dump_file.
    rewrite Hs, Hp, Hc. reflexivity.
  - intros r time_s idx title author url timestamp_str timestamp_unix
           like_count tags keyword rest Hs Hp.
    unfold save_results, json_dump_file. rewrite Hs, Hp.
    eexists. reflexivity.
Qed.

Lemma disk_read_fragment path p v d c :
  disk_read path (disk_write p (JsonFragment v) d) = Some c ->
  (forall w, c <> JsonFragment w) ->
  disk_read path d = Some c.
Proof.
  unfold disk_write. cbn [disk_read].
  destruct (path =? p)%string; [|auto].
  intros Heq Hc. injection Heq as <-. now destruct (Hc v).
Qed.

Lemma handle_exception_run post_dict comment_dict config time_range sc st
      now e d :
  let results := results_dict post_dict comment_dict config time_range st in
  let path :=
    DATA_DIR ++ "/monitor_result_" ++ strftime_compact now ++ ".json" in
  handle_exception sc st results now e d
  = if negb (is_Exception e)
       || nonempty (all_posts st) || nonempty (all_comments st)
    then (Reraised (TypeError "Object is not JSON serializable"),
          disk_write path (JsonFragment (results_value results)) d)
    else (Reraised e, d).
Proof.
  cbv zeta. unfold handle_exception.
  rewrite save_results_of_run.
  destruct e; cbn [is_Exception negb orb]; try reflexivity;
    destruct (nonempty (all_posts st) || nonempty (all_comments st));
    reflexivity.
Qed.

(** Property X17.  [run] with the data storage as it is written never
    returns: every run ends by raising an exception.  When the browser
    cannot be opened, or when the keyword loop raised an exception other
    than [KeyboardInterrupt] before anything was collected, it is that
    exception and the disk is untouched.  In every other case, at the
    end of the keyword loop, after an interrupt, and after an error with
    a post or a comment collected, [run] calls [save_results], which
    raises [TypeError] on the configuration entry of the results; [run]
    ends with that [TypeError], and all it leaves on disk is the
    incomplete result document: no complete document and no CSV table is
    written.  These are the cases in which the run with a storage that
    cannot fail saves a document. *)
Theorem run_stored_never_returns (post_dict : Post -> pydict)
    (comment_dict : Comment -> pydict) (config : MonitorConfig)
    (time_range : datetime * datetime) (sc : RunScript)
    (save1 save2 : datetime) (d : disk) :
  let r := run_stored post_dict comment_dict config time_range sc
             save1 save2 d in
  (exists e, fst r = Reraised e)
  /\ (match saved (run sc) with
      | [] => fst r = run_exit (run sc) /\ snd r = d
      | _ :: _ =>
          fst r = Reraised (TypeError "Object is not JSON serializable")
      end)
  /\ (forall path c,
        disk_read path (snd r) = Some c ->
        (forall w, c <> JsonFragment w) ->
        disk_read path d = Some c).
Proof.
  intros r. subst r. unfold run_stored, run.
  destruct (init_browser_io sc) as [e0|].
  { cbn [fst snd saved run_exit]. split; [now exists e0|]. split; auto. }
  destruct (try_body sc _) as [st raised].
  unfold try_end_stored, try_end.
  destruct raised as [e|].
  - rewrite handle_exception_run.
    destruct e; cbn [is_Exception negb orb];
      destruct (nonempty (all_posts st) || nonempty (all_comments st));
      cbn [fst snd saved run_exit];
      (split; [eexists; reflexivity|]); (split; [auto|]);
      intros path c Hr Hc; eauto using disk_read_fragment.
  - rewrite save_results_of_run.
    rewrite handle_exception_run.
    change (is_Exception (TypeError "Object is not JSON serializable"))
      with true.
    cbn [negb orb].
    destruct (nonempty (all_posts st) || nonempty (all_comments st));
      cbn [fst snd saved run_exit];
      (split; [eexists; reflexivity|]); (split; [reflexivity|]);
      intros path c Hr Hc; eauto using disk_read_fragment.
Qed.

(** Property X17 on the run with three keywords and no account to use:
    where the run with a storage that cannot fail completes and saves an
    empty result, the run as written ends with [TypeError]. *)
Lemma run_stored_never_returns_witness :
  run_exit (run no_account_run)
  = Returned (with_end_time no_account_run
                (make_results no_account_run
                   {| all_posts := []; all_comments := [];
                      stats :=
                        {| total_posts := 0; total_comments := 0;
                           keywords_processed := 0;
                           start_time := Some (isoformat example_now);
                           end_time := None |} |}))
  /\ fst (run_stored sample_post_dict sample_comment_dict sample_config
            (week_before example_now) no_account_run example_now example_now
            [])
     = Reraised (TypeError "Object is not JSON serializable").
Proof.
  split; [reflexivity|].
  exact (proj1 (proj2 (run_stored_never_returns sample_post_dict
                         sample_comment_dict sample_config
                         (week_before example_now) no_account_run
                         example_now example_now []))).
Defined.
(* ================================================================== *)
(** ** Choosing a master password ([setup_master_password]) *)

Lemma read_new_password_confirmed n : forall inputs password,
  (List.length inputs <= n)%nat ->
  read_new_password inputs = Ok password ->
  6 <= py_len password
  /\ exists before rest, inputs = (before ++ password :: password :: rest)%list.
Proof.
  induction n as [|n IH]; intros inputs password Hlen.
  - destruct inputs; [discriminate | simpl in Hlen; lia].
  - destruct inputs as [|a rest]; [discriminate|]. cbn [read_new_password].
    destruct (py_len a <? 6) eqn:Ea.
    + intros Hr. destruct (IH rest password) as [H6 [before [rest' Hin]]];
        [simpl in Hlen; lia | exact Hr |].
      split; [exact H6|]. exists (a :: before), rest'. now rewrite Hin.
    + destruct rest as [|b rest']; [discriminate|].
      destruct (a =? b)%string eqn:Eab.
      * intros Hr. apply Ok_inj in Hr. subst a.
        apply String.eqb_eq in Eab. subst b.
        apply Z.ltb_ge in Ea. split; [exact Ea|].
        now exists [], rest'.
      * intros Hr. destruct (IH rest' password) as [H6 [before [rest'' Hin]]];
          [simpl in Hlen; lia | exact Hr |].
        split; [exact H6|]. exists (a :: b :: before), rest''. now rewrite Hin.
Qed.

(** Property X18.  Choosing a master password.  When
    [setup_master_password] is called with [new_password=True], or when
    there is no salt file, the password it returns has at least six
    characters and was typed twice in a row; an answer of fewer than six
    characters, and a pair of answers that differ, are passed over.  The
    manager is then unlocked with the key derived from that password and
    the salt, which is the salt on file when there is one and a fresh one,
    written to the salt file, otherwise.  The registry and the accounts
    file are not touched: in particular the accounts on file are not
    loaded. *)
Theorem setup_new_master_password `{CryptoLib} (new_password : bool)
    (inputs : list string) (urandom16 : bytes) (m m' : AccountManager)
    (fs fs' : Files) (password : string) :
  new_password = true \/ salt_file fs = None ->
  setup_master_password new_password inputs urandom16 m fs
  = Ok (password, m', fs') ->
  let salt := match salt_file fs with Some s => s | None => urandom16 end in
  6 <= py_len password
  /\ (exists before rest,
         inputs = (before ++ password :: password :: rest)%list)
  /\ master_password_set m' = true
  /\ encryption m'
     = {| cipher :=
            Some (urlsafe_b64encode
                    (pbkdf2_hmac_sha256 salt 100000 (encode password)));
          master_password := Some password |}
  /\ salt_file fs' = Some salt
  /\ accounts m' = accounts m
  /\ accounts_file fs' = accounts_file fs
  /\ state_files fs' = state_files fs
  /\ (forall a rest,
        (py_len a <? 6) = true ->
        setup_master_password new_password (a :: rest) urandom16 m fs
        = setup_master_password new_password rest urandom16 m fs)
  /\ (forall a b rest,
        (py_len a <? 6) = false -> a <> b ->
        setup_master_password new_password (a :: b :: rest) urandom16 m fs
        = setup_master_password new_password rest urandom16 m fs).
Proof.
  intros Hnew. unfold setup_master_password.
  assert (Hc : new_password
               || match salt_file fs with Some _ => false | None => true end
               = true).
  { destruct Hnew as [->| ->]; [reflexivity | apply orb_true_r]. }
  rewrite Hc.
  destruct (read_new_password inputs) as [pw|] eqn:Er; [|discriminate].
  cbn [bind].
  destruct (read_new_password_confirmed _ inputs pw (Nat.le_refl _) Er)
    as [H6 Hin].
  unfold set_master_password, derive_key, get_or_create_salt.
  destruct (salt_file fs) as [s|] eqn:Es; intros Heq; apply Ok_inj in Heq;
    injection Heq as <- <- <-; cbv zeta;
    (split; [exact H6|]); (split; [exact Hin|]);
    cbn [master_password_set with_master_password_set with_encryption
         encryption accounts salt_file accounts_file state_files
         set_salt_file];
    repeat (split; [auto|]).
  all: try (intros a rest Ha; cbn [read_new_password]; now rewrite Ha).
  all: intros a b rest Ha Hab; cbn [read_new_password]; rewrite Ha;
    apply String.eqb_neq in Hab; now rewrite Hab.
Qed.

(** Property X18 on the sample cipher: a first answer that is too short,
    a pair that differs, then "correct horse" twice. *)
Lemma setup_new_master_password_witness :
  exists m' fs',
    @setup_master_password ToyCrypto true
      ["horse"; "correct horse"; "correct house"; "correct horse";
       "correct horse"]
      sample_salt AccountManager_init sample_files
    = Ok ("correct horse", m', fs')
    /\ master_password_set m' = true
    /\ accounts m' = [].
Proof.
  assert (E : exists m' fs',
             @setup_master_password ToyCrypto true
               ["horse"; "correct horse"; "correct house"; "correct horse";
                "correct horse"]
               sample_salt AccountManager_init sample_files
             = Ok ("correct horse", m', fs'))
    by (vm_compute; eexists; eexists; reflexivity).
  destruct E as [m' [fs' E]]. exists m', fs'. split; [exact E|].
  destruct (@setup_new_master_password ToyCrypto _ _ _ _ _ _ _ _
              (or_introl eq_refl) E) as [_ [_ [H1 [_ [_ [H2 _]]]]]].
  split; [exact H1 | exact H2].
Defined.

(* ================================================================== *)
(** ** Account ids without removals *)

Lemma uint_of_string_zeros k s :
  NilEmpty.uint_of_string (zeros k ++ s)
  = option_map (Nat.iter k Decimal.D0) (NilEmpty.uint_of_string s).
Proof.
  induction k as [|k IH]; cbn [zeros append Nat.iter].
  - now destruct (NilEmpty.uint_of_string s).
  - cbn [NilEmpty.uint_of_string]. rewrite IH.
    destruct (NilEmpty.uint_of_string s); reflexivity.
Qed.

Lemma of_uint_zeros k d : N.of_uint (Nat.iter k Decimal.D0 d) = N.of_uint d.
Proof. induction k as [|k IH]; [reflexivity | exact IH]. Qed.

Lemma to_uint_nonnil n : N.to_uint n <> Decimal.Nil.
Proof.
  destruct n; [discriminate | apply DecimalPos.Unsigned.to_uint_nonnil].
Qed.

Lemma uint_of_string_of_uint d :
  d <> Decimal.Nil ->
  NilEmpty.uint_of_string (NilZero.string_of_uint d) = Some d.
Proof.
  intros Hd. rewrite <- (NilZero.usu d Hd).
  destruct d; [congruence | reflexivity ..].
Qed.

Lemma string_of_uint_nonempty d :
  exists c r, NilZero.string_of_uint d = String c r.
Proof. destruct d; cbn; eexists _, _; reflexivity. Qed.

Lemma decimal_value_format_03d n : 0 <= n -> decimal_value (format_03d n) = n.
Proof.
  intros Hn. unfold format_03d, dec_string, decimal_value. cbv zeta.
  pose proof (to_uint_nonnil (Z.to_N n)) as Hd.
  pose proof (DecimalN.Unsigned.of_to (Z.to_N n)) as Hval.
  set (d := N.to_uint (Z.to_N n)) in *. clearbody d.
  pose proof (uint_of_string_of_uint d Hd) as Hs.
  destruct (string_of_uint_nonempty d) as [c [r Hcr]].
  set (s := NilZero.string_of_uint d) in *. clearbody s.
  assert (Hz : NilZero.uint_of_string (zeros (3 - String.length s) ++ s)
               = NilEmpty.uint_of_string (zeros (3 - String.length s) ++ s)).
  { destruct (zeros (3 - String.length s)); [|reflexivity].
    rewrite Hcr. reflexivity. }
  rewrite Hz, uint_of_string_zeros, Hs. cbn [option_map].
  rewrite of_uint_zeros, Hval. lia.
Qed.

Lemma nth_account_id_number n : 0 <= n -> account_number (nth_account_id n) = n.
Proof. intros Hn. unfold nth_account_id. cbn. now apply decimal_value_format_03d. Qed.

Lemma nth_account_id_inj n n' :
  0 <= n -> 0 <= n' -> nth_account_id n = nth_account_id n' -> n = n'.
Proof.
  intros Hn Hn' Heq.
  rewrite <- (nth_account_id_number n Hn), <- (nth_account_id_number n' Hn').
  now rewrite Heq.
Qed.

Lemma nth_account_id_eqb n n' :
  0 <= n -> 0 <= n' -> n <> n' ->
  (nth_account_id n =? nth_account_id n')%string = false.
Proof.
  intros Hn Hn' Hne. apply String.eqb_neq. intros Heq.
  now apply Hne, nth_account_id_inj.
Qed.

Lemma ids_from_above d : forall s j,
  ids_from s d = true -> 0 <= s -> s + Z.of_nat (List.length d) <= j ->
  dict_mem (nth_account_id j) d = false.
Proof.
  induction d as [|[k a] d IH]; intros s j Hids Hs Hj; [reflexivity|].
  cbn [ids_from] in Hids. apply andb_prop in Hids. destruct Hids as [Hk Hids].
  apply andb_prop in Hk. destruct Hk as [Hk _]. apply String.eqb_eq in Hk.
  cbn [List.length] in Hj. rewrite Nat2Z.inj_succ in Hj.
  unfold dict_mem. cbn [dict_get]. subst k.
  rewrite nth_account_id_eqb by lia.
  apply (IH (s + 1) j Hids); lia.
Qed.

Lemma ids_from_below d : forall s j,
  ids_from s d = true -> 0 <= j < s ->
  dict_mem (nth_account_id j) d = false.
Proof.
  induction d as [|[k a] d IH]; intros s j Hids Hj; [reflexivity|].
  cbn [ids_from] in Hids. apply andb_prop in Hids. destruct Hids as [Hk Hids].
  apply andb_prop in Hk. destruct Hk as [Hk _]. apply String.eqb_eq in Hk.
  unfold dict_mem. cbn [dict_get]. subst k.
  rewrite nth_account_id_eqb by lia.
  apply (IH (s + 1) j Hids); lia.
Qed.

Lemma ids_from_registry_ok d : forall s,
  ids_from s d = true -> 0 <= s -> registry_ok d = true.
Proof.
  induction d as [|[k a] d IH]; intros s Hids Hs; [reflexivity|].
  cbn [ids_from] in Hids. apply andb_prop in Hids. destruct Hids as [Hk Hids].
  apply andb_prop in Hk. destruct Hk as [Hk Ha].
  apply String.eqb_eq in Hk, Ha. cbn [registry_ok].
  rewrite (IH (s + 1) Hids) by lia.
  rewrite Ha, String.eqb_refl. subst k.
  rewrite (ids_from_below d (s + 1) s Hids) by lia. reflexivity.
Qed.

Lemma ids_from_app d : forall s a,
  ids_from s d = true ->
  account_id a = nth_account_id (s + Z.of_nat (List.length d)) ->
  ids_from s (d ++ [(nth_account_id (s + Z.of_nat (List.length d)), a)])%list
  = true.
Proof.
  induction d as [|[k a0] d IH]; intros s a Hids Ha.
  - cbn [List.length app ids_from] in *. rewrite Z.add_0_r in *.
    now rewrite Ha, !String.eqb_refl.
  - cbn [ids_from] in Hids. apply andb_prop in Hids.
    destruct Hids as [Hk Hids].
    cbn [List.length app ids_from] in *. rewrite Nat2Z.inj_succ in *.
    rewrite Hk. cbn [andb].
    replace (s + Z.succ (Z.of_nat (List.length d)))
      with (s + 1 + Z.of_nat (List.length d)) in * by lia.
    now apply IH.
Qed.

Lemma add_account_appends `{CryptoLib} now entropy m fs key
      user secret phone_number note :
  master_password_set m = true ->
  cipher (encryption m) = Some key ->
  ids_from 1 (accounts m) = true ->
  exists acc,
    add_account now entropy m fs user secret phone_number note
    = Ok (nth_account_id (Z.of_nat (List.length (accounts m)) + 1),
          with_accounts m
            (accounts m
             ++ [(nth_account_id (Z.of_nat (List.length (accounts m)) + 1),
                  acc)])%list,
          save_accounts
            (with_accounts m
               (accounts m
                ++ [(nth_account_id (Z.of_nat (List.length (accounts m)) + 1),
                     acc)])%list) fs)
    /\ account_id acc
       = nth_account_id (Z.of_nat (List.length (accounts m)) + 1)
    /\ username acc = user
    /\ ids_from 1
         (accounts m
          ++ [(nth_account_id (Z.of_nat (List.length (accounts m)) + 1), acc)])%list
       = true.
Proof.
  intros Hset Hc Hids. unfold add_account, encrypt.
  rewrite Hset, Hc. cbn [negb bind]. fold (nth_account_id (Z.of_nat (List.length (accounts m)) + 1)).
  set (id := nth_account_id (Z.of_nat (List.length (accounts m)) + 1)).
  assert (Habs : dict_mem id (accounts m) = false)
    by (apply (ids_from_above _ 1); auto; lia).
  rewrite (dict_set_absent _ _ _ Habs).
  eexists. split; [reflexivity|]. split; [reflexivity|].
  split; [reflexivity|].
  unfold id. rewrite (Z.add_comm _ 1). apply ids_from_app; auto.
Qed.

(** Property X19.  Without removals the ids are fresh.  When the ids of
    the registry are acc_001, acc_002, ... in this order, as they are in a
    manager that has only added accounts, and the manager is unlocked,
    adding any list of accounts succeeds: the calls return the next ids in
    order, all different and none of them in the registry before; the new
    records come after the old ones, which are untouched, each with the
    user name it was added with; and the ids of the new registry are again
    acc_001, acc_002, ... in order. *)
Theorem add_accounts_fresh_ids `{CryptoLib} (now : datetime)
    (entropy key : bytes) (credentials : list (string * string)) :
  forall (m : AccountManager) (fs : Files),
  master_password_set m = true ->
  cipher (encryption m) = Some key ->
  ids_from 1 (accounts m) = true ->
  exists ids m' fs' added,
    add_accounts now entropy m fs credentials = Ok (ids, m', fs')
    /\ ids = map (fun i => nth_account_id
                             (Z.of_nat (List.length (accounts m) + i)))
                 (seq 1 (List.length credentials))
    /\ NoDup ids
    /\ (forall id, In id ids -> dict_mem id (accounts m) = false)
    /\ accounts m' = (accounts m ++ added)%list
    /\ map fst added = ids
    /\ map (fun p => username (snd p)) added = map fst credentials
    /\ ids_from 1 (accounts m') = true
    /\ registry_ok (accounts m') = true.
Proof.
  induction credentials as [|[u p] rest IH]; intros m fs Hset Hc Hids.
  - exists [], m, fs, []. cbn. rewrite app_nil_r.
    repeat split; auto; try constructor; try contradiction.
    apply (ids_from_registry_ok _ 1); auto; lia.
  - destruct (add_account_appends now entropy m fs key u p "" "" Hset Hc Hids)
      as [acc [Hadd [Hid [Hu Hids1]]]].
    set (id := nth_account_id (Z.of_nat (List.length (accounts m)) + 1)) in *.
    set (m1 := with_accounts m (accounts m ++ [(id, acc)])%list) in *.
    destruct (IH m1 (save_accounts m1 fs)) as
      [ids [m' [fs' [added [Hrec [Hidseq [Hnd [Hfresh [Hacc [Hfst [Hun
       [Hids' Hok']]]]]]]]]]]]; auto.
    assert (Hlen1 : List.length (accounts m1)
                    = S (List.length (accounts m)))
      by (unfold m1; cbn [accounts with_accounts];
          rewrite length_app; cbn; lia).
    exists (id :: ids), m', fs', ((id, acc) :: added).
    cbn [add_accounts]. rewrite Hadd. cbn [bind]. rewrite Hrec. cbn [bind].
    split; [reflexivity|].
    assert (Hidm : dict_mem id (accounts m1) = true).
    { unfold m1. cbn [accounts with_accounts]. rewrite dict_mem_app.
      unfold dict_mem at 2. cbn [dict_get]. rewrite String.eqb_refl.
      apply orb_true_r. }
    split.
    { cbn [List.length seq map]. f_equal.
      - unfold id. f_equal. lia.
      - rewrite Hidseq, Hlen1, <- (seq_shift (List.length rest) 1), map_map.
        apply map_ext. intros i. f_equal. lia. }
    split.
    { constructor; [|exact Hnd]. intros Hin. apply Hfresh in Hin. congruence. }
    split.
    { intros id' [<- | Hin].
      - apply (ids_from_above _ 1); auto; lia.
      - apply Hfresh in Hin. unfold m1 in Hin.
        cbn [accounts with_accounts] in Hin. rewrite dict_mem_app in Hin.
        now apply orb_false_iff in Hin. }
    split.
    { rewrite Hacc. unfold m1. cbn [accounts with_accounts].
      now rewrite <- app_assoc. }
    split; [cbn [map fst]; congruence|].
    split; [cbn [map fst snd]; congruence|].
    split; assumption.
Qed.

(** Property X19 on the sample cipher: three accounts added to an empty
    vault. *)
Lemma add_accounts_fresh_ids_witness :
  exists m' fs',
    @add_accounts ToyCrypto example_now []
      (fst (@fresh_manager ToyCrypto sample_salt sample_files "correct horse"))
      sample_files
      [("13800000001", "s3cret"); ("13800000002", "hunter2");
       ("13800000003", "pa55word")]
    = Ok (["acc_001"; "acc_002"; "acc_003"], m', fs')
    /\ List.length (accounts m') = 3%nat.
Proof.
  destruct (@add_accounts_fresh_ids ToyCrypto example_now []
              (urlsafe_b64encode
                 (@pbkdf2_hmac_sha256 ToyCrypto sample_salt 100000
                    (encode "correct horse")))
              [("13800000001", "s3cret"); ("13800000002", "hunter2");
               ("13800000003", "pa55word")]
              (fst (@fresh_manager ToyCrypto sample_salt sample_files
                      "correct horse"))
              sample_files eq_refl eq_refl eq_refl)
    as [ids [m' [fs' [added [Hadd [Hids [_ [_ [Hacc [Hfst _]]]]]]]]]].
  exists m', fs'. split.
  - rewrite Hadd, Hids. vm_compute. reflexivity.
  - rewrite Hacc. rewrite length_app, <- (length_map fst added), Hfst, Hids.
    reflexivity.
Defined.

(* ================================================================== *)
(** ** Rotation during a run *)

Lemma registry_ok_lookup d a :
  registry_ok d = true -> In a (dict_values d) ->
  dict_get (account_id a) d = Some a.
Proof.
  induction d as [|[k v] d IH]; intros Hok Hin; [destruct Hin|].
  cbn [registry_ok] in Hok. apply andb_prop in Hok. destruct Hok as [Hok H3].
  apply andb_prop in Hok. destruct Hok as [H1 H2].
  apply String.eqb_eq in H1. apply negb_true_iff in H2.
  cbn [dict_get]. destruct Hin as [Ha|Hin].
  - simpl in Ha. subst v. now rewrite <- H1, String.eqb_refl.
  - specialize (IH H3 Hin).
    destruct (account_id a =? k)%string eqn:E; [|exact IH].
    apply String.eqb_eq in E. unfold dict_mem in H2.
    rewrite <- E, IH in H2. discriminate.
Qed.

(** What one round does to the registry and to the counters. *)
Lemma rotation_round_spec select_now usage_now answer r r1 entry :
  registry_ok (accounts (rot_manager r)) = true ->
  rotation_round select_now usage_now answer r = Ok (r1, entry) ->
  registry_ok (accounts (rot_manager r1)) = true
  /\ keywords_processed (stats (rot_state r1))
     = keywords_processed (stats (rot_state r))
       + match entry with Some (_, true) => 1 | _ => 0 end
  /\ match entry with
     | None => accounts (rot_manager r1) = accounts (rot_manager r)
     | Some (id, ok) =>
         exists a,
           dict_get id (accounts (rot_manager r)) = Some a
           /\ status a <> "banned" /\ consecutive_failures a < 3
           /\ (exists a',
                  dict_get id (accounts (rot_manager r1)) = Some a'
                  /\ total_searches a'
                     = total_searches a + (if ok then 1 else 0)
                  /\ consecutive_failures a'
                     = consecutive_failures a + (if ok then 0 else 1))
           /\ forall k, k <> id ->
                dict_get k (accounts (rot_manager r1))
                = dict_get k (accounts (rot_manager r))
     end.
Proof.
  intros Hok. unfold rotation_round.
  destruct (get_account_for_search (accounts (rot_manager r)) select_now)
    as [[account|]|] eqn:Esel; cbn [bind]; [| |discriminate].
  - destruct (get_account_for_search_candidate _ _ _ Esel) as [Hin Hcand].
    pose proof (registry_ok_lookup _ _ Hok Hin) as Hget.
    unfold is_candidate in Hcand. apply andb_prop in Hcand.
    destruct Hcand as [Hnb Hcf]. apply negb_true_iff in Hnb.
    apply String.eqb_neq in Hnb. apply Z.ltb_lt in Hcf.
    cbn [status_value] in Hnb.
    destruct answer as [posts comments|]; intros Heq; apply Ok_inj in Heq;
      injection Heq as <- <-; cbn [rot_manager rot_state].
    + rewrite (record_usage_known _ _ _ _ _ Hget).
      cbn [fst accounts with_accounts].
      split; [apply registry_ok_set; auto|].
      split; [reflexivity|].
      exists account. split; [exact Hget|]. split; [exact Hnb|].
      split; [exact Hcf|]. split.
      * eexists. rewrite dict_get_set_same. split; [reflexivity|].
        cbn. split; lia.
      * intros k Hk. apply dict_get_set_other. congruence.
    + unfold mark_login_failed.
      rewrite (update_account_status_known _ _ _ _ _ _ Hget).
      cbn [fst accounts with_accounts].
      split; [apply registry_ok_set; auto|].
      split; [lia|].
      exists account. split; [exact Hget|]. split; [exact Hnb|].
      split; [exact Hcf|]. split.
      * eexists. rewrite dict_get_set_same. split; [reflexivity|].
        cbn. split; lia.
      * intros k Hk. apply dict_get_set_other. congruence.
  - intros Heq. apply Ok_inj in Heq. injection Heq as <- <-.
    split; [exact Hok|]. split; [lia | reflexivity].
Qed.

Lemma uses_of_cons id e log :
  uses_of id (e :: log)
  = (if (fst e =? id)%string && snd e then 1 else 0) + uses_of id log.
Proof.
  exact (count_cons (fun e : string * bool => (fst e =? id)%string && snd e)
                    e log).
Qed.

Lemma failures_of_cons id e log :
  failures_of id (e :: log)
  = (if (fst e =? id)%string && negb (snd e) then 1 else 0)
    + failures_of id log.
Proof.
  exact (count_cons
           (fun e : string * bool => (fst e =? id)%string && negb (snd e))
           e log).
Qed.

Lemma count_nonneg {A} (f : A -> bool) l : 0 <= count f l.
Proof. unfold count. lia. Qed.



(* ================================================================== *)
(** ** Which account is chosen among equals; when none is chosen *)

Section SortStable.

Context {A K : Type}.
Variable key : A -> K.
Variable lt : K -> K -> bool.

Hypothesis lt_asym : forall a b, lt a b = true -> lt b a = false.
Hypothesis lt_negtrans :
  forall a b c, lt a b = false -> lt b c = false -> lt a c = false.

(** The head of the sorted list is the first element of the list with
    the least key. *)
Lemma hd_sort_first l : forall h,
  hd_error (sort_by_key key lt l) = Some h ->
  exists l1 l2,
    l = (l1 ++ h :: l2)%list
    /\ (forall y, In y l1 -> lt (key h) (key y) = true)
    /\ (forall y, In y l2 -> lt (key y) (key h) = false).
Proof.
  induction l as [|x t IH]; intros h Hh; [discriminate|].
  cbn [sort_by_key fold_right] in Hh.
  fold (sort_by_key key lt t) in Hh.
  destruct (sort_by_key key lt t) as [|h' s] eqn:Es.
  - apply (sort_by_key_nil key lt) in Es. subst t.
    cbn in Hh. injection Hh as <-. exists [], [].
    repeat split; intros y [].
  - cbn [insert] in Hh.
    destruct (IH h' eq_refl) as [l1 [l2 [Ht [H1 H2]]]].
    destruct (lt (key h') (key x)) eqn:E; cbn [hd_error] in Hh;
      injection Hh as <-.
    + exists (x :: l1), l2. split; [now rewrite Ht|].
      split; [|exact H2].
      intros y [<-|Hy]; [exact E | now apply H1].
    + exists [], t. split; [reflexivity|]. split; [intros y []|].
      intros y Hy. apply lt_negtrans with (b := key h'); [|exact E].
      rewrite Ht in Hy. apply in_app_or in Hy.
      destruct Hy as [Hy|[<-|Hy]].
      * apply lt_asym. now apply H1.
      * destruct (lt (key h') (key h')) eqn:Er; [|reflexivity].
        now rewrite (lt_asym _ _ Er) in Er.
      * now apply H2.
Qed.

End SortStable.

Lemma scan_candidates_scores now items : forall cands,
  scan_candidates now items = Ok cands ->
  Forall (fun p => account_score now (fst p) = Ok (snd p)) cands.
Proof.
  induction items as [|[k a] rest IH]; cbn [scan_candidates]; intros cands H.
  - apply Ok_inj in H. subst. constructor.
  - destruct (status a =? status_value BANNED)%string; [now apply IH|].
    destruct (consecutive_failures a >=? 3); [now apply IH|].
    destruct (account_score now a) as [s|] eqn:Es; [|discriminate].
    cbn [bind] in H.
    destruct (scan_candidates now rest) as [cs|]; [|discriminate].
    cbn [bind] in H. apply Ok_inj in H. subst cands.
    constructor; [exact Es | now apply IH].
Qed.

Lemma map_fst_split {A B} (l : list (A * B)) l1 (p : A * B) l2 :
  l = (l1 ++ p :: l2)%list ->
  map fst l = (map fst l1 ++ fst p :: map fst l2)%list.
Proof. intros ->. now rewrite map_app. Qed.



Lemma scan_accounts_complete rc cd now items : forall av co,
  scan_accounts rc cd now items = Ok (av, co) ->
  forall a, In a (dict_values items) -> banned_or_limited a = false ->
            In a av \/ In a (map fst co).
Proof.
  induction items as [|[k x] rest IH]; intros av co Hs a Hin Ha;
    [destruct Hin|].
  cbn [scan_accounts] in Hs. cbn in Hin.
  destruct (banned_or_limited x) eqn:Ex.
  - destruct Hin as [->|Hin]; [congruence|]. eapply IH; eauto.
  - destruct (rc && truthy (last_used_at x)).
    + destruct (fromisoformat (last_used_at x)) as [lu|]; [|discriminate].
      destruct (add lu cd) as [ce|]; [|discriminate]. cbn [bind] in Hs.
      destruct (scan_accounts rc cd now rest) as [[av' co']|] eqn:Er;
        [|discriminate].
      cbn [bind] in Hs.
      destruct (now <? ce); apply Ok_inj in Hs; injection Hs as <- <-.
      * destruct Hin as [->|Hin]; [right; now left|].
        destruct (IH _ _ eq_refl a Hin Ha); [now left | right; now right].
      * destruct Hin as [->|Hin]; [left; now left|].
        destruct (IH _ _ eq_refl a Hin Ha); [left; now right | now right].
    + destruct (scan_accounts rc cd now rest) as [[av' co']|] eqn:Er;
        [|discriminate].
      cbn [bind] in Hs. apply Ok_inj in Hs. injection Hs as <- <-.
      destruct Hin as [->|Hin]; [left; now left|].
      destruct (IH _ _ eq_refl a Hin Ha); [left; now right | now right].
Qed.

Lemma get_next_account_member accounts rc cd now a :
  get_next_account accounts rc cd now = Ok (Some a) ->
  In a (dict_values accounts) /\ banned_or_limited a = false.
Proof.
  unfold get_next_account. destruct accounts as [|p rest]; [discriminate|].
  destruct (scan_accounts rc cd now (p :: rest)) as [[av co]|] eqn:Es;
    [|discriminate].
  cbn [bind]. destruct (scan_accounts_members _ _ _ _ _ _ Es) as [H1 H2].
  destruct av as [|x av'].
  - destruct co as [|y co']; [discriminate|].
    intros H. apply Ok_inj in H.
    destruct (hd_error (sort_by_key snd Z.ltb (y :: co'))) as [[a' e]|] eqn:Eh;
      cbn in H; [|discriminate].
    injection H as ->.
    apply hd_sort_least in Eh; [|exact Zltb_asym | exact Zltb_negtrans].
    destruct Eh as [Hin _]. exact (H2 _ Hin).
  - intros H. apply Ok_inj in H.
    apply hd_sort_least in H; [|exact key3_lt_asym | exact key3_lt_negtrans].
    destruct H as [Hin _]. exact (H1 _ Hin).
Qed.

(** Property X22.  [get_next_account] answers that there is no account
    only when there is none to use: whenever it returns, with or without
    [respect_cooldown], its result is [None] exactly when
    [get_all_available_accounts] is empty, that is when every account is
    banned or limited (or there is no account at all).  While an account
    that is neither banned nor limited exists, one is returned, also when
    all of them are in cooldown. *)
Theorem get_next_account_none (accounts : accounts_dict)
    (respect_cooldown : bool) (cooldown : timedelta) (now : datetime)
    (r : option AccountConfig) :
  get_next_account accounts respect_cooldown cooldown now = Ok r ->
  (r = None <-> get_all_available_accounts accounts = []).
Proof.
  intros Hget. pose proof Hget as Hget0. unfold get_next_account in Hget.
  unfold get_all_available_accounts.
  destruct accounts as [|p d] eqn:Ed.
  { apply Ok_inj in Hget. subst r. tauto. }
  rewrite <- Ed in *.
  destruct (scan_accounts respect_cooldown cooldown now accounts)
    as [[av co]|] eqn:Es; [|discriminate].
  cbn [bind] in Hget.
  pose proof (scan_accounts_complete _ _ _ _ _ _ Es) as Hcomplete.
  split.
  - intros ->.
    assert (Hnil : av = [] /\ co = []).
    { destruct av as [|a0 av'].
      - destruct co as [|c0 co']; [auto|].
        apply Ok_inj in Hget.
        destruct (hd_sort_some snd Z.ltb (c0 :: co') ltac:(discriminate))
          as [h Hh].
        rewrite Hh in Hget. discriminate.
      - apply Ok_inj in Hget.
        destruct (hd_sort_some available_key key3_lt (a0 :: av')
                    ltac:(discriminate)) as [h Hh].
        rewrite Hh in Hget. discriminate. }
    destruct Hnil as [-> ->].
    destruct (filter (fun acc => negb (banned_or_limited acc))
                     (dict_values accounts)) as [|a l] eqn:Ef;
      [reflexivity|].
    assert (Hin : In a (a :: l)) by now left.
    rewrite <- Ef in Hin. apply filter_In in Hin. destruct Hin as [Hin Ha].
    apply negb_true_iff in Ha.
    destruct (Hcomplete a Hin Ha) as [[]|[]].
  - intros Hnone. destruct r as [a|]; [|reflexivity].
    destruct (get_next_account_member _ _ _ _ _ Hget0) as [Hin Ha].
    assert (Hf : In a (filter (fun acc => negb (banned_or_limited acc))
                              (dict_values accounts)))
      by (apply filter_In; split; [exact Hin | now rewrite Ha]).
    rewrite Hnone in Hf. destruct Hf.
Qed.

(** Property X22 on the demonstration registry with every account in
    cooldown or out of use: an account is returned all the same. *)
Lemma get_next_account_none_witness :
  get_next_account
    [("acc_002", demo_account "acc_002" 12 ACTIVE "2024-06-01T11:30:00");
     ("acc_005", demo_account "acc_005" 8 LIMITED "")]
    true us_per_hour example_now
  = Ok (Some (demo_account "acc_002" 12 ACTIVE "2024-06-01T11:30:00"))
  /\ get_all_available_accounts
       [("acc_002", demo_account "acc_002" 12 ACTIVE "2024-06-01T11:30:00");
        ("acc_005", demo_account "acc_005" 8 LIMITED "")]
     <> [].
Proof.
  assert (E : get_next_account
                [("acc_002",
                  demo_account "acc_002" 12 ACTIVE "2024-06-01T11:30:00");
                 ("acc_005", demo_account "acc_005" 8 LIMITED "")]
                true us_per_hour example_now
              = Ok (Some (demo_account "acc_002" 12 ACTIVE
                            "2024-06-01T11:30:00")))
    by (vm_compute; reflexivity).
  split; [exact E|].
  intros Hnil. apply (proj2 (get_next_account_none _ _ _ _ _ E)) in Hnil.
  discriminate Hnil.
Defined.

(* ================================================================== *)
(** ** The monitoring service *)

Lemma run_stored_raises post_dict comment_dict config time_range sc
      save1 save2 d :
  exists e,
    fst (run_stored post_dict comment_dict config time_range sc save1 save2 d)
    = Reraised e.
Proof.
  unfold run_stored.
  destruct (init_browser_io sc) as [e0|]; [now exists e0|].
  destruct (try_body sc _) as [st raised].
  unfold try_end_stored.
  destruct raised as [e|].
  - rewrite handle_exception_run.
    destruct (negb (is_Exception e) || nonempty (all_posts st)
              || nonempty (all_comments st)); eexists; reflexivity.
  - rewrite save_results_of_run.
    rewrite handle_exception_run.
    match goal with |- context [if ?c then _ else _] => destruct c end;
      eexists; reflexivity.
Qed.

